(** * OCR_EXTRACTOR: the document-to-pages-to-structured-result pipeline

    A shallow embedding of [utils/llm_client.py], [utils/pdf_processor.py],
    [utils/image_processor.py], [utils/output_formatter.py],
    [utils/document_processor.py] and the parts of [config.py] they read,
    followed by the properties of the pipeline.

    Python values are embedded as a small universe [pyval]; a Python
    exception is the [Raise] outcome of a [result]; the file system and
    the log of requests made to the model gateway form an explicit
    [World] threaded through a state-and-exception monad [M]; the
    libraries the program calls but does not contain (the Ollama backend,
    [json.loads], pdf2image, PIL, python-docx, pandas, openpyxl) are the
    fields of an environment record [Env].  Text is a sequence of
    code points below 256. *)

From Stdlib Require Import String Ascii List ZArith Lia Bool Arith DecimalString.
Import ListNotations.
Local Open Scope string_scope.
Local Open Scope Z_scope.
Set Warnings "-register-all".

(** ** Python values, exceptions and results *)

Module Py.

(** The exceptions the modelled code can meet.  [JSONDecodeError] is the
    one class an [except] clause of the program names; [Failure] stands
    for the other exceptions raised by a library ([requests], [json],
    pdf2image, PIL, pandas, openpyxl, ...), carrying [str(e)]. *)
Inductive exn : Type :=
| KeyError (key : string)
| TypeError (msg : string)
| AttributeError (msg : string)
| JSONDecodeError (msg : string)
| Failure (msg : string).

Inductive result (A : Type) : Type :=
| Ok (a : A)
| Raise (e : exn).
Arguments Ok {A} a.
Arguments Raise {A} e.

(** [str(e)] of an exception. *)
Definition exn_str (e : exn) : string :=
  match e with
  | KeyError k => "'" ++ k ++ "'"
  | TypeError m | AttributeError m | JSONDecodeError m | Failure m => m
  end.

(** Values: what [json.loads] can return and what the program builds from
    such values.  A [dict] is kept as an association list in insertion
    order (its keys are always strings here); a float is kept as its
    literal. *)
Inductive pyval : Type :=
| PNone
| PBool (b : bool)
| PInt (z : Z)
| PFloat (lit : string)
| PStr (s : string)
| PList (l : list pyval)
| PDict (d : list (string * pyval)).

Definition dict := list (string * pyval).

(** [d.get(k)] on the association list: the binding of [k], if any. *)
Fixpoint lookup (k : string) (d : dict) : option pyval :=
  match d with
  | [] => None
  | (k', v) :: d' => if String.eqb k k' then Some v else lookup k d'
  end.

(** [k in d] *)
Definition has_key (k : string) (d : dict) : bool :=
  match lookup k d with Some _ => true | None => false end.

(** [d[k]]: raises [KeyError] when the key is missing. *)
Definition getitem (d : dict) (k : string) : result pyval :=
  match lookup k d with
  | Some v => Ok v
  | None => Raise (KeyError k)
  end.

(** [d.get(k, default)] *)
Definition get (d : dict) (k : string) (default : pyval) : pyval :=
  match lookup k d with
  | Some v => v
  | None => default
  end.

(** [v[k]] and [v.get(k, default)] on a value that need not be a dict. *)
Definition subscript (v : pyval) (k : string) : result pyval :=
  match v with
  | PDict d => getitem d k
  | _ => Raise (TypeError "object is not subscriptable with a str key")
  end.

Definition get_method (v : pyval) (k : string) (default : pyval) : result pyval :=
  match v with
  | PDict d => Ok (get d k default)
  | _ => Raise (AttributeError "object has no attribute 'get'")
  end.

(** Truth value of a value in a condition. *)
Definition truthy (v : pyval) : bool :=
  match v with
  | PNone => false
  | PBool b => b
  | PInt z => negb (z =? 0)
  | PFloat _ => true
  | PStr s => negb (String.eqb s "")
  | PList l => match l with [] => false | _ => true end
  | PDict d => match d with [] => false | _ => true end
  end.

Definition isinstance_dict (v : pyval) : bool :=
  match v with PDict _ => true | _ => false end.

Definition isinstance_list (v : pyval) : bool :=
  match v with PList _ => true | _ => false end.

(** The characters of a string as one-character strings. *)
Fixpoint chars (s : string) : list pyval :=
  match s with
  | EmptyString => []
  | String c s' => PStr (String c EmptyString) :: chars s'
  end.

(** What [list.extend(v)] iterates over: the items of a list, the
    characters of a string, the keys of a dict; anything else is not
    iterable. *)
Definition iterate (v : pyval) : result (list pyval) :=
  match v with
  | PList l => Ok l
  | PStr s => Ok (chars s)
  | PDict d => Ok (map (fun kv => PStr (fst kv)) d)
  | _ => Raise (TypeError "object is not iterable")
  end.

(** *** Strings *)

(** [str.lower()] on code points below 256: it acts code point by code
    point there, and folds [A]..[Z] (65..90) and the capital letters
    192..222 of Latin-1, the multiplication sign 215 apart, to the code
    point 32 above. *)
Definition lower_char (c : ascii) : ascii :=
  let n := nat_of_ascii c in
  if ((Nat.leb 65 n && Nat.leb n 90)
      || (Nat.leb 192 n && Nat.leb n 222 && negb (Nat.eqb n 215)))%bool
  then ascii_of_nat (n + 32) else c.

Fixpoint lower (s : string) : string :=
  match s with
  | EmptyString => EmptyString
  | String c s' => String (lower_char c) (lower s')
  end.

Definition len (s : string) : Z := Z.of_nat (String.length s).

(** [sub in s] *)
Definition str_in (sub s : string) : bool :=
  match String.index 0 sub s with Some _ => true | None => false end.

(** [s.find(sub)]: lowest index of an occurrence, [-1] when there is
    none. *)
Definition find (s sub : string) : Z :=
  match String.index 0 sub s with
  | Some n => Z.of_nat n
  | None => -1
  end.

(** Highest index at which [sub] occurs in [s]. *)
Fixpoint rindex (sub s : string) : option nat :=
  match s with
  | EmptyString => if String.prefix sub EmptyString then Some 0%nat else None
  | String _ s' =>
      match rindex sub s' with
      | Some n => Some (S n)
      | None => if String.prefix sub s then Some 0%nat else None
      end
  end.

(** [s.rfind(sub)] *)
Definition rfind (s sub : string) : Z :=
  match rindex sub s with
  | Some n => Z.of_nat n
  | None => -1
  end.

(** A slice bound as Python normalises it: negative bounds count from the
    end, and every bound is clipped to [0 .. len]. *)
Definition clip (n i : Z) : Z :=
  if i <? 0 then Z.max 0 (i + n) else Z.min i n.

(** [s[i:j]] *)
Definition slice (s : string) (i j : Z) : string :=
  let a := clip (len s) i in
  let b := clip (len s) j in
  String.substring (Z.to_nat a) (Z.to_nat (b - a)) s.

(** [l[i:j]] for non-negative bounds. *)
Definition list_slice {A : Type} (l : list A) (i j : nat) : list A :=
  firstn (j - i) (skipn i l).

(** [range(start, stop, step)] for a positive step. *)
Definition range (start stop step : nat) : list nat :=
  map (fun k => (start + k * step)%nat)
      (seq 0 ((stop - start + (step - 1)) / step)).

(** [enumerate(l)] *)
Definition enumerate {A : Type} (l : list A) : list (nat * A) :=
  combine (seq 0 (length l)) l.

(** [str(n)] for a natural number, and the format [{n:03d}]. *)
Definition str_nat (n : nat) : string :=
  NilEmpty.string_of_uint (Nat.to_uint n).

Fixpoint zeros (k : nat) : string :=
  match k with
  | O => EmptyString
  | S k' => String "0" (zeros k')
  end.

Definition format_03d (n : nat) : string :=
  let s := str_nat n in
  zeros (3 - String.length s) ++ s.

(** [str(z)] for an integer. *)
Definition str_int (z : Z) : string :=
  NilEmpty.string_of_int (Z.to_int z).

End Py.
Import Py.

(** ** Paths ([pathlib.Path]) *)

(** A path is its parent directory and its final component. *)
Record Path : Type := mkPath { parent : string; name : string }.

(** [str(p)] *)
Definition path_str (p : Path) : string := parent p ++ "/" ++ name p.

(** [folder / child] *)
Definition joinpath (folder : Path) (child : string) : Path :=
  mkPath (path_str folder) child.

(** [p.suffix]: the final component from its last dot on, unless that dot
    is its first or its last character. *)
Definition suffix (p : Path) : string :=
  let i := rfind (name p) "." in
  if (0 <? i) && (i <? len (name p) - 1) then slice (name p) i (len (name p))
  else "".

(** [p.stem]: the final component without its suffix. *)
Definition stem (p : Path) : string :=
  slice (name p) 0 (len (name p) - len (suffix p)).

(** [p.with_suffix(ext)] *)
Definition with_suffix (p : Path) (ext : string) : Path :=
  mkPath (parent p) (stem p ++ ext).

(** ** The world: files, directories, gateway requests *)

(** A PIL image, known by its size. *)
Record Image : Type := mkImage { width : nat; height : nat }.

(** A pandas [DataFrame]: column labels and rows of cells. *)
Record DataFrame : Type :=
  mkFrame { columns : list pyval; rows : list (list pyval) }.

(** The workbook of an Excel writer: its sheets in the order they were
    created, each under the name it was asked for, and kept as the frame
    it shows (the header row and the rows of cells).  Column widths are
    not kept. *)
Definition Book : Type := list (string * DataFrame).

(** What a file holds.  A JSON file holds the value that was dumped into
    it: [json.dump] followed by [json.load] gives the value back, for the
    values of [pyval].  [Empty] is a file that was opened for writing and
    nothing more; [Unfinished] is a file whose writing was broken off by
    an exception: some bytes, no readable document. *)
Inductive content : Type :=
| Empty
| Unfinished
| Json (v : pyval)
| Png (img : Image)
| Workbook (sheets : Book).

(** [requests] lists the calls made to the model gateway, oldest first,
    as (image path, prompt type). *)
Record World : Type := mkWorld {
  files : list (string * content);
  dirs : list string;
  requests : list (string * string)
}.

(** The content of a file: the last thing written to it. *)
Fixpoint read_file (p : string) (fs : list (string * content)) : option content :=
  match fs with
  | [] => None
  | (q, c) :: fs' =>
      match read_file p fs' with
      | Some c' => Some c'
      | None => if String.eqb p q then Some c else None
      end
  end.

(** ** The monad of the program: state and exceptions *)

(** A computation runs in a state and ends in a value or an exception,
    and in the state it has made; the effects of a computation that
    raises stay.  The program runs in the world; the block of an Excel
    writer runs in the workbook of the writer. *)
Definition ST (S A : Type) : Type := S -> result A * S.

Definition M : Type -> Type := ST World.

Definition ret {S A : Type} (a : A) : ST S A := fun s => (Ok a, s).

Definition bind {S A B : Type} (c : ST S A) (k : A -> ST S B) : ST S B :=
  fun s =>
    match c s with
    | (Ok a, s') => k a s'
    | (Raise e, s') => (Raise e, s')
    end.

Definition throw {S A : Type} (e : exn) : ST S A := fun s => (Raise e, s).

(** A pure step that may raise. *)
Definition lift {S A : Type} (r : result A) : ST S A := fun s => (r, s).

(** [try: c  except Exception as e: handler(e)] *)
Definition try_except {S A : Type} (c : ST S A) (handler : exn -> ST S A) : ST S A :=
  fun s =>
    match c s with
    | (Ok a, s') => (Ok a, s')
    | (Raise e, s') => handler e s'
    end.

Declare Scope monad_scope.
Delimit Scope monad_scope with monad.
Notation "x <- c ;; k" := (bind c (fun x => k))
  (at level 61, c at next level, right associativity) : monad_scope.
Notation "c ;;; k" := (bind c (fun _ => k))
  (at level 61, right associativity) : monad_scope.
Local Open Scope monad_scope.

(** Sequencing of pure steps that may raise. *)
Definition and_then {A B : Type} (r : result A) (k : A -> result B) : result B :=
  match r with
  | Ok a => k a
  | Raise e => Raise e
  end.

(** [for x in xs: acc = body(x, acc)] *)
Fixpoint for_each {S X A : Type} (xs : list X) (body : X -> A -> ST S A) (acc : A)
    : ST S A :=
  match xs with
  | [] => ret acc
  | x :: xs' => acc' <- body x acc ;; for_each xs' body acc'
  end.

Definition mkdir (dir : string) : M unit :=
  fun w => (Ok tt, mkWorld (files w) (dirs w ++ [dir]) (requests w)).

(** Writing a file (also [open(p, 'w')], which leaves it empty). *)
Definition write_file (p : Path) (c : content) : M unit :=
  fun w => (Ok tt, mkWorld (files w ++ [(path_str p, c)]) (dirs w) (requests w)).

Definition log_request (image_path : Path) (prompt_type : string) : M unit :=
  fun w => (Ok tt, mkWorld (files w) (dirs w)
                           (requests w ++ [(path_str image_path, prompt_type)])).

(** ** The libraries around the program *)

(** What the backend answers to one generation request.  [Unreachable]
    covers every exception of the request path: the image cannot be read,
    the connection fails, the status is not 2xx, the body is not JSON.
    [Generated r] is a decoded reply; [r] is its [response] field, the
    generated text, or [None] when the reply has no such field. *)
Inductive reply : Type :=
| Unreachable (e : exn)
| Generated (response : option string).

Record Env : Type := mkEnv {
  (** the directory of [config.py] *)
  BASE_DIR : Path;
  (** the backend's answer for an image (by path) and a prompt; a run
      asks each pair once, so a function loses nothing *)
  backend : string -> string -> reply;
  (** [json.loads] on a string: the value, or the exception it raises,
      [JSONDecodeError] on a text that is no JSON document, another one
      on a document it gives up on (an integer literal longer than the
      conversion limit, a nesting deeper than the recursion limit) *)
  json_loads : string -> result pyval;
  (** [pdf2image.convert_from_path] *)
  convert_from_path : Path -> result (list Image);
  (** [image.save(path)] *)
  image_save : Image -> Path -> result unit;
  (** [docx.Document(path)], as the texts of its paragraphs *)
  docx_Document : Path -> result (list string);
  (** the PIL steps of [preprocess_image]: the temporary file it saves *)
  pil_preprocess : Path -> result Path;
  (** [pd.DataFrame(x)] *)
  pd_DataFrame : pyval -> result DataFrame;
  (** [pd.DataFrame(values, columns=headers)] *)
  pd_DataFrame_columns : pyval -> pyval -> result DataFrame;
  (** [pd.DataFrame.from_dict(x)] *)
  pd_from_dict : pyval -> result DataFrame;
  (** the text an f-string gives a float or a container *)
  repr : pyval -> string;
  (** [df.to_excel(writer, sheet_name=..., index=False)]: whether it
      raises (a name Excel refuses, a cell it cannot hold) *)
  to_excel : string -> DataFrame -> result unit;
  (** the workbook a [to_excel] that raised leaves in the writer: the
      sheet may have been created, and some of its cells written *)
  interrupted : string -> DataFrame -> Book -> Book;
  (** the loop that sets the column widths of the sheet of a frame *)
  column_widths : DataFrame -> result unit;
  (** saving a workbook that has a sheet, as closing a writer does *)
  save : Book -> result unit
}.

(** ** The workbook of an Excel writer *)

(** Cells written over cells: the new ones, and the old ones they do not
    cover. *)
Definition over {A : Type} (old new : list A) : list A :=
  new ++ skipn (length new) old.

Fixpoint over_rows (old new : list (list pyval)) : list (list pyval) :=
  match old, new with
  | o :: old', n :: new' => over o n :: over_rows old' new'
  | [], _ => new
  | _, [] => old
  end.

Definition overlay (old new : DataFrame) : DataFrame :=
  mkFrame (over (columns old) (columns new)) (over_rows (rows old) (rows new)).

(** The workbook after a frame was written to the sheet [name]: one more
    sheet, after the others; or, when the writer has a sheet of that
    name already, that sheet with the frame written over it. *)
Fixpoint put_sheet (name : string) (df : DataFrame) (book : Book) : Book :=
  match book with
  | [] => [(name, df)]
  | (name', old) :: book' =>
      if String.eqb name name' then (name', overlay old df) :: book'
      else (name', old) :: put_sheet name df book'
  end.

(** ** config.py *)

Definition UPLOAD_FOLDER (E : Env) : Path :=
  joinpath (joinpath (BASE_DIR E) "data") "uploads".
Definition SCREENSHOT_FOLDER (E : Env) : Path :=
  joinpath (joinpath (BASE_DIR E) "data") "screenshots".
Definition OUTPUT_FOLDER (E : Env) : Path :=
  joinpath (joinpath (BASE_DIR E) "data") "outputs".

Definition ALLOWED_EXTENSIONS : list string :=
  ["pdf"; "jpg"; "jpeg"; "png"; "tiff"; "docx"].

Definition PROMPTS : list (string * string) :=
  [ ("text_extraction",
     "Extract all text content from this image. Format the output as JSON with headers and content sections. "
     ++ "Identify any sections, titles, or structural elements in the document.");
    ("table_extraction",
     "Extract any tables from this image. For each table, provide the data in a structured format "
     ++ "with column headers and row values. Format as JSON that can be converted to Excel.");
    ("document_analysis",
     "Analyze this document image and determine its type (text document, form, invoice, etc.). "
     ++ "Identify if it contains tables, images with text, or pure text content.") ].

(** [PROMPTS.get(prompt_type, PROMPTS["text_extraction"])] *)
Fixpoint prompts_get (ps : list (string * string)) (k default : string) : string :=
  match ps with
  | [] => default
  | (k', v) :: ps' => if String.eqb k k' then v else prompts_get ps' k default
  end.

Definition prompt_for (prompt_type : string) : string :=
  prompts_get PROMPTS prompt_type (prompts_get PROMPTS "text_extraction" "").

Section Program.

Variable E : Env.

(** ** utils/llm_client.py *)

(** [try: c  except json.JSONDecodeError: handler] *)
Definition try_except_JSONDecodeError {A : Type} (c : M A) (handler : M A) : M A :=
  fun w =>
    match c w with
    | (Raise (JSONDecodeError _), w') => handler w'
    | outcome => outcome
    end.

(** [OllamaClient.process_image].  The request is logged when the method
    is entered.  Everything from reading the image to decoding the reply
    sits in the outer [try]; whatever it raises becomes a failure
    response.  The inner [try] catches [JSONDecodeError] only: another
    exception of [json.loads] goes to the outer handler. *)
Definition process_image (image_path : Path) (prompt_type : string) : M pyval :=
  let prompt := prompt_for prompt_type in
  log_request image_path prompt_type ;;;
  try_except
    (response <- lift match backend E (path_str image_path) prompt with
                      | Unreachable e => Raise e
                      | Generated response => Ok response
                      end ;;
     let result_response := match response with Some t => t | None => "" end in
     try_except_JSONDecodeError
       (let text_content := result_response in
        if str_in "{" text_content && str_in "}" text_content then
          let json_start := find text_content "{" in
          let json_end := rfind text_content "}" + 1 in
          let json_str := slice text_content json_start json_end in
          parsed_data <- lift (json_loads E json_str) ;;
          ret (PDict [("success", PBool true);
                      ("data", parsed_data);
                      ("raw_response", PStr text_content)])
        else
          ret (PDict [("success", PBool true);
                      ("data", PDict [("text", PStr text_content)]);
                      ("raw_response", PStr text_content)]))
       (ret (PDict [("success", PBool true);
                    ("data", PDict [("text", PStr result_response)]);
                    ("raw_response", PStr result_response)])))
    (fun e => ret (PDict [("success", PBool false); ("error", PStr (exn_str e))])).

Definition analyze_document_type (image_path : Path) : M pyval :=
  process_image image_path "document_analysis".

Definition extract_text (image_path : Path) : M pyval :=
  process_image image_path "text_extraction".

Definition extract_table (image_path : Path) : M pyval :=
  process_image image_path "table_extraction".

(** ** utils/pdf_processor.py *)

(** The loop of [pdf_to_images] and of [docx_to_images]: save page [i+1]
    as [page_<i+1:03d>.png] in the output folder and keep its path. *)
Definition save_page (output_folder : Path) (page : nat * Image)
    (image_paths : list Path) : M (list Path) :=
  let image_path :=
    joinpath output_folder ("page_" ++ format_03d (fst page + 1) ++ ".png") in
  lift (image_save E (snd page) image_path) ;;;
  write_file image_path (Png (snd page)) ;;;
  ret (image_paths ++ [image_path])%list.

(** [PDFProcessor.pdf_to_images] *)
Definition pdf_to_images (pdf_path output_folder : Path) : M (list Path) :=
  mkdir (path_str output_folder) ;;;
  try_except
    (images <- lift (convert_from_path E pdf_path) ;;
     for_each (enumerate images) (save_page output_folder) [])
    (fun _ => ret []).

(** [PDFProcessor.docx_to_images]: ten paragraphs per page, one blank
    800 x 1000 image per chunk. *)
Definition docx_to_images (docx_path output_folder : Path) : M (list Path) :=
  mkdir (path_str output_folder) ;;;
  try_except
    (paragraphs <- lift (docx_Document E docx_path) ;;
     let chunks :=
       map (fun i => list_slice paragraphs i (i + 10))
           (range 0 (length paragraphs) 10) in
     for_each (enumerate chunks)
              (fun chunk => save_page output_folder (fst chunk, mkImage 800 1000))
              [])
    (fun _ => ret []).

(** ** utils/image_processor.py *)

(** [ImageProcessor.preprocess_image]: the temporary file of the
    enhanced image, or the original path when any PIL step raises. *)
Definition preprocess_image (image_path : Path) : Path :=
  match pil_preprocess E image_path with
  | Ok temp_path => temp_path
  | Raise _ => image_path
  end.

(** ** utils/output_formatter.py *)

(** [d[k] = v] *)
Fixpoint setitem (d : dict) (k : string) (v : pyval) : dict :=
  match d with
  | [] => [(k, v)]
  | (k', v') :: d' =>
      if String.eqb k k' then (k', v) :: d' else (k', v') :: setitem d' k v
  end.

(** [format_text_output]: the normalising writer of the text artifact. *)
Definition format_text_output (text_data : pyval) (output_path : Path) : M (option Path) :=
  try_except
    (mkdir (parent output_path) ;;;
     let formatted_data := [("headers", PList []); ("content", PList [])] in
     formatted_data <- lift
       match text_data with
       | PDict d =>
           and_then
             (if has_key "headers" d
              then and_then (getitem d "headers")
                     (fun h => Ok (setitem formatted_data "headers" h))
              else Ok formatted_data)
             (fun formatted_data =>
                if has_key "content" d
                then and_then (getitem d "content")
                       (fun c => Ok (setitem formatted_data "content" c))
                else if has_key "text" d
                then and_then (getitem d "text")
                       (fun t => Ok (setitem formatted_data "content" (PList [t])))
                else Ok formatted_data)
       | _ => Ok (setitem formatted_data "content" (PList [text_data]))
       end ;;
     write_file output_path (Json (PDict formatted_data)) ;;;
     ret (Some output_path))
    (fun _ => ret None).

(** [pd.DataFrame({"Error": [msg]})]: one column, one row. *)
Definition error_frame (msg : string) : DataFrame :=
  mkFrame [PStr "Error"] [[PStr msg]].

(** The choice of the frame of one table in [format_table_output]
    (the [if isinstance(table_content, list)] cascade). *)
Definition table_frame (table_content : pyval) : result DataFrame :=
  match table_content with
  | PList _ => pd_DataFrame E table_content
  | PDict d =>
      if has_key "rows" d then
        and_then (getitem d "rows") (pd_DataFrame E)
      else if has_key "data" d then
        and_then (getitem d "data") (pd_DataFrame E)
      else if has_key "headers" d && has_key "values" d then
        and_then (getitem d "values") (fun values =>
        and_then (getitem d "headers") (fun headers =>
        pd_DataFrame_columns E values headers))
      else
        match pd_from_dict E table_content with
        | Ok df => Ok df
        | Raise _ => Ok (error_frame "Could not parse table data")
        end
  | _ => Ok (error_frame "Unexpected table data format")
  end.

(** [str(v)], as an f-string formats a value. *)
Definition str_value (v : pyval) : string :=
  match v with
  | PNone => "None"
  | PBool true => "True"
  | PBool false => "False"
  | PInt z => str_int z
  | PStr s => s
  | _ => repr E v
  end.

(** [df.to_excel(writer, sheet_name=sheet_name, index=False)], in the
    workbook of the writer. *)
Definition df_to_excel (sheet_name : string) (df : DataFrame) : ST Book unit :=
  fun book =>
    match to_excel E sheet_name df with
    | Ok _ => (Ok tt, put_sheet sheet_name df book)
    | Raise e => (Raise e, interrupted E sheet_name df book)
    end.

(** [writer.close()]: the workbook is saved to the file of the writer.
    openpyxl saves no workbook without a sheet ([IndexError]); a save
    that raises leaves the file unfinished. *)
Definition writer_close (path : Path) (book : Book) : M unit :=
  match book with
  | [] =>
      write_file path Unfinished ;;;
      throw (Failure "At least one sheet must be visible")
  | _ =>
      match save E book with
      | Ok _ => write_file path (Workbook book)
      | Raise e => write_file path Unfinished ;;; throw e
      end
  end.

(** [with pd.ExcelWriter(path, engine='openpyxl') as writer: block].
    The file is created when the writer is.  The block fills the
    workbook of the writer.  Leaving the block, at its end or by an
    exception, closes the writer; an exception of the block goes on
    after that, unless closing raises one of its own. *)
Definition ExcelWriter (path : Path) (block : ST Book unit) : M unit :=
  write_file path Empty ;;;
  match block [] with
  | (outcome, book) => writer_close path book ;;; lift outcome
  end.

(** One turn of the loop of [format_table_output], for table [i]: its
    frame is written to the sheet [Page <page>], then the widths of the
    columns are set. *)
Definition write_table (table : nat * pyval) : ST Book unit :=
  page_num <- lift (get_method (snd table) "page" (PInt (Z.of_nat (fst table) + 1))) ;;
  table_content <- lift (get_method (snd table) "data" (PDict [])) ;;
  df <- lift (table_frame table_content) ;;
  let sheet_name := "Page " ++ str_value page_num in
  df_to_excel sheet_name df ;;;
  lift (column_widths E df).

(** [format_table_output]: any exception, of a table or of the save,
    gives [None]. *)
Definition format_table_output (table_data : list pyval) (output_path : Path)
    : M (option Path) :=
  try_except
    (mkdir (parent output_path) ;;;
     ExcelWriter output_path
       (for_each (enumerate table_data) (fun table _ => write_table table) tt) ;;;
     ret (Some output_path))
    (fun _ => ret None).

(** ** utils/document_processor.py *)

(** [get_file_type]: the extension, lower-cased and without its dot.
    (The MIME type it also returns is only logged.) *)
Definition get_file_type (file_path : Path) : string :=
  let ext := lower (suffix file_path) in
  slice ext 1 (len ext).

(** The three accumulators of the page loop; [text_data] is the dict
    [{"headers": [...], "content": [...]}], kept as its two lists. *)
Record Acc : Type := mkAcc {
  results : list pyval;
  table_data : list pyval;
  text_headers : list pyval;
  text_content : list pyval
}.

Definition text_data (acc : Acc) : pyval :=
  PDict [("headers", PList (text_headers acc)); ("content", PList (text_content acc))].

(** ["table" in analysis.get("raw_response", "").lower()] *)
Definition table_mentioned (analysis : pyval) : result bool :=
  and_then (get_method analysis "raw_response" (PStr "")) (fun raw =>
  match raw with
  | PStr s => Ok (str_in "table" (lower s))
  | _ => Raise (AttributeError "object has no attribute 'lower'")
  end).

(** The aggregation of the text payload of one page into [text_data]
    (the body of [if isinstance(text_result["data"], dict)]). *)
Definition aggregate_text (d : dict) (acc : Acc) : result Acc :=
  and_then
    (if has_key "headers" d then
       and_then (getitem d "headers") (fun h =>
       and_then (iterate h) (fun items =>
       Ok (mkAcc (results acc) (table_data acc)
                 (text_headers acc ++ items) (text_content acc))))
     else Ok acc)
    (fun acc =>
       if has_key "content" d then
         and_then (getitem d "content") (fun c =>
         and_then (iterate c) (fun items =>
         Ok (mkAcc (results acc) (table_data acc)
                   (text_headers acc) (text_content acc ++ items))))
       else if has_key "text" d then
         and_then (getitem d "text") (fun t =>
         Ok (mkAcc (results acc) (table_data acc)
                   (text_headers acc) (text_content acc ++ [t])))
       else Ok acc).

(** One turn of the page loop of [_process_pdf] (and, word for word, of
    [_process_docx]) for page image [i]. *)
Definition process_page (page : nat * Path) (acc : Acc) : M Acc :=
  let i := fst page in
  let img_path := snd page in
  analysis <- analyze_document_type img_path ;;
  text_result <- extract_text img_path ;;
  mentioned <- lift (table_mentioned analysis) ;;
  acc <- (if (mentioned : bool) then
            table_result <- extract_table img_path ;;
            ok <- lift (subscript table_result "success") ;;
            if truthy ok then
              data <- lift (subscript table_result "data") ;;
              ret (mkAcc (results acc)
                         (table_data acc ++
                            [PDict [("page", PInt (Z.of_nat i + 1)); ("data", data)]])
                         (text_headers acc) (text_content acc))
            else ret acc
          else ret acc) ;;
  ok <- lift (subscript text_result "success") ;;
  if truthy ok then
    data <- lift (subscript text_result "data") ;;
    mentioned <- lift (table_mentioned analysis) ;;
    let acc :=
      mkAcc (results acc ++
               [PDict [("page", PInt (Z.of_nat i + 1));
                       ("text_data", data);
                       ("table_detected", PBool mentioned)]])
            (table_data acc) (text_headers acc) (text_content acc) in
    match data with
    | PDict d => lift (aggregate_text d acc)
    | _ => ret acc
    end
  else ret acc.

(** What [_process_pdf] and [_process_docx] do alike once the page
    images exist: the page loop, the two output files, the result. *)
Definition process_pages (document_type doc_name : string)
    (screenshot_folder : Path) (image_paths : list Path) : M pyval :=
  acc <- for_each (enumerate image_paths) process_page (mkAcc [] [] [] []) ;;
  let output_base_path := joinpath (OUTPUT_FOLDER E) doc_name in
  let text_output_path := with_suffix output_base_path ".json" in
  write_file text_output_path Empty ;;;
  write_file text_output_path (Json (text_data acc)) ;;;
  let table_output_path := with_suffix output_base_path ".xlsx" in
  (match table_data acc with
   | [] => ret None
   | _ => format_table_output (table_data acc) table_output_path
   end) ;;;
  ret (PDict [("success", PBool true);
              ("document_type", PStr document_type);
              ("pages_processed", PInt (Z.of_nat (length image_paths)));
              ("text_output_path", PStr (path_str text_output_path));
              ("table_output_path",
               match table_data acc with
               | [] => PNone
               | _ => PStr (path_str table_output_path)
               end);
              ("screenshot_folder", PStr (path_str screenshot_folder));
              ("results", PList (results acc))]).

Definition _process_pdf (file_path : Path) : M pyval :=
  let doc_name := stem file_path in
  let screenshot_folder := joinpath (SCREENSHOT_FOLDER E) doc_name in
  mkdir (path_str screenshot_folder) ;;;
  image_paths <- pdf_to_images file_path screenshot_folder ;;
  match image_paths with
  | [] => ret (PDict [("success", PBool false);
                      ("error", PStr "Failed to convert PDF to images")])
  | _ => process_pages "pdf" doc_name screenshot_folder image_paths
  end.

Definition _process_image (file_path : Path) : M pyval :=
  let processed_image := preprocess_image file_path in
  analysis <- analyze_document_type processed_image ;;
  text_result <- extract_text processed_image ;;
  mentioned <- lift (table_mentioned analysis) ;;
  table_output_path <-
    (if (mentioned : bool) then
       table_result <- extract_table processed_image ;;
       ok <- lift (subscript table_result "success") ;;
       if truthy ok then
         let doc_name := stem file_path in
         let table_output_path := joinpath (OUTPUT_FOLDER E) (doc_name ++ ".xlsx") in
         data <- lift (subscript table_result "data") ;;
         format_table_output [PDict [("page", PInt 1); ("data", data)]]
                             table_output_path ;;;
         ret (Some table_output_path)
       else ret None
     else ret None) ;;
  let doc_name := stem file_path in
  let text_output_path := joinpath (OUTPUT_FOLDER E) (doc_name ++ ".json") in
  write_file text_output_path Empty ;;;
  data <- lift (subscript text_result "data") ;;
  write_file text_output_path (Json data) ;;;
  analysis_data <- lift (get_method analysis "data" (PDict [])) ;;
  ret (PDict [("success", PBool true);
              ("document_type", PStr "image");
              ("text_output_path", PStr (path_str text_output_path));
              ("table_output_path",
               match table_output_path with
               | Some p => PStr (path_str p)
               | None => PNone
               end);
              ("analysis", analysis_data)]).

Definition _process_docx (file_path : Path) : M pyval :=
  let doc_name := stem file_path in
  let screenshot_folder := joinpath (SCREENSHOT_FOLDER E) doc_name in
  mkdir (path_str screenshot_folder) ;;;
  image_paths <- docx_to_images file_path screenshot_folder ;;
  match image_paths with
  | [] => ret (PDict [("success", PBool false);
                      ("error", PStr "Failed to convert DOCX to images")])
  | _ => process_pages "docx" doc_name screenshot_folder image_paths
  end.

Definition unsupported (file_extension : string) : pyval :=
  PDict [("success", PBool false);
         ("error", PStr ("Unsupported file type: " ++ file_extension))].

(** [DocumentProcessor.process_document], the entry point. *)
Definition process_document (file_path : Path) : M pyval :=
  let file_extension := get_file_type file_path in
  if negb (existsb (String.eqb file_extension) ALLOWED_EXTENSIONS) then
    ret (unsupported file_extension)
  else if String.eqb file_extension "pdf" then _process_pdf file_path
  else if existsb (String.eqb file_extension) ["jpg"; "jpeg"; "png"; "tiff"] then
    _process_image file_path
  else if String.eqb file_extension "docx" then _process_docx file_path
  else ret (unsupported file_extension).

End Program.

(** ** A concrete environment

    One deployment on which the program can be run inside Rocq: a decoder
    for the fragment of JSON the examples use, a scripted backend, and
    stand-ins for pdf2image, python-docx, PIL and pandas.  The general
    theorems below hold for every environment; this one instantiates
    them and carries the concrete runs.  The cells of its frames are
    numbers and texts, which [to_excel] writes. *)

Module Demo.

Definition quote : string := String "034"%char EmptyString.

(** ["s"], with its quotation marks *)
Definition q (s : string) : string := quote ++ s ++ quote.

Definition is_space (c : ascii) : bool :=
  match nat_of_ascii c with
  | 32%nat | 9%nat | 10%nat | 13%nat => true
  | _ => false
  end.

Fixpoint skip_space (s : string) : string :=
  match s with
  | String c s' => if is_space c then skip_space s' else s
  | EmptyString => EmptyString
  end.

(** The characters up to the closing quotation mark (no escapes). *)
Fixpoint string_body (s : string) : option (string * string) :=
  match s with
  | EmptyString => None
  | String c s' =>
      if Ascii.eqb c "034" then Some (EmptyString, s')
      else if Ascii.eqb c "\" then None
      else match string_body s' with
           | Some (body, rest) => Some (String c body, rest)
           | None => None
           end
  end.

Definition digit (c : ascii) : option Z :=
  let n := nat_of_ascii c in
  if (Nat.leb 48 n && Nat.leb n 57)%bool then Some (Z.of_nat (n - 48)) else None.

Fixpoint digits (s : string) (acc : Z) : Z * string :=
  match s with
  | String c s' =>
      match digit c with
      | Some d => digits s' (10 * acc + d)
      | None => (acc, s)
      end
  | EmptyString => (acc, s)
  end.

(** The length of the run of digits at the head of [s]. *)
Fixpoint digit_run (s : string) : nat :=
  match s with
  | String c s' => match digit c with Some _ => S (digit_run s') | None => O end
  | EmptyString => O
  end.

(** The longest integer literal [int] converts (the default of
    [sys.set_int_max_str_digits]). *)
Definition max_str_digits : nat := 4300.

(** What the scanner makes of a text: a value and the rest of the text;
    no JSON at this point; or an integer literal that is too long to be
    converted. *)
Inductive scan : Type :=
| Scanned (v : pyval) (rest : string)
| Malformed
| TooLong.

Definition integer (sign : Z) (s : string) : scan :=
  if Nat.ltb max_str_digits (digit_run s) then TooLong
  else let (n, rest) := digits s 0 in Scanned (PInt (sign * n)) rest.

(** One JSON value at the head of [s], and what follows it. *)
Fixpoint value (fuel : nat) (s : string) : scan :=
  match fuel with
  | O => Malformed
  | S fuel =>
      let fix items (n : nat) (s : string) (acc : list pyval) : scan :=
        match n with
        | O => Malformed
        | S n =>
            match value fuel s with
            | Scanned v rest =>
                match skip_space rest with
                | String "," rest => items n rest (acc ++ [v])%list
                | String "]" rest => Scanned (PList (acc ++ [v])) rest
                | _ => Malformed
                end
            | stopped => stopped
            end
        end in
      let fix members (n : nat) (s : string) (acc : dict) : scan :=
        match n with
        | O => Malformed
        | S n =>
            match skip_space s with
            | String "034" s =>
                match string_body s with
                | Some (key, rest) =>
                    match skip_space rest with
                    | String ":" rest =>
                        match value fuel rest with
                        | Scanned v rest =>
                            match skip_space rest with
                            | String "," rest => members n rest (setitem acc key v)
                            | String "}" rest => Scanned (PDict (setitem acc key v)) rest
                            | _ => Malformed
                            end
                        | stopped => stopped
                        end
                    | _ => Malformed
                    end
                | None => Malformed
                end
            | _ => Malformed
            end
        end in
      match skip_space s with
      | String "{" rest =>
          match skip_space rest with
          | String "}" rest => Scanned (PDict []) rest
          | _ => members (String.length rest) rest []
          end
      | String "[" rest =>
          match skip_space rest with
          | String "]" rest => Scanned (PList []) rest
          | _ => items (String.length rest) rest []
          end
      | String "034" rest =>
          match string_body rest with
          | Some (body, rest) => Scanned (PStr body) rest
          | None => Malformed
          end
      | String "t" (String "r" (String "u" (String "e" rest))) =>
          Scanned (PBool true) rest
      | String "f" (String "a" (String "l" (String "s" (String "e" rest)))) =>
          Scanned (PBool false) rest
      | String "n" (String "u" (String "l" (String "l" rest))) =>
          Scanned PNone rest
      | String "-" (String c rest) =>
          match digit c with
          | Some _ => integer (-1) (String c rest)
          | None => Malformed
          end
      | String c rest =>
          match digit c with
          | Some _ => integer 1 (String c rest)
          | None => Malformed
          end
      | EmptyString => Malformed
      end
  end.

(** The decoder: one value, then nothing but white space.  A text that
    is no JSON raises [JSONDecodeError]; an integer literal of more than
    4300 digits raises the [ValueError] of [int]. *)
Definition loads (s : string) : result pyval :=
  match value (S (String.length s)) s with
  | Scanned v rest =>
      match skip_space rest with
      | EmptyString => Ok v
      | _ => Raise (JSONDecodeError "Extra data")
      end
  | Malformed => Raise (JSONDecodeError "Expecting value")
  | TooLong => Raise (Failure "Exceeds the limit (4300 digits) for integer string conversion")
  end.

(** Stand-ins for pandas.  Rows given as dicts: the columns are the
    keys in order of first appearance, a missing cell is [None]. *)
Fixpoint union_keys (rows : list pyval) (acc : list string) : list string :=
  match rows with
  | PDict d :: rows' =>
      union_keys rows'
        (fold_left (fun acc kv =>
                      if existsb (String.eqb (fst kv)) acc then acc
                      else (acc ++ [fst kv])%list) d acc)
  | _ :: rows' => union_keys rows' acc
  | [] => acc
  end.

Definition all_dicts (l : list pyval) : bool := forallb isinstance_dict l.

Definition row_cells (keys : list string) (row : pyval) : list pyval :=
  match row with
  | PDict d => map (fun k => get d k PNone) keys
  | _ => []
  end.

Definition DataFrame_of (v : pyval) : result DataFrame :=
  match v with
  | PList l =>
      if all_dicts l then
        let keys := union_keys l [] in
        Ok (mkFrame (map PStr keys) (map (row_cells keys) l))
      else Raise (Failure "rows of mixed kinds")
  | _ => Raise (Failure "DataFrame constructor not properly called!")
  end.

Definition DataFrame_columns_of (values headers : pyval) : result DataFrame :=
  match values, headers with
  | PList rs, PList hs =>
      if forallb (fun r => match r with
                           | PList cells => Nat.eqb (length cells) (length hs)
                           | _ => false
                           end) rs
      then Ok (mkFrame hs (map (fun r => match r with PList c => c | _ => [] end) rs))
      else Raise (Failure "columns passed do not match the data")
  | _, _ => Raise (Failure "DataFrame constructor not properly called!")
  end.

(** A dict of equally long lists becomes one column per key. *)
Definition from_dict_of (v : pyval) : result DataFrame :=
  match v with
  | PDict ((k, PList col) :: d) =>
      if forallb (fun kv => match snd kv with
                            | PList c => Nat.eqb (length c) (length col)
                            | _ => false
                            end) d
      then Ok (mkFrame (map (fun kv => PStr (fst kv)) ((k, PList col) :: d))
                 (map (fun i => map (fun kv => match snd kv with
                                               | PList c => nth i c PNone
                                               | _ => PNone
                                               end) ((k, PList col) :: d))
                      (seq 0 (length col))))
      else Raise (Failure "All arrays must be of the same length")
  | PDict [] => Ok (mkFrame [] [])
  | _ => Raise (Failure "If using all scalar values, you must pass an index")
  end.

(** The width loop takes [len(column)], which needs a string label. *)
Definition widths_of (df : DataFrame) : result unit :=
  if forallb (fun c => match c with PStr _ => true | _ => false end) (columns df)
  then Ok tt
  else Raise (TypeError "object of type 'int' has no len()").

(** The width loop names the columns [A], [B], ... by [chr(65 + i)]; a
    sheet with more than 26 columns gets a width under a name that is no
    column, which openpyxl refuses when it saves. *)
Definition save_of (book : Book) : result unit :=
  if forallb (fun sheet => Nat.leb (length (columns (snd sheet))) 26) book
  then Ok tt
  else Raise (Failure "[ is not a valid column name").

(** The text of a float is its literal; containers are not spelled
    out. *)
Definition repr_of (v : pyval) : string :=
  match v with
  | PFloat lit => lit
  | PList _ => "[...]"
  | _ => "{...}"
  end.

(** The documents of the examples. *)
Definition base : Path := mkPath "/srv" "ocr".
Definition uploads : Path := joinpath (joinpath base "data") "uploads".
Definition screenshots : Path := joinpath (joinpath base "data") "screenshots".

Definition report_pdf : Path := joinpath uploads "report.pdf".
Definition corrupt_pdf : Path := joinpath uploads "corrupt.pdf".
Definition empty_docx : Path := joinpath uploads "empty.docx".
Definition memo_docx : Path := joinpath uploads "memo.docx".
Definition note_png : Path := joinpath uploads "note.png".
Definition scan_png : Path := joinpath uploads "scan.png".
Definition chart_png : Path := joinpath uploads "chart.png".
Definition census_png : Path := joinpath uploads "census.png".

Definition report_page (n : nat) : Path :=
  joinpath (joinpath screenshots "report") ("page_" ++ format_03d n ++ ".png").

Definition temp_of (p : Path) : Path := mkPath "/tmp" ("tmp_" ++ name p).

(** The text payload of page 2 of the report: headers and a text field. *)
Definition page2_text : string :=
  "Here is the JSON you asked for: {" ++ q "headers" ++ ": [" ++ q "Invoice" ++ "], "
  ++ q "text" ++ ": " ++ q "Total due: 5" ++ "} I hope this helps.".

(** The table payload of page 2: both a rows and a data field. *)
Definition page2_table : string :=
  "{" ++ q "rows" ++ ": [{" ++ q "item" ++ ": " ++ q "pen" ++ ", " ++ q "qty" ++ ": 2}], "
  ++ q "data" ++ ": [{" ++ q "x" ++ ": 1}]}".

(** The text payload of the census: a count of 4301 digits. *)
Fixpoint nines (k : nat) : string :=
  match k with
  | O => EmptyString
  | S k' => String "9" (nines k')
  end.

Definition census_text : string :=
  "{" ++ q "population" ++ ": " ++ nines 4301 ++ "}".

(** The scripted backend: the first page of the report loses its
    text-extraction call; the scan meets a backend that is down. *)
Definition script (image prompt : string) : reply :=
  let asks p := String.eqb prompt (prompt_for p) in
  if String.eqb image (path_str (report_page 1)) then
    if asks "document_analysis" then Generated (Some "A scanned letter, plain text only.")
    else Unreachable (Failure "500 Server Error: Internal Server Error")
  else if String.eqb image (path_str (report_page 2)) then
    if asks "document_analysis" then Generated (Some "An invoice with a Table of items.")
    else if asks "table_extraction" then Generated (Some page2_table)
    else Generated (Some page2_text)
  else if String.eqb image (path_str (temp_of note_png)) then
    if asks "document_analysis" then Generated (Some "A handwritten note.")
    else Generated (Some "Hello world")
  else if String.eqb image (path_str (temp_of chart_png)) then
    if asks "document_analysis" then Generated (Some "A chart with a data TABLE.")
    else if asks "table_extraction" then Generated (Some "no braces here")
    else Generated (Some ("{" ++ q "content" ++ ": [" ++ q "Sales" ++ "]}"))
  else if String.eqb image (path_str (temp_of census_png)) then
    if asks "document_analysis" then Generated (Some "A census form.")
    else Generated (Some census_text)
  else Unreachable (Failure "Connection refused").

Definition env : Env := {|
  BASE_DIR := base;
  backend := script;
  json_loads := loads;
  convert_from_path := fun p =>
    if String.eqb (name p) "report.pdf" then Ok [mkImage 2480 3508; mkImage 2480 3508]
    else Raise (Failure "Unable to get page count.");
  image_save := fun _ _ => Ok tt;
  docx_Document := fun p =>
    if String.eqb (name p) "empty.docx" then Ok []
    else if String.eqb (name p) "memo.docx" then Ok (repeat "Lorem ipsum." 12)
    else Raise (Failure "Package not found");
  pil_preprocess := fun p => Ok (temp_of p);
  pd_DataFrame := DataFrame_of;
  pd_DataFrame_columns := DataFrame_columns_of;
  pd_from_dict := from_dict_of;
  repr := repr_of;
  to_excel := fun _ _ => Ok tt;
  interrupted := fun _ _ book => book;
  column_widths := widths_of;
  save := save_of
|}.

(** The world before a run. *)
Definition fresh : World := mkWorld [] [] [].

End Demo.

(** ** Vocabulary of the statements *)

(** Character [c] stands at index [i] of [s], and nowhere before it
    (nowhere after it). *)
Definition first_at (c : ascii) (s : string) (i : nat) : Prop :=
  String.get i s = Some c /\ forall k, (k < i)%nat -> String.get k s <> Some c.

Definition last_at (c : ascii) (s : string) (j : nat) : Prop :=
  String.get j s = Some c /\ forall k, (j < k)%nat -> String.get k s <> Some c.

Definition has_char (c : ascii) (s : string) : Prop :=
  exists i, String.get i s = Some c.

(** The word [sub] occurs in [s]. *)
Definition occurs (sub s : string) : Prop :=
  exists m, String.substring m (String.length sub) s = sub.

(** The text a reply carries; a reply without the field carries the
    empty text. *)
Definition text_of (response : option string) : string :=
  match response with Some t => t | None => "" end.

(** The exception by which [json.loads] gives up on the braces of a raw
    text, if it does: any exception but [JSONDecodeError]. *)
Definition gives_up (E : Env) (raw : string) : option exn :=
  if str_in "{" raw && str_in "}" raw then
    match json_loads E (slice raw (find raw "{") (rfind raw "}" + 1)) with
    | Ok _ | Raise (JSONDecodeError _) => None
    | Raise e => Some e
    end
  else None.

(** The two responses of the gateway. *)
Definition success_response (data : pyval) (raw : string) : pyval :=
  PDict [("success", PBool true); ("data", data); ("raw_response", PStr raw)].

Definition failure_response (e : exn) : pyval :=
  PDict [("success", PBool false); ("error", PStr (exn_str e))].

(** The raw text of the gateway's answer to a request: the text of the
    reply, and no text at all when the call failed. *)
Definition raw_text (E : Env) (image_path : Path) (prompt_type : string) : string :=
  match backend E (path_str image_path) (prompt_for prompt_type) with
  | Generated response =>
      match gives_up E (text_of response) with
      | None => text_of response
      | Some _ => ""
      end
  | Unreachable _ => ""
  end.

(** The response [process_image] returns; it does not depend on the
    world the call is made in (see [process_image_run]). *)
Definition answer (E : Env) (image_path : Path) (prompt_type : string) : pyval :=
  match fst (process_image E image_path prompt_type (mkWorld [] [] [])) with
  | Ok v => v
  | Raise _ => PNone
  end.

(** The world after one more gateway request. *)
Definition asked (image_path : Path) (prompt_type : string) (w : World) : World :=
  mkWorld (files w) (dirs w) (requests w ++ [(path_str image_path, prompt_type)]).

(** [success] of a response. *)
Definition succeeded (response : pyval) : bool :=
  match response with
  | PDict d => match lookup "success" d with Some (PBool b) => b | _ => false end
  | _ => false
  end.

(** [data] of a response. *)
Definition payload (response : pyval) : pyval :=
  match response with
  | PDict d => get d "data" PNone
  | _ => PNone
  end.

(** The word [table] stands in the lower-cased raw text of the
    classification of a page image. *)
Definition detected (E : Env) (img : Path) : bool :=
  str_in "table" (lower (raw_text E img "document_analysis")).

(** The gateway requests of one page, in order. *)
Definition page_requests (E : Env) (img : Path) : list (string * string) :=
  [(path_str img, "document_analysis"); (path_str img, "text_extraction")]
  ++ (if detected E img then [(path_str img, "table_extraction")] else []).

Definition table_entry (i : nat) (data : pyval) : pyval :=
  PDict [("page", PInt (Z.of_nat i + 1)); ("data", data)].

Definition result_entry (i : nat) (data : pyval) (mentioned : bool) : pyval :=
  PDict [("page", PInt (Z.of_nat i + 1)); ("text_data", data);
         ("table_detected", PBool mentioned)].

(** The entries page [i] contributes to [results] and to [table_data]. *)
Definition page_results (E : Env) (page : nat * Path) : list pyval :=
  if succeeded (answer E (snd page) "text_extraction")
  then [result_entry (fst page) (payload (answer E (snd page) "text_extraction"))
                     (detected E (snd page))]
  else [].

Definition page_tables (E : Env) (page : nat * Path) : list pyval :=
  if detected E (snd page) && succeeded (answer E (snd page) "table_extraction")
  then [table_entry (fst page) (payload (answer E (snd page) "table_extraction"))]
  else [].

(** A value [extend] can iterate over. *)
Definition iterable (v : pyval) : bool :=
  match iterate v with Ok _ => true | Raise _ => false end.



(** A text payload the aggregation of a page goes through without an
    exception: not a dict, or a dict whose [headers] and [content], when
    present, are iterable. *)
Definition foldable (v : pyval) : bool :=
  match v with
  | PDict d =>
      match lookup "headers" d with Some h => iterable h | None => true end
      && match lookup "content" d with Some c => iterable c | None => true end
  | _ => true
  end.

(** The path under which page [i] (counted from 0) is saved. *)
Definition page_path (output_folder : Path) (i : nat) : Path :=
  joinpath output_folder ("page_" ++ format_03d (i + 1) ++ ".png").

(** The conversion of a PDF to page images is impossible: pdf2image
    raises, or one of the pages cannot be saved. *)
Definition conversion_fails (E : Env) (pdf_path output_folder : Path) : Prop :=
  (exists e, convert_from_path E pdf_path = Raise e)
  \/ (exists images page e,
        convert_from_path E pdf_path = Ok images
        /\ In page (enumerate images)
        /\ image_save E (snd page) (page_path output_folder (fst page)) = Raise e).

(** The two failure results of the multi-page paths. *)
Definition conversion_failure (kind : string) : pyval :=
  PDict [("success", PBool false);
         ("error", PStr ("Failed to convert " ++ kind ++ " to images"))].


(** The world with one more directory, and with one more file. *)
Definition with_dir (dir : string) (w : World) : World :=
  mkWorld (files w) (dirs w ++ [dir]) (requests w).

Definition with_file (p : Path) (c : content) (w : World) : World :=
  mkWorld (files w ++ [(path_str p, c)]) (dirs w) (requests w).

(** A computation that leaves one component of the world as it found
    it. *)
Definition preserves {S A : Type} (part : World -> S) (c : M A) : Prop :=
  forall w, part (snd (c w)) = part w.


(** ** The callers: server.py and app.py *)

(** [s.rsplit(sep, 1)]: the text before and the text after the last
    occurrence of a one-character [sep], or [s] alone. *)
Definition rsplit1 (s sep : string) : list string :=
  let i := rfind s sep in
  if i <? 0 then [s] else [slice s 0 i; slice s (i + 1) (len s)].

(** [l[i]] on a list of strings. *)
Definition item (l : list string) (i : nat) : result string :=
  match nth_error l i with
  | Some x => Ok x
  | None => Raise (Failure "list index out of range")
  end.

(** [allowed_file] of server.py: the guard of the upload endpoint. *)
Definition allowed_file (filename : string) : result bool :=
  if str_in "." filename then
    and_then (item (rsplit1 filename ".") 1) (fun ext =>
    Ok (existsb (String.eqb (lower ext)) ALLOWED_EXTENSIONS))
  else Ok false.

(** [get_file_extension] and [is_allowed_file] of app.py, whose own
    [ALLOWED_EXTENSIONS] lists the same six extensions. *)
Definition get_file_extension (filename : string) : result string :=
  if str_in "." filename then
    and_then (item (rsplit1 filename ".") 1) (fun ext => Ok (lower ext))
  else Ok "".

Definition is_allowed_file (filename : string) : result bool :=
  and_then (get_file_extension filename) (fun ext =>
  Ok (existsb (String.eqb ext) ["pdf"; "jpg"; "jpeg"; "png"; "tiff"; "docx"])).

(** ** output_formatter.py: convert_json_to_excel *)

(** The pandas call only this function makes. *)
Record Office : Type := mkOffice {
  (** [pd.DataFrame.from_dict(x, orient='index').reset_index()] *)
  pd_from_dict_index : pyval -> result DataFrame
}.

(** [json.load] of a file: the value of a JSON file; an exception for a
    missing file and for a file that holds no JSON document. *)
Definition json_load (p : Path) : M pyval :=
  fun w =>
    match read_file (path_str p) (files w) with
    | Some (Json v) => (Ok v, w)
    | Some _ => (Raise (Failure "Expecting value"), w)
    | None => (Raise (Failure "No such file or directory"), w)
    end.

(** [df.columns = labels]: the number of labels must be the number of
    columns. *)
Definition set_columns (df : DataFrame) (labels : list pyval) : result DataFrame :=
  if Nat.eqb (length (columns df)) (length labels)
  then Ok (mkFrame labels (rows df))
  else Raise (Failure "Length mismatch").

Section Convert.

Variable E : Env.
Variable O : Office.

(** [convert_json_to_excel].  [df.to_excel(excel_path, index=False)]
    opens a writer of its own on the path, writes the sheet [Sheet1] and
    closes the writer. *)
Definition convert_json_to_excel (json_path : Path) (excel_path : option Path)
    : M (option Path) :=
  let excel_path :=
    match excel_path with
    | None => with_suffix json_path ".xlsx"
    | Some p => p
    end in
  try_except
    (data <- json_load json_path ;;
     match data with
     | PList _ =>
         df <- lift (pd_DataFrame E data) ;;
         ExcelWriter E excel_path (df_to_excel E "Sheet1" df) ;;;
         ret (Some excel_path)
     | PDict d =>
         if has_key "headers" d && has_key "content" d then
           headers <- lift (getitem d "headers") ;;
           headers_df <- lift (pd_DataFrame E (PDict [("Headers", headers)])) ;;
           content <- lift (getitem d "content") ;;
           content_df <- lift (pd_DataFrame E (PDict [("Content", content)])) ;;
           ExcelWriter E excel_path
             (df_to_excel E "Headers" headers_df ;;;
              df_to_excel E "Content" content_df) ;;;
           ret (Some excel_path)
         else
           df <- lift (pd_from_dict_index O data) ;;
           df <- lift (set_columns df [PStr "Key"; PStr "Value"]) ;;
           ExcelWriter E excel_path (df_to_excel E "Sheet1" df) ;;;
           ret (Some excel_path)
     | _ => throw (Failure "Unexpected JSON data format")
     end)
    (fun _ => ret None).

End Convert.

(** ** A second concrete environment

    The environment of [Demo] with three more documents and a pandas
    stand-in that also takes rows given as lists (their columns are then
    numbered, and the width loop of [format_table_output] cannot take
    the length of a number). *)

Module Ledger.

Definition ledger_pdf : Path := joinpath Demo.uploads "ledger.pdf".
Definition dotted_pdf : Path := joinpath Demo.uploads "ledger.2024.pdf".
Definition dotted_page : Path :=
  joinpath (joinpath Demo.screenshots "ledger.2024") "page_001.png".
Definition null_pdf : Path := joinpath Demo.uploads "null.pdf".

Definition ledger_page : Path :=
  joinpath (joinpath Demo.screenshots "ledger") "page_001.png".
Definition null_page : Path :=
  joinpath (joinpath Demo.screenshots "null") "page_001.png".

(** The text payload of the ledger: its headers are one string. *)
Definition ledger_text : string :=
  "{" ++ Demo.q "headers" ++ ": " ++ Demo.q "Ledger" ++ ", "
  ++ Demo.q "content" ++ ": [" ++ Demo.q "Opening balance" ++ "]}".

(** Its table payload: rows given as lists. *)
Definition ledger_table : string :=
  "{" ++ Demo.q "rows" ++ ": [[1, 2], [3, 4]]}".

Definition braces_png : Path := joinpath Demo.uploads "braces.png".

Definition script (image prompt : string) : reply :=
  let asks p := String.eqb prompt (prompt_for p) in
  if String.eqb image (path_str (Demo.temp_of braces_png)) then
    Generated (Some "closing } before opening {")
  else if String.eqb image (path_str ledger_page) then
    if asks "document_analysis" then Generated (Some "A ledger: one table.")
    else if asks "table_extraction" then Generated (Some ledger_table)
    else Generated (Some ledger_text)
  else if String.eqb image (path_str null_page) then
    if asks "document_analysis" then Generated (Some "Plain text.")
    else Generated (Some ("{" ++ Demo.q "headers" ++ ": null}"))
  else Demo.script image prompt.

Definition all_lists (l : list pyval) : bool := forallb isinstance_list l.

Definition DataFrame_of (v : pyval) : result DataFrame :=
  match v with
  | PList (PList first :: more) =>
      if all_lists more then
        Ok (mkFrame (map (fun k => PInt (Z.of_nat k)) (seq 0 (length first)))
                    (map (fun r => match r with PList cells => cells | _ => [] end)
                         (PList first :: more)))
      else Demo.DataFrame_of v
  | PDict [(label, PList cells)] =>
      Ok (mkFrame [PStr label] (map (fun cell => [cell]) cells))
  | _ => Demo.DataFrame_of v
  end.

Definition env : Env := {|
  BASE_DIR := Demo.base;
  backend := script;
  json_loads := Demo.loads;
  convert_from_path := fun p =>
    if String.eqb (name p) "ledger.pdf" then Ok [mkImage 2480 3508]
    else if String.eqb (name p) "null.pdf" then Ok [mkImage 2480 3508]
    else if String.eqb (name p) "ledger.2024.pdf" then Ok [mkImage 2480 3508]
    else convert_from_path Demo.env p;
  image_save := fun _ _ => Ok tt;
  docx_Document := docx_Document Demo.env;
  pil_preprocess := fun p => Ok (Demo.temp_of p);
  pd_DataFrame := DataFrame_of;
  pd_DataFrame_columns := Demo.DataFrame_columns_of;
  pd_from_dict := Demo.from_dict_of;
  repr := Demo.repr_of;
  to_excel := fun _ _ => Ok tt;
  interrupted := fun _ _ book => book;
  column_widths := Demo.widths_of;
  save := Demo.save_of
|}.

(** The environment of [Demo] on a disk that fills up while the second
    page is saved. *)
Definition full_disk : Env := {|
  BASE_DIR := Demo.base;
  backend := Demo.script;
  json_loads := Demo.loads;
  convert_from_path := convert_from_path Demo.env;
  image_save := fun _ path =>
    if String.eqb (name path) "page_002.png"
    then Raise (Failure "No space left on device") else Ok tt;
  docx_Document := docx_Document Demo.env;
  pil_preprocess := fun p => Ok (Demo.temp_of p);
  pd_DataFrame := Demo.DataFrame_of;
  pd_DataFrame_columns := Demo.DataFrame_columns_of;
  pd_from_dict := Demo.from_dict_of;
  repr := Demo.repr_of;
  to_excel := fun _ _ => Ok tt;
  interrupted := fun _ _ book => book;
  column_widths := Demo.widths_of;
  save := Demo.save_of
|}.

Definition office : Office := {|
  pd_from_dict_index := fun v =>
    match v with
    | PDict d => Ok (mkFrame [PStr "index"; PInt 0]
                             (map (fun kv => [PStr (fst kv); snd kv]) d))
    | _ => Raise (Failure "DataFrame constructor not properly called!")
    end
|}.

End Ledger.

(** ** Vocabulary of the further properties *)

(** What page [img] contributes to the headers and to the content of
    the text artifact. *)
Definition page_headers (E : Env) (img : Path) : list pyval :=
  if succeeded (answer E img "text_extraction") then
    match payload (answer E img "text_extraction") with
    | PDict d =>
        match lookup "headers" d with
        | Some h => match iterate h with Ok items => items | Raise _ => [] end
        | None => []
        end
    | _ => []
    end
  else [].

Definition page_content (E : Env) (img : Path) : list pyval :=
  if succeeded (answer E img "text_extraction") then
    match payload (answer E img "text_extraction") with
    | PDict d =>
        match lookup "content" d with
        | Some c => match iterate c with Ok items => items | Raise _ => [] end
        | None => match lookup "text" d with Some t => [t] | None => [] end
        end
    | _ => []
    end
  else [].

(** The frame of one table of [format_table_output] and the name of its
    sheet, before anything is written. *)
Definition frame_of_table (E : Env) (table : nat * pyval) : result (string * DataFrame) :=
  and_then (get_method (snd table) "page" (PInt (Z.of_nat (fst table) + 1))) (fun page_num =>
  and_then (get_method (snd table) "data" (PDict [])) (fun table_content =>
  and_then (table_frame E table_content) (fun df =>
  Ok ("Page " ++ str_value E page_num, df)))).

(** The sheet of one table whose turn of the loop ends without an
    exception. *)
Definition sheet_of_table (E : Env) (table : nat * pyval) : result (string * DataFrame) :=
  and_then (frame_of_table E table) (fun sheet =>
  and_then (to_excel E (fst sheet) (snd sheet)) (fun _ =>
  and_then (column_widths E (snd sheet)) (fun _ => Ok sheet))).

(** The workbook after a list of sheets was written, one after the
    other. *)
Definition put_sheets (book : Book) (sheets : list (string * DataFrame)) : Book :=
  fold_left (fun book sheet => put_sheet (fst sheet) (snd sheet) book) sheets book.

(** The exception closing a writer raises, if it does. *)
Definition close_error (E : Env) (book : Book) : option exn :=
  match book with
  | [] => Some (Failure "At least one sheet must be visible")
  | _ => match save E book with Ok _ => None | Raise e => Some e end
  end.

(** What closing a writer leaves in its file. *)
Definition saved (E : Env) (book : Book) : content :=
  match close_error E book with
  | None => Workbook book
  | Some _ => Unfinished
  end.

(** The loop of [format_table_output] over its tables, in the workbook
    of a new writer: how it ended, and the workbook it made. *)
Definition table_loop (E : Env) (table_data : list pyval) : result unit * Book :=
  for_each (enumerate table_data) (fun table _ => write_table E table) tt [].

(** All the results of [f] over a list, or the first exception. *)
Fixpoint collect {X Y : Type} (f : X -> result Y) (xs : list X) : result (list Y) :=
  match xs with
  | [] => Ok []
  | x :: xs' =>
      and_then (f x) (fun y => and_then (collect f xs') (fun ys => Ok (y :: ys)))
  end.

(** The document [format_text_output] makes of a value: [headers] and
    [content] as given, a lone [text] as the one content item, a value
    that is no dict as the one content item. *)
Definition normal_text (v : pyval) : pyval :=
  match v with
  | PDict d =>
      PDict [("headers", get d "headers" (PList []));
             ("content",
              match lookup "content" d with
              | Some c => c
              | None => match lookup "text" d with
                        | Some t => PList [t]
                        | None => PList []
                        end
              end)]
  | _ => PDict [("headers", PList []); ("content", PList [v])]
  end.

(** The files a list of saved pages leaves in the output folder. *)
Definition page_files (output_folder : Path) (pages : list (nat * Image))
    : list (string * content) :=
  map (fun page => (path_str (page_path output_folder (fst page)), Png (snd page))) pages.

(** * Properties *)

(** ** Strings *)

Section Strings.

Local Open Scope nat_scope.

Lemma prefix_char (c b : ascii) (s : string) :
  String.prefix (String c "") (String b s) = Ascii.eqb c b.
Proof.
  simpl. destruct (Ascii.ascii_dec c b) as [->|Hne].
  - rewrite Ascii.eqb_refl. now destruct s.
  - symmetry. now apply Ascii.eqb_neq.
Qed.

Lemma index_char_some (c : ascii) (s : string) :
  forall n, String.index 0 (String c "") s = Some n -> first_at c s n.
Proof.
  induction s as [|b s IH]; intros n H.
  - discriminate.
  - change (String.index 0 (String c "") (String b s))
      with (if String.prefix (String c "") (String b s) then Some 0
            else match String.index 0 (String c "") s with
                 | Some n => Some (S n)
                 | None => None
                 end) in H.
    rewrite prefix_char in H.
    destruct (Ascii.eqb c b) eqn:Hcb.
    + apply Ascii.eqb_eq in Hcb. subst b. injection H as <-.
      split; [reflexivity | intros k Hk; lia].
    + destruct (String.index 0 (String c "") s) as [m|] eqn:Hm; [|discriminate].
      injection H as <-. destruct (IH m eq_refl) as [Hget Hmin].
      split; [exact Hget|].
      intros [|k] Hk; simpl.
      * intros [= ->]. now rewrite Ascii.eqb_refl in Hcb.
      * apply Hmin. lia.
Qed.

Lemma index_char_none (c : ascii) (s : string) :
  String.index 0 (String c "") s = None -> forall k, String.get k s <> Some c.
Proof.
  induction s as [|b s IH]; intros H k.
  - now destruct k.
  - change (String.index 0 (String c "") (String b s))
      with (if String.prefix (String c "") (String b s) then Some 0
            else match String.index 0 (String c "") s with
                 | Some n => Some (S n)
                 | None => None
                 end) in H.
    rewrite prefix_char in H.
    destruct (Ascii.eqb c b) eqn:Hcb; [discriminate|].
    destruct (String.index 0 (String c "") s) eqn:Hm; [discriminate|].
    destruct k as [|k]; simpl.
    + intros [= ->]. now rewrite Ascii.eqb_refl in Hcb.
    + now apply IH.
Qed.

Lemma rindex_char_none (c : ascii) (s : string) :
  rindex (String c "") s = None -> forall k, String.get k s <> Some c.
Proof.
  induction s as [|b s IH]; intros H k.
  - now destruct k.
  - cbn [rindex] in H.
    destruct (rindex (String c "") s) eqn:Hr; [discriminate|].
    rewrite prefix_char in H.
    destruct (Ascii.eqb c b) eqn:Hcb; [discriminate|].
    destruct k as [|k]; simpl.
    + intros [= ->]. now rewrite Ascii.eqb_refl in Hcb.
    + now apply IH.
Qed.

Lemma rindex_char_some (c : ascii) (s : string) :
  forall n, rindex (String c "") s = Some n -> last_at c s n.
Proof.
  induction s as [|b s IH]; intros n H.
  - discriminate.
  - cbn [rindex] in H.
    destruct (rindex (String c "") s) as [m|] eqn:Hr.
    + injection H as <-. destruct (IH m eq_refl) as [Hget Hmax].
      split; [exact Hget|].
      intros [|k] Hk; [lia|]. simpl. apply Hmax. lia.
    + rewrite prefix_char in H.
      destruct (Ascii.eqb c b) eqn:Hcb; [|discriminate].
      apply Ascii.eqb_eq in Hcb. subst b. injection H as <-.
      split; [reflexivity|].
      intros [|k] Hk; [lia|]. simpl. now apply rindex_char_none.
Qed.

Lemma get_some_lt (s : string) :
  forall n c, String.get n s = Some c -> n < String.length s.
Proof.
  induction s as [|b s IH]; intros [|n] c H; simpl in *; try discriminate.
  - lia.
  - apply IH in H. lia.
Qed.

(** [in] on a one-character needle is the presence of that character. *)
Lemma str_in_char (c : ascii) (s : string) :
  str_in (String c "") s = true <-> has_char c s.
Proof.
  unfold str_in, has_char.
  destruct (String.index 0 (String c "") s) as [n|] eqn:H.
  - split; [intros _|reflexivity]. exists n. now apply index_char_some.
  - split; [discriminate|]. intros [i Hi]. now apply index_char_none with (k := i) in H.
Qed.

(** [in] is occurrence as a substring. *)
Lemma str_in_occurs (sub s : string) :
  sub <> "" -> (str_in sub s = true <-> occurs sub s).
Proof.
  intros Hne. unfold str_in, occurs.
  destruct (String.index 0 sub s) as [n|] eqn:H.
  - split; [intros _|reflexivity]. exists n.
    now apply String.index_correct1 with (n := 0).
  - split; [discriminate|]. intros [m Hm].
    exfalso. revert Hm. apply String.index_correct3 with (n := 0); [exact H|exact Hne|lia].
Qed.

(** The slice between two positions of a string, both ends included. *)
Lemma slice_between (s : string) (i j : nat) :
  i < String.length s -> j < String.length s ->
  slice s (Z.of_nat i) (Z.of_nat j + 1) = String.substring i (j + 1 - i) s.
Proof.
  intros Hi Hj. unfold slice, clip, len.
  destruct (Z.ltb_spec (Z.of_nat i) 0) as [?|_]; [lia|].
  destruct (Z.ltb_spec (Z.of_nat j + 1) 0) as [?|_]; [lia|].
  rewrite !Z.min_l by lia.
  f_equal; lia.
Qed.

End Strings.

(** ** The monad *)

Section Monad.

Context {S : Type} (part : World -> S).

Lemma preserves_ret {A : Type} (a : A) : preserves part (ret a).
Proof. now intros w. Qed.

Lemma preserves_lift {A : Type} (r : result A) : preserves part (lift r).
Proof. now intros w. Qed.

Lemma preserves_bind {A B : Type} (c : M A) (k : A -> M B) :
  preserves part c -> (forall a, preserves part (k a)) -> preserves part (bind c k).
Proof.
  intros Hc Hk w. unfold bind. specialize (Hc w).
  destruct (c w) as [[a|e] w1]; cbn [snd] in *.
  - now rewrite Hk.
  - exact Hc.
Qed.

Lemma preserves_try_except {A : Type} (c : M A) (handler : exn -> M A) :
  preserves part c -> (forall e, preserves part (handler e)) ->
  preserves part (try_except c handler).
Proof.
  intros Hc Hh w. unfold try_except. specialize (Hc w).
  destruct (c w) as [[a|e] w1]; cbn [snd] in *.
  - exact Hc.
  - now rewrite Hh.
Qed.

Lemma preserves_for_each {X A : Type} (xs : list X) (body : X -> A -> M A) :
  (forall x a, preserves part (body x a)) ->
  forall acc, preserves part (for_each xs body acc).
Proof.
  intros Hb. induction xs as [|x xs IH]; intros acc; cbn [for_each].
  - apply preserves_ret.
  - apply preserves_bind; [apply Hb | exact IH].
Qed.

End Monad.

Lemma mkdir_keeps_requests (dir : string) : preserves requests (mkdir dir).
Proof. now intros w. Qed.

Lemma write_file_keeps_requests (p : Path) (c : content) : preserves requests (write_file p c).
Proof. now intros w. Qed.

Lemma mkdir_keeps_files (dir : string) : preserves files (mkdir dir).
Proof. now intros w. Qed.

(** A [try] whose handler returns a value always returns a value. *)
Lemma try_except_returns {A : Type} (c : M A) (a0 : A) (w : World) :
  exists a w', try_except c (fun _ => ret a0) w = (Ok a, w').
Proof.
  unfold try_except. destruct (c w) as [[a|e] w1]; unfold ret; eauto.
Qed.


(** A file holds what was last written to it. *)
Lemma read_file_last (p : string) (c : content) (fs : list (string * content)) :
  read_file p (fs ++ [(p, c)]) = Some c.
Proof.
  induction fs as [|[q c'] fs IH]; cbn.
  - now rewrite String.eqb_refl.
  - now rewrite IH.
Qed.

Create HintDb world.
#[local] Hint Resolve preserves_ret preserves_lift mkdir_keeps_requests write_file_keeps_requests
  mkdir_keeps_files : world.

(** ** The model gateway *)

Section Gateway.

Variable E : Env.

(** The response of a gateway call, in closed form. *)
Lemma process_image_closed (image_path : Path) (prompt_type : string) (w : World) :
  process_image E image_path prompt_type w
  = (Ok match backend E (path_str image_path) (prompt_for prompt_type) with
        | Unreachable e => failure_response e
        | Generated response =>
            let raw := text_of response in
            if str_in "{" raw && str_in "}" raw then
              match json_loads E (slice raw (find raw "{") (rfind raw "}" + 1)) with
              | Ok parsed => success_response parsed raw
              | Raise (JSONDecodeError _) => success_response (PDict [("text", PStr raw)]) raw
              | Raise e => failure_response e
              end
            else success_response (PDict [("text", PStr raw)]) raw
        end,
     asked image_path prompt_type w).
Proof.
  unfold process_image, asked, bind, log_request, try_except, try_except_JSONDecodeError,
    lift, ret, success_response, failure_response.
  cbv zeta. cbn [fst snd files dirs requests].
  destruct (backend E (path_str image_path) (prompt_for prompt_type)) as [e|response];
    [reflexivity|].
  fold (text_of response).
  destruct (str_in "{" _ && str_in "}" _); [|reflexivity].
  destruct (json_loads E _) as [v|[]]; reflexivity.
Qed.

(** A gateway call never raises: it returns its response and leaves the
    world with one more request logged. *)
Lemma process_image_run (image_path : Path) (prompt_type : string) (w : World) :
  process_image E image_path prompt_type w
  = (Ok (answer E image_path prompt_type), asked image_path prompt_type w).
Proof. unfold answer. now rewrite !process_image_closed. Qed.

(** The answer to a call the backend did not serve. *)
Lemma answer_unreachable (image_path : Path) (prompt_type : string) (e : exn) :
  backend E (path_str image_path) (prompt_for prompt_type) = Unreachable e ->
  answer E image_path prompt_type = failure_response e.
Proof.
  intros H. unfold answer. rewrite process_image_closed. cbn [fst]. now rewrite H.
Qed.

(** The answer to a call the backend served with a text the decoder
    gives up on. *)
Lemma answer_given_up (image_path : Path) (prompt_type : string)
    (response : option string) (e : exn) :
  backend E (path_str image_path) (prompt_for prompt_type) = Generated response ->
  gives_up E (text_of response) = Some e ->
  answer E image_path prompt_type = failure_response e.
Proof.
  intros H Hg. unfold answer. rewrite process_image_closed. cbn [fst]. rewrite H.
  cbv zeta. unfold gives_up in Hg.
  destruct (str_in "{" _ && str_in "}" _); [|discriminate].
  destruct (json_loads E _) as [v|[]]; try discriminate; now injection Hg as <-.
Qed.

(** The answer to a call the backend served: a success, some payload, and
    the raw text. *)
Lemma answer_generated (image_path : Path) (prompt_type : string) (response : option string) :
  backend E (path_str image_path) (prompt_for prompt_type) = Generated response ->
  gives_up E (text_of response) = None ->
  exists payload,
    answer E image_path prompt_type = success_response payload (text_of response).
Proof.
  intros H Hg. unfold answer. rewrite process_image_closed. cbn [fst]. rewrite H.
  cbv zeta. unfold gives_up in Hg.
  destruct (str_in "{" _ && str_in "}" _); [|eexists; reflexivity].
  destruct (json_loads E _) as [v|[]]; try discriminate; eexists; reflexivity.
Qed.

(** The answer is a dict with a Boolean [success]. *)
Lemma answer_shape (image_path : Path) (prompt_type : string) :
  (exists msg, answer E image_path prompt_type
               = PDict [("success", PBool false); ("error", PStr msg)])
  \/ (exists payload raw, answer E image_path prompt_type
               = PDict [("success", PBool true); ("data", payload);
                        ("raw_response", PStr raw)]).
Proof.
  destruct (backend E (path_str image_path) (prompt_for prompt_type)) as [e|r] eqn:H.
  - left. eexists. exact (answer_unreachable _ _ _ H).
  - destruct (gives_up E (text_of r)) as [e|] eqn:Hg.
    + left. eexists. exact (answer_given_up _ _ _ _ H Hg).
    + right. destruct (answer_generated _ _ _ H Hg) as [payload Hp]. eauto.
Qed.

(** The braces of a raw text by their positions. *)
Lemma braces_between (raw : string) :
  str_in "{" raw = true -> str_in "}" raw = true ->
  exists i j,
    first_at "{" raw i /\ last_at "}" raw j
    /\ slice raw (find raw "{") (rfind raw "}" + 1) = String.substring i (j + 1 - i) raw.
Proof.
  intros Hopen Hclose. unfold find, rfind. unfold str_in in Hopen, Hclose.
  destruct (String.index 0 "{" raw) as [i|] eqn:Hi; [|discriminate].
  assert (Hlast : exists j, rindex "}" raw = Some j).
  { destruct (rindex "}" raw) as [j|] eqn:Hj; [eauto|].
    destruct (String.index 0 "}" raw) as [k|] eqn:Hk; [|discriminate].
    apply index_char_some in Hk. destruct Hk as [Hk _].
    now apply rindex_char_none with (k := k) in Hj. }
  destruct Hlast as [j Hj]. rewrite Hj.
  pose proof (index_char_some _ _ _ Hi) as Hfirst.
  pose proof (rindex_char_some _ _ _ Hj) as Hlast.
  exists i, j. split; [exact Hfirst|]. split; [exact Hlast|].
  apply slice_between; eapply get_some_lt; first [apply Hfirst | apply Hlast].
Qed.

(** C8: every response of the gateway is a dict with a Boolean [success]
    in which [data] is present exactly when [success] is true and [error]
    exactly when it is false; when the backend could not be reached or
    answered with an error, and when the decoder gives up on the reply,
    the response is [success = False] with the message and nothing else;
    otherwise it is a success. *)
Theorem response_payload_iff_success (image_path : Path) (prompt_type : string) (w : World) :
  exists (d : dict) (success : bool),
    fst (process_image E image_path prompt_type w) = Ok (PDict d)
    /\ lookup "success" d = Some (PBool success)
    /\ (has_key "data" d = true <-> success = true)
    /\ (has_key "error" d = true <-> success = false)
    /\ match backend E (path_str image_path) (prompt_for prompt_type) with
       | Unreachable e =>
           d = [("success", PBool false); ("error", PStr (exn_str e))]
       | Generated response =>
           match gives_up E (text_of response) with
           | Some e => d = [("success", PBool false); ("error", PStr (exn_str e))]
           | None => success = true
           end
       end.
Proof.
  rewrite process_image_run. cbn [fst].
  destruct (backend E (path_str image_path) (prompt_for prompt_type)) as [e|r] eqn:H.
  - rewrite (answer_unreachable _ _ _ H).
    eexists; exists false. repeat split; try reflexivity; cbn; intros; congruence.
  - destruct (gives_up E (text_of r)) as [e|] eqn:Hg.
    + rewrite (answer_given_up _ _ _ _ H Hg).
      eexists; exists false. repeat split; try reflexivity; cbn; intros; congruence.
    + destruct (answer_generated _ _ _ H Hg) as [payload ->].
      eexists; exists true. repeat split; try reflexivity; cbn; intros; congruence.
Qed.

(** C3, as the code has it: when the backend answers, the call never
    raises, and its response is settled by the braces of the raw text.
    With a [{] and a [}] in it, the text from the first [{] to the last
    [}] is decoded: a decoded value is the payload of a success; a
    [JSONDecodeError] leaves the success with the payload
    [{"text": raw}]; any other exception of the decoder makes the
    response a failure with its message.  Without both braces, the
    response is the success with the payload [{"text": raw}]. *)
Theorem generated_payload (image_path : Path) (prompt_type : string)
    (response : option string) (w : World) :
  backend E (path_str image_path) (prompt_for prompt_type) = Generated response ->
  let raw := text_of response in
  (has_char "{" raw -> has_char "}" raw ->
   exists i j,
     first_at "{" raw i /\ last_at "}" raw j
     /\ fst (process_image E image_path prompt_type w)
        = Ok match json_loads E (String.substring i (j + 1 - i) raw) with
             | Ok parsed => success_response parsed raw
             | Raise (JSONDecodeError _) => success_response (PDict [("text", PStr raw)]) raw
             | Raise e => failure_response e
             end)
  /\ (~ (has_char "{" raw /\ has_char "}" raw) ->
      fst (process_image E image_path prompt_type w)
      = Ok (success_response (PDict [("text", PStr raw)]) raw)).
Proof.
  intros H raw. rewrite process_image_closed, H. cbv zeta. fold raw. cbn [fst].
  split.
  - intros Hopen Hclose. apply str_in_char in Hopen, Hclose.
    destruct (braces_between raw Hopen Hclose) as [i [j [Hi [Hj Hslice]]]].
    exists i, j. split; [exact Hi|]. split; [exact Hj|].
    now rewrite Hopen, Hclose, Hslice.
  - intros Hno.
    destruct (str_in "{" raw) eqn:Hopen; [|reflexivity].
    destruct (str_in "}" raw) eqn:Hclose; [|reflexivity].
    exfalso. apply Hno. split; now apply str_in_char.
Qed.

End Gateway.

(** ** The page loop *)

Section Pages.

Variable E : Env.

Lemma table_mentioned_answer (img : Path) :
  table_mentioned (answer E img "document_analysis") = Ok (detected E img).
Proof.
  unfold detected, raw_text.
  destruct (backend E (path_str img) (prompt_for "document_analysis")) as [e|r] eqn:H.
  - now rewrite (answer_unreachable E _ _ _ H).
  - destruct (gives_up E (text_of r)) as [e|] eqn:Hg.
    + now rewrite (answer_given_up E _ _ _ _ H Hg).
    + now destruct (answer_generated E _ _ _ H Hg) as [p ->].
Qed.

Lemma subscript_success (img : Path) (prompt_type : string) :
  exists b, subscript (answer E img prompt_type) "success" = Ok (PBool b)
            /\ succeeded (answer E img prompt_type) = b.
Proof.
  destruct (answer_shape E img prompt_type) as [[msg ->]|[p [raw ->]]];
    eexists; split; reflexivity.
Qed.

Lemma subscript_data (img : Path) (prompt_type : string) :
  succeeded (answer E img prompt_type) = true ->
  subscript (answer E img prompt_type) "data" = Ok (payload (answer E img prompt_type)).
Proof.
  destruct (answer_shape E img prompt_type) as [[msg ->]|[p [raw ->]]];
    [discriminate|reflexivity].
Qed.

(** One turn of the page loop, in closed form. *)
Lemma process_page_run (i : nat) (img : Path) (acc : Acc) (w : World) :
  let text_result := answer E img "text_extraction" in
  let acc1 :=
    mkAcc (results acc) (table_data acc ++ page_tables E (i, img))
          (text_headers acc) (text_content acc) in
  let acc2 :=
    mkAcc (results acc ++ page_results E (i, img)) (table_data acc1)
          (text_headers acc) (text_content acc) in
  process_page E (i, img) acc w
  = (if succeeded text_result then
       match payload text_result with
       | PDict d => aggregate_text d acc2
       | _ => Ok acc2
       end
     else Ok acc1,
     mkWorld (files w) (dirs w) (requests w ++ page_requests E img)).
Proof.
  cbv zeta.
  unfold process_page, analyze_document_type, extract_text, extract_table, bind, lift.
  cbn [fst snd].
  rewrite !process_image_run, table_mentioned_answer.
  unfold page_requests, page_tables, page_results. cbn [fst snd].
  destruct (subscript_success img "text_extraction") as [bt [Ht Hst]].
  pose proof (subscript_data img "text_extraction") as Hdt.
  destruct (subscript_success img "table_extraction") as [bb [Hb Hsb]].
  pose proof (subscript_data img "table_extraction") as Hdb.
  rewrite Hst in *. rewrite Hsb in *.
  destruct (detected E img); cbn [andb];
    [rewrite process_image_run, Hb; cbn [truthy];
     destruct bb; [rewrite (Hdb eq_refl)|] |];
    unfold ret; rewrite Ht; cbn [truthy];
    (destruct bt; [rewrite (Hdt eq_refl)|]);
    unfold asked, ret, table_entry, result_entry;
    cbn [files dirs requests results table_data text_headers text_content];
    rewrite <- ?app_assoc, ?app_nil_r; cbn [app];
    destruct acc; cbn [results table_data text_headers text_content];
    try reflexivity;
    destruct (payload (answer E img "text_extraction")); reflexivity.
Qed.

End Pages.

(** ** The output materializer *)

Section Materializer.

Variable E : Env.

(** A writer in closed form: its file holds what closing left there;
    the exception of the block goes on unless closing raises. *)
Lemma ExcelWriter_run (path : Path) (block : ST Book unit) (w : World) :
  ExcelWriter E path block w
  = (match close_error E (snd (block [])) with
     | Some e => Raise e
     | None => fst (block [])
     end,
     with_file path (saved E (snd (block []))) (with_file path Empty w)).
Proof.
  unfold ExcelWriter, writer_close, saved, close_error, bind, write_file, throw, lift,
    with_file.
  destruct (block []) as [outcome [|sheet book]]; cbn [fst snd files dirs requests];
    [reflexivity|].
  now destruct (save E (sheet :: book)) as [[]|e].
Qed.

(** [format_table_output] in closed form: it returns the path when the
    loop and the save went through, [None] otherwise; the file holds
    what closing the writer left there. *)
Lemma format_table_output_run (table_data : list pyval) (output_path : Path) (w : World) :
  format_table_output E table_data output_path w
  = (Ok match close_error E (snd (table_loop E table_data)), fst (table_loop E table_data) with
        | None, Ok _ => Some output_path
        | _, _ => None
        end,
     with_file output_path (saved E (snd (table_loop E table_data)))
       (with_file output_path Empty (with_dir (parent output_path) w))).
Proof.
  unfold format_table_output, try_except, bind at 1. cbn [mkdir].
  unfold bind at 1. rewrite ExcelWriter_run. fold (table_loop E table_data).
  unfold with_dir, ret.
  destruct (close_error E (snd (table_loop E table_data))); [reflexivity|].
  now destruct (fst (table_loop E table_data)) as [[]|e].
Qed.

Lemma format_table_output_keeps_requests (table_data : list pyval) (output_path : Path) :
  preserves requests (format_table_output E table_data output_path).
Proof. intros w. now rewrite format_table_output_run. Qed.

(** [format_table_output] never raises. *)
Lemma format_table_output_returns (table_data : list pyval) (output_path : Path) (w : World) :
  exists r w', format_table_output E table_data output_path w = (Ok r, w').
Proof. rewrite format_table_output_run. eauto. Qed.

(** [format_text_output] always writes a dict with both [headers] and
    [content]. *)
Lemma format_text_output_normalises (text_data : pyval) (output_path : Path) (w : World) :
  exists h c w',
    format_text_output text_data output_path w = (Ok (Some output_path), w')
    /\ read_file (path_str output_path) (files w')
       = Some (Json (PDict [("headers", h); ("content", c)])).
Proof.
  unfold format_text_output, try_except, bind, mkdir, lift, write_file, ret.
  destruct text_data as [ |b|z|lit|s|l|d]; cbn [setitem String.eqb Ascii.eqb Bool.eqb];
    try (do 3 eexists; split; [reflexivity|apply read_file_last]).
  unfold has_key, getitem, and_then.
  destruct (lookup "headers" d) as [h|];
    (destruct (lookup "content" d) as [c|]; [|destruct (lookup "text" d) as [t|]]);
    cbn [setitem String.eqb Ascii.eqb Bool.eqb];
    do 3 eexists; (split; [reflexivity|apply read_file_last]).
Qed.





End Materializer.

(** ** The aggregator *)

Section Aggregator.

Variable E : Env.

(** The aggregation of a text payload appends to the two lists of the
    text artifact and touches nothing else. *)
Lemma aggregate_text_run (d : dict) (acc : Acc) (hs cs : list pyval) :
  match lookup "headers" d with
  | Some h => iterate h = Ok hs
  | None => hs = []
  end ->
  match lookup "content" d with
  | Some c => iterate c = Ok cs
  | None => match lookup "text" d with Some t => cs = [t] | None => cs = [] end
  end ->
  aggregate_text d acc
  = Ok (mkAcc (results acc) (table_data acc)
              (text_headers acc ++ hs) (text_content acc ++ cs)).
Proof.
  intros Hh Hc. unfold aggregate_text, has_key, getitem, and_then.
  destruct acc as [rs ts ahs acs]; cbn [results table_data text_headers text_content].
  destruct (lookup "headers" d) as [h|]; [rewrite Hh|subst hs];
    cbn [results table_data text_headers text_content];
    (destruct (lookup "content" d) as [c|];
     [rewrite Hc|destruct (lookup "text" d) as [t|]; subst cs]);
    rewrite ?app_nil_r; reflexivity.
Qed.

Lemma foldable_aggregate (d : dict) (acc : Acc) :
  foldable (PDict d) = true ->
  exists hs cs,
    aggregate_text d acc
    = Ok (mkAcc (results acc) (table_data acc)
                (text_headers acc ++ hs) (text_content acc ++ cs)).
Proof.
  unfold foldable, iterable. intros H. apply andb_prop in H. destruct H as [Hh Hc].
  assert (exists hs, match lookup "headers" d with
                     | Some h => iterate h = Ok hs
                     | None => hs = []
                     end) as [hs Hhs].
  { destruct (lookup "headers" d) as [h|]; [|eauto].
    destruct (iterate h); [eauto|discriminate]. }
  assert (exists cs, match lookup "content" d with
                     | Some c => iterate c = Ok cs
                     | None => match lookup "text" d with
                               | Some t => cs = [t]
                               | None => cs = []
                               end
                     end) as [cs Hcs].
  { destruct (lookup "content" d) as [c|].
    - destruct (iterate c); [eauto|discriminate].
    - destruct (lookup "text" d); eauto. }
  exists hs, cs. now apply aggregate_text_run.
Qed.

Lemma aggregate_text_keeps (d : dict) (acc acc' : Acc) :
  aggregate_text d acc = Ok acc' ->
  results acc' = results acc /\ table_data acc' = table_data acc.
Proof.
  unfold aggregate_text, and_then, getitem, has_key.
  destruct acc as [rs ts ahs acs].
  destruct (lookup "headers" d) as [h|]; [destruct (iterate h)|];
    try discriminate;
    (destruct (lookup "content" d) as [c|];
     [destruct (iterate c)|destruct (lookup "text" d)]);
    try discriminate; intros [= <-]; auto.
Qed.

(** The page loop in closed form, when every text payload can be
    aggregated: no page stops it, each page adds its entries and its
    requests. *)
Lemma page_loop_run (pages : list (nat * Path)) :
  (forall page, In page pages ->
     foldable (payload (answer E (snd page) "text_extraction")) = true) ->
  forall (acc : Acc) (w : World),
  exists hs cs,
    for_each pages (process_page E) acc w
    = (Ok (mkAcc (results acc ++ flat_map (page_results E) pages)
                 (table_data acc ++ flat_map (page_tables E) pages)
                 (text_headers acc ++ hs) (text_content acc ++ cs)),
       mkWorld (files w) (dirs w)
               (requests w ++ flat_map (fun page => page_requests E (snd page)) pages)).
Proof.
  induction pages as [|[i img] pages IH]; intros Hfold acc w.
  - exists [], []. cbn. rewrite !app_nil_r. now destruct acc, w.
  - cbn [for_each flat_map]. unfold bind. rewrite process_page_run.
    assert (Hhere := Hfold (i, img) (or_introl eq_refl)). cbn [snd] in Hhere.
    assert (Hrest : forall page, In page pages ->
              foldable (payload (answer E (snd page) "text_extraction")) = true)
      by (intros page Hin; apply Hfold; now right).
    assert (exists hs cs,
              (if succeeded (answer E img "text_extraction")
               then match payload (answer E img "text_extraction") with
                    | PDict d =>
                        aggregate_text d
                          (mkAcc (results acc ++ page_results E (i, img))
                                 (table_data acc ++ page_tables E (i, img))
                                 (text_headers acc) (text_content acc))
                    | _ => Ok (mkAcc (results acc ++ page_results E (i, img))
                                     (table_data acc ++ page_tables E (i, img))
                                     (text_headers acc) (text_content acc))
                    end
               else Ok (mkAcc (results acc) (table_data acc ++ page_tables E (i, img))
                              (text_headers acc) (text_content acc)))
              = Ok (mkAcc (results acc ++ page_results E (i, img))
                          (table_data acc ++ page_tables E (i, img))
                          (text_headers acc ++ hs) (text_content acc ++ cs)))
      as [hs [cs Hstep]].
    { destruct (succeeded (answer E img "text_extraction")) eqn:Hs.
      - destruct (payload (answer E img "text_extraction")) as [ |b|z|lit|s|l|d] eqn:Hp;
          try (exists [], []; now rewrite !app_nil_r).
        destruct (foldable_aggregate d
                    (mkAcc (results acc ++ page_results E (i, img))
                           (table_data acc ++ page_tables E (i, img))
                           (text_headers acc) (text_content acc)) Hhere)
          as [hs [cs ->]]. now exists hs, cs.
      - exists [], []. unfold page_results. cbn [fst snd]. now rewrite Hs, !app_nil_r. }
    cbn [results table_data text_headers text_content] in Hstep |- *.
    rewrite Hstep.
    destruct (IH Hrest
                (mkAcc (results acc ++ page_results E (i, img))
                       (table_data acc ++ page_tables E (i, img))
                       (text_headers acc ++ hs) (text_content acc ++ cs))
                (mkWorld (files w) (dirs w) (requests w ++ page_requests E img)))
      as [hs' [cs' ->]].
    exists (hs ++ hs')%list, (cs ++ cs')%list.
    cbn [results table_data text_headers text_content files dirs requests snd].
    now rewrite !app_assoc.
Qed.

Lemma flat_map_enumerate {A B : Type} (f : A -> list B) (l : list A) :
  flat_map (fun page => f (snd page)) (enumerate l) = flat_map f l.
Proof.
  unfold enumerate. generalize 0%nat.
  induction l as [|a l IH]; intros k; cbn; [reflexivity|]. now rewrite IH.
Qed.

End Aggregator.

(** ** The page analysis protocol and the document result *)

Section Protocol.

Variable E : Env.

(** C5: in one turn of the page loop the gateway is asked for the
    classification and for the text, and then for the table exactly when
    the word [table] occurs in the lower-cased raw text of the
    classification; a classification that failed (the backend did not
    answer, or the decoder gave up on the reply) has no raw text, so no
    table is asked for; the [table_detected] flag of the page's entry is
    that same decision. *)
Theorem table_call_gating (i : nat) (img : Path) (acc : Acc) (w : World) :
  exists mentioned : bool,
    requests (snd (process_page E (i, img) acc w))
    = (requests w
       ++ [(path_str img, "document_analysis"); (path_str img, "text_extraction")]
       ++ (if mentioned then [(path_str img, "table_extraction")] else []))%list
    /\ match backend E (path_str img) (prompt_for "document_analysis") with
       | Generated response =>
           match gives_up E (text_of response) with
           | None => mentioned = true <-> occurs "table" (lower (text_of response))
           | Some _ => mentioned = false
           end
       | Unreachable _ => mentioned = false
       end
    /\ forall acc', fst (process_page E (i, img) acc w) = Ok acc' ->
         results acc' = results acc
         \/ exists data, results acc' = (results acc ++ [result_entry i data mentioned])%list.
Proof.
  exists (detected E img). rewrite process_page_run. cbn [fst snd requests].
  split; [reflexivity|]. split.
  - unfold detected, raw_text.
    destruct (backend E (path_str img) (prompt_for "document_analysis")) as [e|r].
    + reflexivity.
    + destruct (gives_up E (text_of r)); [reflexivity|].
      apply str_in_occurs. discriminate.
  - intros acc'. unfold page_results. cbn [fst snd].
    destruct (succeeded (answer E img "text_extraction")).
    + intros H. right. exists (payload (answer E img "text_extraction")).
      destruct (payload (answer E img "text_extraction")) as [ |b|z|lit|s|l|d];
        try (now injection H as <-).
      now apply aggregate_text_keeps in H.
    + intros [= <-]. now left.
Qed.



(** What the two multi-page paths do once the page images exist. *)
Lemma process_pages_run (document_type doc_name : string) (screenshot_folder : Path)
    (image_paths : list Path) (w : World) :
  (forall img, In img image_paths ->
     foldable (payload (answer E img "text_extraction")) = true) ->
  exists r w',
    process_pages E document_type doc_name screenshot_folder image_paths w
    = (Ok (PDict r), w')
    /\ lookup "success" r = Some (PBool true)
    /\ lookup "pages_processed" r = Some (PInt (Z.of_nat (length image_paths)))
    /\ lookup "results" r
       = Some (PList (flat_map (page_results E) (enumerate image_paths)))
    /\ requests w' = (requests w ++ flat_map (page_requests E) image_paths)%list.
Proof.
  intros Hfold. unfold process_pages, bind.
  destruct (page_loop_run E (enumerate image_paths)) with (acc := mkAcc [] [] [] []) (w := w)
    as [hs [cs ->]].
  { intros [k img] Hin. apply Hfold. unfold enumerate in Hin.
    now apply in_combine_r in Hin. }
  rewrite flat_map_enumerate.
  cbn [results table_data text_headers text_content app write_file].
  destruct (flat_map (page_tables E) (enumerate image_paths)) as [|t ts] eqn:Ht.
  - unfold ret. eexists; eexists. split; [reflexivity|]. cbn. auto.
  - match goal with
    | |- context [format_table_output E ?td ?p ?w0] =>
        pose proof (format_table_output_keeps_requests E td p w0) as Hq;
        destruct (format_table_output_returns E td p w0) as [r [w1 Hr]]
    end.
    rewrite Hr in *. cbn [snd requests] in Hq.
    unfold ret. eexists; eexists. split; [reflexivity|]. cbn. auto.
Qed.

(** The page loop has no guard against a text payload whose [headers]
    cannot be iterated over (a number, [null]): the exception of
    [extend] ends the loop. *)
Lemma page_headers_not_iterable_raises (i : nat) (img : Path) (acc : Acc) (w : World)
    (d : dict) (h : pyval) :
  succeeded (answer E img "text_extraction") = true ->
  payload (answer E img "text_extraction") = PDict d ->
  lookup "headers" d = Some h ->
  iterable h = false ->
  exists e, fst (process_page E (i, img) acc w) = Raise e.
Proof.
  intros Hs Hp Hh Hi. rewrite process_page_run. cbn [fst]. rewrite Hs, Hp.
  unfold aggregate_text, has_key, getitem, and_then. rewrite Hh.
  unfold iterable in Hi. destruct (iterate h) as [items|e]; [discriminate|eauto].
Qed.

End Protocol.

(** ** The rasterizer *)

Section Rasterizer.

Variable E : Env.

Lemma save_page_keeps_requests (output_folder : Path) (page : nat * Image) (paths : list Path) :
  preserves requests (save_page E output_folder page paths).
Proof.
  unfold save_page. repeat (apply preserves_bind; [auto with world|intros ?]).
  auto with world.
Qed.

Lemma pdf_to_images_keeps_requests (pdf_path output_folder : Path) :
  preserves requests (pdf_to_images E pdf_path output_folder).
Proof.
  unfold pdf_to_images. apply preserves_bind; [auto with world|intros _].
  apply preserves_try_except; [|auto with world].
  apply preserves_bind; [auto with world|intros images].
  apply preserves_for_each. intros; apply save_page_keeps_requests.
Qed.

Lemma docx_to_images_keeps_requests (docx_path output_folder : Path) :
  preserves requests (docx_to_images E docx_path output_folder).
Proof.
  unfold docx_to_images. apply preserves_bind; [auto with world|intros _].
  apply preserves_try_except; [|auto with world].
  apply preserves_bind; [auto with world|intros paragraphs].
  apply preserves_for_each. intros; apply save_page_keeps_requests.
Qed.

(** The rasterizer never raises. *)
Lemma pdf_to_images_returns (pdf_path output_folder : Path) (w : World) :
  exists paths w', pdf_to_images E pdf_path output_folder w = (Ok paths, w').
Proof. unfold pdf_to_images, bind, mkdir. apply try_except_returns. Qed.

Lemma docx_to_images_returns (docx_path output_folder : Path) (w : World) :
  exists paths w', docx_to_images E docx_path output_folder w = (Ok paths, w').
Proof. unfold docx_to_images, bind, mkdir. apply try_except_returns. Qed.

(** A page that cannot be saved stops the saving loop with an
    exception. *)
Lemma save_loop_raises (output_folder : Path) (pages : list (nat * Image))
    (page : nat * Image) (e : exn) :
  In page pages ->
  image_save E (snd page) (page_path output_folder (fst page)) = Raise e ->
  forall paths w,
  exists e' w', for_each pages (save_page E output_folder) paths w = (Raise e', w').
Proof.
  intros Hin Hsave. induction pages as [|p0 pages IH]; [contradiction|].
  intros paths w. cbn [for_each]. unfold bind at 1.
  destruct (save_page E output_folder p0 paths w) as [[paths'|e'] w'] eqn:Hstep.
  - destruct Hin as [->|Hin]; [|now apply IH].
    unfold save_page, bind, lift in Hstep.
    fold (page_path output_folder (fst page)) in Hstep. rewrite Hsave in Hstep.
    discriminate.
  - eauto.
Qed.

(** When the conversion is impossible the rasterizer returns the empty
    list. *)
Lemma pdf_to_images_empty (pdf_path output_folder : Path) (w : World) :
  conversion_fails E pdf_path output_folder ->
  fst (pdf_to_images E pdf_path output_folder w) = Ok [].
Proof.
  intros [[e He]|[images [page [e [Hi [Hin He]]]]]];
    unfold pdf_to_images, bind, mkdir, try_except, lift.
  - now rewrite He.
  - rewrite Hi.
    match goal with
    | |- context [for_each _ _ ?ps ?w0] =>
        destruct (save_loop_raises output_folder (enumerate images) page e Hin He ps w0)
          as [e' [w' ->]]
    end.
    reflexivity.
Qed.

Lemma save_page_run (output_folder : Path) (page : nat * Image)
    (paths : list Path) (w : World) :
  image_save E (snd page) (page_path output_folder (fst page)) = Ok tt ->
  save_page E output_folder page paths w
  = (Ok (paths ++ [page_path output_folder (fst page)])%list,
     mkWorld (files w ++ [(path_str (page_path output_folder (fst page)), Png (snd page))])%list
             (dirs w) (requests w)).
Proof.
  intros H. unfold save_page, bind, lift, write_file, ret.
  fold (page_path output_folder (fst page)). now rewrite H.
Qed.

(** When every page can be saved, the saving loop returns the paths of
    the pages in order. *)
Lemma save_loop_paths {X : Type} (output_folder : Path) (image_of : X -> Image) :
  (forall img path, image_save E img path = Ok tt) ->
  forall (pages : list (nat * X)) (paths : list Path) (w : World),
  exists w',
    for_each pages
      (fun page => save_page E output_folder (fst page, image_of (snd page))) paths w
    = (Ok (paths ++ map (fun page => page_path output_folder (fst page)) pages)%list, w').
Proof.
  intros Hsave. induction pages as [|p0 pages IH]; intros paths w.
  - exists w. cbn. now rewrite app_nil_r.
  - cbn [for_each map]. unfold bind at 1.
    rewrite save_page_run by apply Hsave. cbn [fst snd].
    match goal with
    | |- context [for_each _ _ ?ps ?w0] => destruct (IH ps w0) as [w' ->]
    end.
    exists w'. now rewrite <- app_assoc.
Qed.

Lemma map_fst_enumerate {A : Type} (l : list A) :
  map fst (enumerate l) = seq 0 (length l).
Proof.
  unfold enumerate. generalize 0%nat.
  induction l as [|a l IH]; intros k; cbn; [reflexivity|]. now rewrite IH.
Qed.

(** X14: the pages of a DOCX document: one per started chunk of ten
    paragraphs. *)
Lemma docx_to_images_pages (docx_path output_folder : Path)
    (paragraphs : list string) (w : World) :
  (forall img path, image_save E img path = Ok tt) ->
  docx_Document E docx_path = Ok paragraphs ->
  fst (docx_to_images E docx_path output_folder w)
  = Ok (map (page_path output_folder) (seq 0 ((length paragraphs + 9) / 10))).
Proof.
  intros Hsave Hdoc. unfold docx_to_images, bind, mkdir, try_except, lift.
  rewrite Hdoc.
  match goal with
  | |- context [for_each ?pages _ ?ps ?w0] =>
      destruct (save_loop_paths output_folder (fun _ : list string => mkImage 800 1000)
                  Hsave pages ps w0) as [w' ->]
  end.
  cbn [fst app]. f_equal.
  rewrite <- (map_map fst (page_path output_folder)), map_fst_enumerate.
  rewrite length_map. unfold range. rewrite length_map, length_seq.
  do 3 f_equal. lia.
Qed.

(** A document without paragraphs has no chunk, hence no page image. *)
Lemma docx_to_images_no_paragraph (docx_path output_folder : Path) (w : World) :
  docx_Document E docx_path = Ok [] ->
  fst (docx_to_images E docx_path output_folder w) = Ok [].
Proof.
  intros H. unfold docx_to_images, bind, mkdir, try_except, lift. now rewrite H.
Qed.

End Rasterizer.

(** ** The entry point *)

Section Document.

Variable E : Env.

Lemma process_document_pdf (file_path : Path) :
  get_file_type file_path = "pdf" ->
  process_document E file_path = _process_pdf E file_path.
Proof. intros H. unfold process_document. now rewrite H. Qed.

Lemma process_document_docx (file_path : Path) :
  get_file_type file_path = "docx" ->
  process_document E file_path = _process_docx E file_path.
Proof. intros H. unfold process_document. now rewrite H. Qed.

Lemma process_document_image (file_path : Path) :
  In (get_file_type file_path) ["jpg"; "jpeg"; "png"; "tiff"] ->
  process_document E file_path = _process_image E file_path.
Proof.
  intros H. unfold process_document.
  destruct H as [<-|[<-|[<-|[<-|[]]]]]; reflexivity.
Qed.

Lemma _process_pdf_run (file_path : Path) (w : World) :
  let folder := joinpath (SCREENSHOT_FOLDER E) (stem file_path) in
  _process_pdf E file_path w
  = match pdf_to_images E file_path folder (snd (mkdir (path_str folder) w)) with
    | (Ok [], w1) => (Ok (conversion_failure "PDF"), w1)
    | (Ok image_paths, w1) =>
        process_pages E "pdf" (stem file_path) folder image_paths w1
    | (Raise e, w1) => (Raise e, w1)
    end.
Proof.
  cbv zeta. unfold _process_pdf, bind. cbn [mkdir snd].
  now destruct (pdf_to_images E file_path _ _) as [[[|img rest]|e] w1].
Qed.

Lemma _process_docx_run (file_path : Path) (w : World) :
  let folder := joinpath (SCREENSHOT_FOLDER E) (stem file_path) in
  _process_docx E file_path w
  = match docx_to_images E file_path folder (snd (mkdir (path_str folder) w)) with
    | (Ok [], w1) => (Ok (conversion_failure "DOCX"), w1)
    | (Ok image_paths, w1) =>
        process_pages E "docx" (stem file_path) folder image_paths w1
    | (Raise e, w1) => (Raise e, w1)
    end.
Proof.
  cbv zeta. unfold _process_docx, bind. cbn [mkdir snd].
  now destruct (docx_to_images E file_path _ _) as [[[|img rest]|e] w1].
Qed.

(** C1, as the code has it: for a PDF or DOCX document rasterized into
    at least one page image, and text payloads that can be aggregated,
    [process_document] returns a success whatever gateway calls failed;
    every page gets its classification and its text request, and its
    table request when a table is detected; [results] holds, in page
    order, the entry [{page, text_data, table_detected}] of each page
    whose text extraction succeeded, and no entry for a page whose text
    extraction failed. *)
Theorem multi_page_results (file_path : Path) (image_paths : list Path) (w w1 : World) :
  let folder := joinpath (SCREENSHOT_FOLDER E) (stem file_path) in
  let w0 := snd (mkdir (path_str folder) w) in
  (get_file_type file_path = "pdf"
   /\ pdf_to_images E file_path folder w0 = (Ok image_paths, w1))
  \/ (get_file_type file_path = "docx"
      /\ docx_to_images E file_path folder w0 = (Ok image_paths, w1)) ->
  image_paths <> [] ->
  (forall img, In img image_paths ->
     foldable (payload (answer E img "text_extraction")) = true) ->
  exists r w',
    process_document E file_path w = (Ok (PDict r), w')
    /\ lookup "success" r = Some (PBool true)
    /\ lookup "pages_processed" r = Some (PInt (Z.of_nat (length image_paths)))
    /\ lookup "results" r
       = Some (PList (flat_map (page_results E) (enumerate image_paths)))
    /\ requests w' = (requests w ++ flat_map (page_requests E) image_paths)%list.
Proof.
  intros folder w0 Hkind Hne Hfold.
  assert (Hw1 : requests w1 = requests w).
  { destruct Hkind as [[_ H]|[_ H]].
    - pose proof (pdf_to_images_keeps_requests E file_path folder w0) as Hq.
      now rewrite H in Hq.
    - pose proof (docx_to_images_keeps_requests E file_path folder w0) as Hq.
      now rewrite H in Hq. }
  rewrite <- Hw1.
  destruct Hkind as [[Hext H]|[Hext H]].
  - rewrite (process_document_pdf _ Hext), _process_pdf_run.
    fold folder w0. rewrite H. destruct image_paths as [|img rest]; [contradiction|].
    now apply process_pages_run.
  - rewrite (process_document_docx _ Hext), _process_docx_run.
    fold folder w0. rewrite H. destruct image_paths as [|img rest]; [contradiction|].
    now apply process_pages_run.
Qed.

(** C9: when the conversion of a PDF is impossible, [pdf_to_images]
    returns the empty list and raises nothing; and on the empty list
    [process_document] returns the failure result with the message
    [Failed to convert PDF to images]. *)
Theorem pdf_conversion_failure (file_path : Path) (w : World) :
  get_file_type file_path = "pdf" ->
  let folder := joinpath (SCREENSHOT_FOLDER E) (stem file_path) in
  let w0 := snd (mkdir (path_str folder) w) in
  (conversion_fails E file_path folder ->
   forall w', fst (pdf_to_images E file_path folder w') = Ok [])
  /\ (fst (pdf_to_images E file_path folder w0) = Ok [] ->
      fst (process_document E file_path w) = Ok (conversion_failure "PDF")).
Proof.
  intros Hext folder w0. split.
  - intros Hfail w'. now apply pdf_to_images_empty.
  - intros Hempty. rewrite (process_document_pdf _ Hext), _process_pdf_run.
    fold folder w0.
    destruct (pdf_to_images E file_path folder w0) as [[paths|e] w1]; cbn [fst] in Hempty.
    + now injection Hempty as ->.
    + discriminate.
Qed.

(** C10: a DOCX document that opens and has no paragraph gives no page
    image, and [process_document] returns the failure result with the
    message [Failed to convert DOCX to images]. *)
Theorem empty_docx_fails (file_path : Path) (w : World) :
  get_file_type file_path = "docx" ->
  docx_Document E file_path = Ok [] ->
  (forall folder w', fst (docx_to_images E file_path folder w') = Ok [])
  /\ fst (process_document E file_path w) = Ok (conversion_failure "DOCX").
Proof.
  intros Hext Hdoc. split.
  - intros folder w'. now apply docx_to_images_no_paragraph.
  - rewrite (process_document_docx _ Hext), _process_docx_run.
    match goal with
    | |- context [docx_to_images E file_path ?f ?w0] =>
        pose proof (docx_to_images_no_paragraph E file_path f w0 Hdoc) as Hempty;
        destruct (docx_to_images E file_path f w0) as [[paths|e] w1]
    end; cbn [fst] in Hempty.
    + now injection Hempty as ->.
    + discriminate.
Qed.

End Document.

(** ** The single-image path *)

Section SingleImage.

Variable E : Env.

(** The table step of [_process_image] raises nothing, asks nothing of
    the text response, and makes the table request exactly when a table
    is detected. *)
Lemma image_table_step_returns (file_path : Path) (w : World) :
  let processed_image := preprocess_image E file_path in
  let step :=
    (if detected E processed_image then
       table_result <- extract_table E processed_image ;;
       ok <- lift (subscript table_result "success") ;;
       if truthy ok then
         let doc_name := stem file_path in
         let table_output_path := joinpath (OUTPUT_FOLDER E) (doc_name ++ ".xlsx") in
         data <- lift (subscript table_result "data") ;;
         format_table_output E [PDict [("page", PInt 1); ("data", data)]]
                             table_output_path ;;;
         ret (Some table_output_path)
       else ret None
     else ret None) in
  exists r w',
    step w = (Ok r, w')
    /\ requests w'
       = (requests w
          ++ (if detected E processed_image
              then [(path_str processed_image, "table_extraction")] else []))%list.
Proof.
  cbv zeta. destruct (detected E (preprocess_image E file_path));
    [|unfold ret; do 2 eexists; split; [reflexivity|now rewrite app_nil_r]].
  unfold extract_table, bind, lift. rewrite process_image_run.
  destruct (subscript_success E (preprocess_image E file_path) "table_extraction")
    as [b [-> Hb]].
  cbn [truthy]. destruct b; [|unfold ret; do 2 eexists; split; reflexivity].
  rewrite (subscript_data E _ _ Hb).
  match goal with
  | |- context [format_table_output E ?td ?p ?w0] =>
      pose proof (format_table_output_keeps_requests E td p w0) as Hq;
      destruct (format_table_output_returns E td p w0) as [r [w1 Hr]]
  end.
  rewrite Hr in *. cbn [snd] in Hq. unfold ret. do 2 eexists. split; [reflexivity|].
  exact Hq.
Qed.

(** X11: the single-image path makes the same requests as one turn of the
    page loop, whether or not it ends in an exception. *)
Lemma image_requests (file_path : Path) (w : World) :
  requests (snd (_process_image E file_path w))
  = (requests w ++ page_requests E (preprocess_image E file_path))%list.
Proof.
  unfold _process_image, analyze_document_type, extract_text.
  unfold bind at 1. rewrite process_image_run.
  unfold bind at 1. rewrite process_image_run.
  unfold bind at 1, lift at 1. rewrite table_mentioned_answer.
  unfold bind at 1.
  pose proof (image_table_step_returns file_path
                (asked (preprocess_image E file_path) "text_extraction"
                   (asked (preprocess_image E file_path) "document_analysis" w)))
    as Hstep.
  cbv zeta in Hstep. destruct Hstep as [r [w' [-> Hreq]]].
  unfold bind, write_file, lift, ret, page_requests.
  destruct (subscript (answer E (preprocess_image E file_path) "text_extraction") "data");
    [destruct (get_method (answer E (preprocess_image E file_path) "document_analysis")
                 "data" (PDict []))|];
    cbn [snd requests]; rewrite Hreq; unfold asked; cbn [requests];
    now rewrite <- !app_assoc.
Qed.

(** On an image whose text extraction failed, [_process_image] opens the
    output file and then raises [KeyError]: the failure response has no
    [data]. *)
Lemma image_text_failure_raises (file_path : Path) (w : World) :
  In (get_file_type file_path) ["jpg"; "jpeg"; "png"; "tiff"] ->
  succeeded (answer E (preprocess_image E file_path) "text_extraction") = false ->
  fst (process_document E file_path w) = Raise (KeyError "data").
Proof.
  intros Hext Hfail. rewrite (process_document_image E _ Hext).
  unfold _process_image, analyze_document_type, extract_text.
  unfold bind at 1. rewrite process_image_run.
  unfold bind at 1. rewrite process_image_run.
  unfold bind at 1, lift at 1. rewrite table_mentioned_answer.
  unfold bind at 1.
  pose proof (image_table_step_returns file_path
                (asked (preprocess_image E file_path) "text_extraction"
                   (asked (preprocess_image E file_path) "document_analysis" w)))
    as Hstep.
  cbv zeta in Hstep. destruct Hstep as [r [w' [-> _]]].
  unfold bind, write_file, lift.
  destruct (answer_shape E (preprocess_image E file_path) "text_extraction")
    as [[msg Ha]|[p [raw Ha]]]; rewrite Ha in *; [reflexivity|discriminate].
Qed.

(** On an image whose text extraction succeeded, the JSON file holds the
    payload of the model as it came, not a normalised text artifact. *)
Lemma image_text_written_raw (file_path : Path) (w : World) :
  In (get_file_type file_path) ["jpg"; "jpeg"; "png"; "tiff"] ->
  succeeded (answer E (preprocess_image E file_path) "text_extraction") = true ->
  exists r w',
    process_document E file_path w = (Ok r, w')
    /\ read_file (path_str (joinpath (OUTPUT_FOLDER E) (stem file_path ++ ".json")))
                 (files w')
       = Some (Json (payload (answer E (preprocess_image E file_path) "text_extraction"))).
Proof.
  intros Hext Hok. rewrite (process_document_image E _ Hext).
  unfold _process_image, analyze_document_type, extract_text.
  unfold bind at 1. rewrite process_image_run.
  unfold bind at 1. rewrite process_image_run.
  unfold bind at 1, lift at 1. rewrite table_mentioned_answer.
  unfold bind at 1.
  pose proof (image_table_step_returns file_path
                (asked (preprocess_image E file_path) "text_extraction"
                   (asked (preprocess_image E file_path) "document_analysis" w)))
    as Hstep.
  cbv zeta in Hstep. destruct Hstep as [r [w' [-> _]]].
  unfold bind, write_file, lift, ret.
  rewrite (subscript_data E _ _ Hok).
  destruct (answer_shape E (preprocess_image E file_path) "document_analysis")
    as [[msg Ha]|[p [raw Ha]]]; rewrite Ha; cbn [get_method];
    eexists; eexists; (split; [reflexivity|]); cbn [files]; apply read_file_last.
Qed.

End SingleImage.

(** ** The text artifact of the multi-page paths *)

Section TextArtifact.

Variable E : Env.

Lemma append_same_head (a b c : string) : a ++ b = a ++ c -> b = c.
Proof.
  induction a as [|x a IH]; cbn; [auto|]. intros [= H]. now apply IH.
Qed.

Lemma json_xlsx_differ (base : Path) :
  path_str (with_suffix base ".xlsx") <> path_str (with_suffix base ".json").
Proof.
  unfold path_str, with_suffix. cbn [parent name]. intros H.
  do 3 apply append_same_head in H. discriminate.
Qed.

Lemma read_file_other (p : string) (fs extra : list (string * content)) :
  (forall q c, In (q, c) extra -> q <> p) ->
  read_file p (fs ++ extra) = read_file p fs.
Proof.
  intros Hother.
  assert (Hextra : read_file p extra = None).
  { induction extra as [|[q c] extra IH]; [reflexivity|].
    cbn. rewrite IH by (intros q' c' Hin; apply (Hother q' c'); now right).
    destruct (String.eqb_spec p q) as [->|_]; [|reflexivity].
    now destruct (Hother q c (or_introl eq_refl)). }
  induction fs as [|[q c] fs IH]; cbn; [exact Hextra|]. now rewrite IH.
Qed.

(** [format_table_output] writes nothing but its workbook. *)
Lemma format_table_output_files (table_data : list pyval) (output_path : Path) (w : World) :
  exists extra,
    files (snd (format_table_output E table_data output_path w)) = (files w ++ extra)%list
    /\ forall q c, In (q, c) extra -> q = path_str output_path.
Proof.
  rewrite format_table_output_run. unfold with_file, with_dir. cbn [snd files].
  exists [(path_str output_path, Empty);
          (path_str output_path, saved E (snd (table_loop E table_data)))].
  split; [now rewrite <- app_assoc|].
  intros q c [[= <- _]|[[= <- _]|[]]]; reflexivity.
Qed.

(** The JSON file the multi-page paths write always has both [headers]
    and [content], each a list. *)
Lemma process_pages_text_artifact (document_type doc_name : string)
    (screenshot_folder : Path) (image_paths : list Path) (w : World) :
  (forall img, In img image_paths ->
     foldable (payload (answer E img "text_extraction")) = true) ->
  exists hs cs,
    read_file (path_str (with_suffix (joinpath (OUTPUT_FOLDER E) doc_name) ".json"))
      (files (snd (process_pages E document_type doc_name screenshot_folder image_paths w)))
    = Some (Json (PDict [("headers", PList hs); ("content", PList cs)])).
Proof.
  intros Hfold. unfold process_pages, bind at 1.
  destruct (page_loop_run E (enumerate image_paths)) with (acc := mkAcc [] [] [] []) (w := w)
    as [hs [cs ->]].
  { intros [k img] Hin. apply Hfold. unfold enumerate in Hin.
    now apply in_combine_r in Hin. }
  exists hs, cs. unfold bind, write_file, text_data.
  cbn [results table_data text_headers text_content app files dirs requests].
  destruct (flat_map (page_tables E) (enumerate image_paths)) as [|t ts].
  - unfold ret. cbn [snd files]. apply read_file_last.
  - match goal with
    | |- context [format_table_output E ?td ?p ?w0] =>
        destruct (format_table_output_files td p w0) as [extra [Hfiles Hextra]];
        destruct (format_table_output E td p w0) as [[r|e] w1]
    end; unfold ret; cbn [snd files] in Hfiles |- *; rewrite Hfiles;
      (rewrite read_file_other;
       [apply read_file_last
       |intros q c Hin; rewrite (Hextra q c Hin); apply json_xlsx_differ]).
Qed.

End TextArtifact.

(** ** Runs of the concrete environment *)

(** C1, as stated, fails: the two-page report loses the text-extraction
    call of its first page; both pages are processed, and [results] has
    the entry of page 2 alone. *)
Lemma failed_text_page_is_dropped :
  fst (extract_text Demo.env (Demo.report_page 1) Demo.fresh)
  = Ok (PDict [("success", PBool false);
               ("error", PStr "500 Server Error: Internal Server Error")])
  /\ exists r w',
       process_document Demo.env Demo.report_pdf Demo.fresh = (Ok (PDict r), w')
       /\ lookup "pages_processed" r = Some (PInt 2)
       /\ lookup "results" r
          = Some (PList [result_entry 1
                           (PDict [("headers", PList [PStr "Invoice"]);
                                   ("text", PStr "Total due: 5")])
                           true]).
Proof.
  split; [reflexivity|].
  eexists; eexists. split; [vm_compute; reflexivity|]. split; reflexivity.
Qed.

Lemma multi_page_results_witness :
  (get_file_type Demo.report_pdf = "pdf"
   /\ pdf_to_images Demo.env Demo.report_pdf
        (joinpath (SCREENSHOT_FOLDER Demo.env) (stem Demo.report_pdf))
        (snd (mkdir (path_str (joinpath (SCREENSHOT_FOLDER Demo.env) (stem Demo.report_pdf)))
                    Demo.fresh))
      = (Ok [Demo.report_page 1; Demo.report_page 2],
         snd (pdf_to_images Demo.env Demo.report_pdf
                (joinpath (SCREENSHOT_FOLDER Demo.env) (stem Demo.report_pdf))
                (snd (mkdir (path_str (joinpath (SCREENSHOT_FOLDER Demo.env)
                                                (stem Demo.report_pdf)))
                            Demo.fresh)))))
  /\ (forall img, In img [Demo.report_page 1; Demo.report_page 2] ->
        foldable (payload (answer Demo.env img "text_extraction")) = true)
  /\ exists r w',
       process_document Demo.env Demo.report_pdf Demo.fresh = (Ok (PDict r), w')
       /\ lookup "success" r = Some (PBool true)
       /\ lookup "pages_processed" r = Some (PInt 2)
       /\ lookup "results" r
          = Some (PList (flat_map (page_results Demo.env)
                           (enumerate [Demo.report_page 1; Demo.report_page 2])))
       /\ requests w'
          = (requests Demo.fresh
             ++ flat_map (page_requests Demo.env)
                  [Demo.report_page 1; Demo.report_page 2])%list.
Proof.
  assert (Hraster :
    get_file_type Demo.report_pdf = "pdf"
    /\ pdf_to_images Demo.env Demo.report_pdf
         (joinpath (SCREENSHOT_FOLDER Demo.env) (stem Demo.report_pdf))
         (snd (mkdir (path_str (joinpath (SCREENSHOT_FOLDER Demo.env) (stem Demo.report_pdf)))
                     Demo.fresh))
       = (Ok [Demo.report_page 1; Demo.report_page 2],
          snd (pdf_to_images Demo.env Demo.report_pdf
                 (joinpath (SCREENSHOT_FOLDER Demo.env) (stem Demo.report_pdf))
                 (snd (mkdir (path_str (joinpath (SCREENSHOT_FOLDER Demo.env)
                                                 (stem Demo.report_pdf)))
                             Demo.fresh))))).
  { split; vm_compute; reflexivity. }
  assert (Hfold : forall img, In img [Demo.report_page 1; Demo.report_page 2] ->
            foldable (payload (answer Demo.env img "text_extraction")) = true).
  { intros img [<-|[<-|[]]]; vm_compute; reflexivity. }
  split; [exact Hraster|]. split; [exact Hfold|].
  exact (multi_page_results Demo.env Demo.report_pdf
           [Demo.report_page 1; Demo.report_page 2] Demo.fresh _
           (or_introl Hraster) (fun H => nil_cons (eq_sym H)) Hfold).
Defined.

(** C2: the scan meets a backend that is down; its text-extraction call
    returns [success = False], and [process_document] raises [KeyError]
    instead of returning a result. *)
Theorem image_with_failed_text_raises :
  fst (extract_text Demo.env (preprocess_image Demo.env Demo.scan_png) Demo.fresh)
  = Ok (PDict [("success", PBool false); ("error", PStr "Connection refused")])
  /\ get_file_type Demo.scan_png = "png"
  /\ fst (process_document Demo.env Demo.scan_png Demo.fresh) = Raise (KeyError "data").
Proof. repeat split; vm_compute; reflexivity. Qed.

(** C3, as stated, fails: the census comes back with a count of 4301
    digits between its braces; the decoder gives up on it with an
    exception that is no [JSONDecodeError], and the response of the call
    the backend served is a failure. *)
Lemma oversized_integer_reply_fails :
  backend Demo.env (path_str (Demo.temp_of Demo.census_png)) (prompt_for "text_extraction")
  = Generated (Some Demo.census_text)
  /\ str_in "{" Demo.census_text = true
  /\ str_in "}" Demo.census_text = true
  /\ exists msg,
       fst (process_image Demo.env (Demo.temp_of Demo.census_png) "text_extraction"
              Demo.fresh)
       = Ok (PDict [("success", PBool false); ("error", PStr msg)]).
Proof.
  split; [reflexivity|]. split; [vm_compute; reflexivity|].
  split; [vm_compute; reflexivity|].
  eexists. vm_compute. reflexivity.
Qed.

Lemma generated_payload_witness :
  backend Demo.env (path_str (Demo.report_page 2)) (prompt_for "text_extraction")
  = Generated (Some Demo.page2_text)
  /\ (has_char "{" Demo.page2_text -> has_char "}" Demo.page2_text ->
      exists i j,
        first_at "{" Demo.page2_text i /\ last_at "}" Demo.page2_text j
        /\ fst (process_image Demo.env (Demo.report_page 2) "text_extraction" Demo.fresh)
           = Ok match json_loads Demo.env
                        (String.substring i (j + 1 - i) Demo.page2_text) with
                | Ok parsed => success_response parsed Demo.page2_text
                | Raise (JSONDecodeError _) =>
                    success_response (PDict [("text", PStr Demo.page2_text)])
                      Demo.page2_text
                | Raise e => failure_response e
                end)
  /\ (~ (has_char "{" Demo.page2_text /\ has_char "}" Demo.page2_text) ->
      fst (process_image Demo.env (Demo.report_page 2) "text_extraction" Demo.fresh)
      = Ok (success_response (PDict [("text", PStr Demo.page2_text)]) Demo.page2_text)).
Proof.
  split; [reflexivity|].
  exact (generated_payload Demo.env (Demo.report_page 2) "text_extraction"
           (Some Demo.page2_text) Demo.fresh eq_refl).
Defined.



(** C7: the note is a single-page image whose text comes back without
    braces; the JSON file written for it is [{"text": ...}], with neither
    [headers] nor [content]. *)
Theorem image_artifact_lacks_headers_and_content :
  get_file_type Demo.note_png = "png"
  /\ exists r w',
       process_document Demo.env Demo.note_png Demo.fresh = (Ok r, w')
       /\ lookup "text_output_path" match r with PDict d => d | _ => [] end
          = Some (PStr "/srv/ocr/data/outputs/note.json")
       /\ read_file "/srv/ocr/data/outputs/note.json" (files w')
          = Some (Json (PDict [("text", PStr "Hello world")]))
       /\ lookup "headers" [("text", PStr "Hello world")] = None
       /\ lookup "content" [("text", PStr "Hello world")] = None.
Proof.
  split; [reflexivity|].
  eexists; eexists. split; [vm_compute; reflexivity|]. repeat split.
Qed.

Lemma pdf_conversion_failure_witness :
  get_file_type Demo.corrupt_pdf = "pdf"
  /\ conversion_fails Demo.env Demo.corrupt_pdf
       (joinpath (SCREENSHOT_FOLDER Demo.env) (stem Demo.corrupt_pdf))
  /\ (forall w', fst (pdf_to_images Demo.env Demo.corrupt_pdf
                        (joinpath (SCREENSHOT_FOLDER Demo.env) (stem Demo.corrupt_pdf)) w')
                 = Ok [])
  /\ fst (process_document Demo.env Demo.corrupt_pdf Demo.fresh)
     = Ok (conversion_failure "PDF").
Proof.
  assert (Hfail : conversion_fails Demo.env Demo.corrupt_pdf
                    (joinpath (SCREENSHOT_FOLDER Demo.env) (stem Demo.corrupt_pdf)))
    by (left; eexists; reflexivity).
  split; [reflexivity|]. split; [exact Hfail|].
  split.
  - exact (proj1 (pdf_conversion_failure Demo.env Demo.corrupt_pdf Demo.fresh eq_refl) Hfail).
  - exact (proj2 (pdf_conversion_failure Demo.env Demo.corrupt_pdf Demo.fresh eq_refl) eq_refl).
Defined.

Lemma empty_docx_fails_witness :
  get_file_type Demo.empty_docx = "docx"
  /\ docx_Document Demo.env Demo.empty_docx = Ok []
  /\ (forall folder w', fst (docx_to_images Demo.env Demo.empty_docx folder w') = Ok [])
  /\ fst (process_document Demo.env Demo.empty_docx Demo.fresh)
     = Ok (conversion_failure "DOCX").
Proof.
  split; [reflexivity|]. split; [reflexivity|].
  exact (empty_docx_fails Demo.env Demo.empty_docx Demo.fresh eq_refl eq_refl).
Defined.

(** The word is found in any case: the classification of the chart says
    [TABLE], and the table request is made. *)
Example table_word_in_capitals :
  raw_text Demo.env (Demo.temp_of Demo.chart_png) "document_analysis"
  = "A chart with a data TABLE."
  /\ requests (snd (process_page Demo.env (0%nat, Demo.temp_of Demo.chart_png)
                      (mkAcc [] [] [] []) Demo.fresh))
     = [("/tmp/tmp_chart.png", "document_analysis");
        ("/tmp/tmp_chart.png", "text_extraction");
        ("/tmp/tmp_chart.png", "table_extraction")].
Proof. split; vm_compute; reflexivity. Qed.

(** The table of page 2 of the report has both [rows] and [data]; its
    sheet is made of the rows. *)
Example rows_before_data :
  payload (answer Demo.env (Demo.report_page 2) "table_extraction")
  = PDict [("rows", PList [PDict [("item", PStr "pen"); ("qty", PInt 2)]]);
           ("data", PList [PDict [("x", PInt 1)]])]
  /\ exists r w',
       process_document Demo.env Demo.report_pdf Demo.fresh = (Ok r, w')
       /\ read_file "/srv/ocr/data/outputs/report.xlsx" (files w')
          = Some (Workbook [("Page 2", mkFrame [PStr "item"; PStr "qty"]
                                         [[PStr "pen"; PInt 2]])]).
Proof.
  split; [vm_compute; reflexivity|].
  eexists; eexists. split; vm_compute; reflexivity.
Qed.

(** A table payload that is a bare text is no frame: its sheet is the
    one-cell error marker. *)
Example unparsed_table_sheet :
  exists r w',
    process_document Demo.env Demo.chart_png Demo.fresh = (Ok r, w')
    /\ read_file "/srv/ocr/data/outputs/chart.xlsx" (files w')
       = Some (Workbook [("Page 1", error_frame "Could not parse table data")]).
Proof. eexists; eexists. split; vm_compute; reflexivity. Qed.


(** Two tables of the same page go to one sheet, the second written over
    the first: its cells, and the cells of the first it does not cover. *)
Example same_page_one_sheet :
  format_table_output Demo.env
    [table_entry 0 (PList [PDict [("item", PStr "pen"); ("qty", PInt 2)];
                           PDict [("item", PStr "ink"); ("qty", PInt 1)]]);
     table_entry 0 (PList [PDict [("total", PInt 3)]])]
    (joinpath (OUTPUT_FOLDER Demo.env) "stock.xlsx") Demo.fresh
  = (Ok (Some (joinpath (OUTPUT_FOLDER Demo.env) "stock.xlsx")),
     with_file (joinpath (OUTPUT_FOLDER Demo.env) "stock.xlsx")
       (Workbook [("Page 1", mkFrame [PStr "total"; PStr "qty"]
                               [[PInt 3; PInt 2]; [PStr "ink"; PInt 1]])])
       (with_file (joinpath (OUTPUT_FOLDER Demo.env) "stock.xlsx") Empty
          (with_dir (parent (joinpath (OUTPUT_FOLDER Demo.env) "stock.xlsx")) Demo.fresh))).
Proof. vm_compute. reflexivity. Qed.


(** * Further properties *)

(** ** The page loop in page order *)

Section PageOrder.

Variable E : Env.

Lemma page_step_text (i : nat) (img : Path) (acc : Acc) (w : World) :
  foldable (payload (answer E img "text_extraction")) = true ->
  process_page E (i, img) acc w
  = (Ok (mkAcc (results acc ++ page_results E (i, img))
               (table_data acc ++ page_tables E (i, img))
               (text_headers acc ++ page_headers E img)
               (text_content acc ++ page_content E img)),
     mkWorld (files w) (dirs w) (requests w ++ page_requests E img)).
Proof.
  intros Hfold. rewrite process_page_run. f_equal.
  unfold page_headers, page_content.
  cbn [fst snd results table_data text_headers text_content].
  destruct (succeeded (answer E img "text_extraction")) eqn:Hs.
  - destruct (payload (answer E img "text_extraction")) as [ |b|z|lit|s|l|d] eqn:Hp;
      try (now rewrite !app_nil_r).
    unfold foldable, iterable in Hfold. apply andb_prop in Hfold.
    destruct Hfold as [Hh Hc].
    erewrite aggregate_text_run; [reflexivity| |].
    + destruct (lookup "headers" d) as [h|]; [|reflexivity].
      now destruct (iterate h).
    + destruct (lookup "content" d) as [c|].
      * now destruct (iterate c).
      * now destruct (lookup "text" d).
  - unfold page_results. cbn [fst snd]. rewrite Hs. now rewrite !app_nil_r.
Qed.

(** The page loop in closed form, text included: every accumulator is
    the concatenation, in page order, of what the pages contribute. *)
Lemma page_loop_closed (pages : list (nat * Path)) :
  (forall page, In page pages ->
     foldable (payload (answer E (snd page) "text_extraction")) = true) ->
  forall (acc : Acc) (w : World),
    for_each pages (process_page E) acc w
    = (Ok (mkAcc (results acc ++ flat_map (page_results E) pages)
                 (table_data acc ++ flat_map (page_tables E) pages)
                 (text_headers acc ++ flat_map (fun page => page_headers E (snd page)) pages)
                 (text_content acc ++ flat_map (fun page => page_content E (snd page)) pages)),
       mkWorld (files w) (dirs w)
               (requests w ++ flat_map (fun page => page_requests E (snd page)) pages)).
Proof.
  induction pages as [|[i img] pages IH]; intros Hfold acc w.
  - cbn. rewrite !app_nil_r. now destruct acc, w.
  - cbn [for_each flat_map]. unfold bind.
    rewrite page_step_text by (apply (Hfold (i, img)); now left).
    rewrite IH by (intros page Hin; apply Hfold; now right).
    cbn [results table_data text_headers text_content files dirs requests snd].
    now rewrite <- !app_assoc.
Qed.

End PageOrder.

(** ** The workbook of the tables *)

Section Workbook.

Variable E : Env.

(** One turn of the loop over the tables, in closed form. *)
Lemma write_table_run (table : nat * pyval) (book : Book) :
  write_table E table book
  = match frame_of_table E table with
    | Raise e => (Raise e, book)
    | Ok sheet =>
        match to_excel E (fst sheet) (snd sheet) with
        | Raise e => (Raise e, interrupted E (fst sheet) (snd sheet) book)
        | Ok _ => (column_widths E (snd sheet), put_sheet (fst sheet) (snd sheet) book)
        end
    end.
Proof.
  unfold write_table, frame_of_table, df_to_excel, bind, lift, ret, and_then.
  destruct (get_method (snd table) "page" _) as [page_num|e]; [|reflexivity].
  destruct (get_method (snd table) "data" _) as [table_content|e]; [|reflexivity].
  destruct (table_frame E table_content) as [df|e]; [|reflexivity].
  cbn [fst snd].
  destruct (to_excel E _ df) as [[]|e]; [|reflexivity].
  now destruct (column_widths E df) as [[]|e].
Qed.

(** A turn that ends without an exception writes its sheet. *)
Lemma write_table_written (table : nat * pyval) (sheet : string * DataFrame) (book : Book) :
  sheet_of_table E table = Ok sheet ->
  write_table E table book = (Ok tt, put_sheet (fst sheet) (snd sheet) book).
Proof.
  intros H. rewrite write_table_run. unfold sheet_of_table, and_then in H.
  destruct (frame_of_table E table) as [sheet'|e]; [|discriminate].
  destruct (to_excel E (fst sheet') (snd sheet')) as [[]|e]; [|discriminate].
  destruct (column_widths E (snd sheet')) as [[]|e]; [|discriminate].
  now injection H as <-.
Qed.

(** The loop over tables that are all written. *)
Lemma table_loop_written (tables : list (nat * pyval)) :
  forall (sheets : list (string * DataFrame)) (book : Book),
    collect (sheet_of_table E) tables = Ok sheets ->
    for_each tables (fun table _ => write_table E table) tt book
    = (Ok tt, put_sheets book sheets).
Proof.
  induction tables as [|table tables IH]; intros sheets book.
  - now intros [= <-].
  - cbn [collect for_each]. unfold and_then at 1.
    destruct (sheet_of_table E table) as [sheet|e] eqn:Hsheet; [|discriminate].
    unfold and_then.
    destruct (collect (sheet_of_table E) tables) as [more|e]; [|discriminate].
    intros [= <-]. unfold bind. rewrite (write_table_written _ _ _ Hsheet).
    now rewrite (IH more).
Qed.

(** The loop over tables of which one raises: the turns before it have
    written their sheets, the turns after it are not made. *)
Lemma table_loop_broken (done : list (nat * pyval)) (bad : nat * pyval)
    (rest : list (nat * pyval)) (sheets : list (string * DataFrame)) (book : Book) :
  collect (sheet_of_table E) done = Ok sheets ->
  for_each (done ++ bad :: rest) (fun table _ => write_table E table) tt book
  = match write_table E bad (put_sheets book sheets) with
    | (Ok _, book') => for_each rest (fun table _ => write_table E table) tt book'
    | (Raise e, book') => (Raise e, book')
    end.
Proof.
  revert sheets book. induction done as [|table done IH]; intros sheets book.
  - intros [= <-]. cbn [app for_each put_sheets fold_left]. unfold bind.
    now destruct (write_table E bad book) as [[[]|e] book'].
  - cbn [collect app for_each]. unfold and_then at 1.
    destruct (sheet_of_table E table) as [sheet|e] eqn:Hsheet; [|discriminate].
    unfold and_then.
    destruct (collect (sheet_of_table E) done) as [more|e] eqn:Hmore; [|discriminate].
    intros [= <-]. unfold bind at 1. rewrite (write_table_written _ _ _ Hsheet).
    now rewrite (IH more).
Qed.

Lemma put_sheet_fresh (name : string) (df : DataFrame) (book : Book) :
  ~ In name (map fst book) -> put_sheet name df book = (book ++ [(name, df)])%list.
Proof.
  induction book as [|[name' old] book IH]; intros Hfresh; [reflexivity|].
  cbn [put_sheet app]. cbn [map fst In] in Hfresh.
  destruct (String.eqb_spec name name') as [->|_]; [tauto|].
  rewrite IH by tauto. reflexivity.
Qed.

(** Sheets of different names are kept side by side, in the order they
    were written. *)
Lemma put_sheets_fresh (sheets : list (string * DataFrame)) :
  forall book, NoDup (map fst (book ++ sheets)) -> put_sheets book sheets = (book ++ sheets)%list.
Proof.
  induction sheets as [|[name df] sheets IH]; intros book Hnodup.
  - cbn. now rewrite app_nil_r.
  - cbn [put_sheets fold_left fst snd].
    rewrite map_app in Hnodup. cbn [map fst] in Hnodup.
    pose proof (NoDup_remove_2 _ _ _ Hnodup) as Hfresh.
    rewrite put_sheet_fresh by (intros Hin; apply Hfresh, in_or_app; now left).
    change (fold_left _ sheets ?b) with (put_sheets b sheets).
    rewrite IH.
    + now rewrite <- app_assoc.
    + rewrite <- app_assoc, map_app. exact Hnodup.
Qed.

(** X7: a table that raises costs [format_table_output] its result, not
    the sheets it has written.  When the first tables are written, to
    sheets of different names that can be saved: if they are all the
    tables, the path is returned and the workbook on disk holds their
    sheets, in order; if the next table has no frame (its constructor
    raises), [None] is returned and the workbook on disk holds those same
    sheets; if the next table is written to a sheet of its own and the
    loop over its columns raises, [None] is returned and the workbook on
    disk holds its sheet as well. *)
Theorem format_table_output_keeps_sheets (table_data : list pyval) (output_path : Path)
    (w : World) (done : list (nat * pyval)) (sheets : list (string * DataFrame)) :
  collect (sheet_of_table E) done = Ok sheets ->
  sheets <> [] ->
  NoDup (map fst sheets) ->
  save E sheets = Ok tt ->
  let disk (book : Book) :=
    with_file output_path (Workbook book)
      (with_file output_path Empty (with_dir (parent output_path) w)) in
  (enumerate table_data = done ->
   format_table_output E table_data output_path w = (Ok (Some output_path), disk sheets))
  /\ (forall bad rest e,
        enumerate table_data = (done ++ bad :: rest)%list ->
        frame_of_table E bad = Raise e ->
        format_table_output E table_data output_path w = (Ok None, disk sheets))
  /\ (forall bad rest sheet e,
        enumerate table_data = (done ++ bad :: rest)%list ->
        frame_of_table E bad = Ok sheet ->
        to_excel E (fst sheet) (snd sheet) = Ok tt ->
        column_widths E (snd sheet) = Raise e ->
        ~ In (fst sheet) (map fst sheets) ->
        save E (sheets ++ [sheet])%list = Ok tt ->
        format_table_output E table_data output_path w
        = (Ok None, disk (sheets ++ [sheet])%list)).
Proof.
  intros Hdone Hsome Hnames Hsave disk.
  assert (Hput : put_sheets [] sheets = sheets) by now apply (put_sheets_fresh sheets []).
  assert (Hclose : close_error E sheets = None).
  { unfold close_error. destruct sheets; [contradiction|]. now rewrite Hsave. }
  split; [|split].
  - intros Hall. rewrite format_table_output_run. unfold table_loop.
    rewrite Hall, (table_loop_written _ _ _ Hdone), Hput. cbn [fst snd].
    unfold saved. now rewrite Hclose.
  - intros bad rest e Hsplit Hbad. rewrite format_table_output_run. unfold table_loop.
    rewrite Hsplit, (table_loop_broken _ _ _ _ _ Hdone), Hput, write_table_run, Hbad.
    cbn [fst snd]. unfold saved. now rewrite Hclose.
  - intros bad rest [name df] e Hsplit Hbad Hwrite Hwidths Hfresh Hsave'.
    cbn [fst snd] in *.
    rewrite format_table_output_run. unfold table_loop.
    rewrite Hsplit, (table_loop_broken _ _ _ _ _ Hdone), Hput, write_table_run, Hbad.
    cbn [fst snd]. rewrite Hwrite, Hwidths, (put_sheet_fresh _ _ _ Hfresh).
    cbn [fst snd]. unfold saved, close_error.
    destruct (sheets ++ [(name, df)])%list eqn:Hbook;
      [now apply app_eq_nil in Hbook|].
    rewrite Hsave'. reflexivity.
Qed.

End Workbook.

(** ** The two artifacts of a multi-page document *)

Section Artifacts.

Variable E : Env.

(** [process_pages] in closed form. *)
Lemma process_pages_closed (document_type doc_name : string) (screenshot_folder : Path)
    (image_paths : list Path) (w : World) :
  (forall img, In img image_paths ->
     foldable (payload (answer E img "text_extraction")) = true) ->
  let tables := flat_map (page_tables E) (enumerate image_paths) in
  let json := with_suffix (joinpath (OUTPUT_FOLDER E) doc_name) ".json" in
  let xlsx := with_suffix (joinpath (OUTPUT_FOLDER E) doc_name) ".xlsx" in
  let w1 :=
    with_file json
      (Json (PDict [("headers", PList (flat_map (page_headers E) image_paths));
                    ("content", PList (flat_map (page_content E) image_paths))]))
      (with_file json Empty
         (mkWorld (files w) (dirs w)
                  (requests w ++ flat_map (page_requests E) image_paths))) in
  process_pages E document_type doc_name screenshot_folder image_paths w
  = (Ok (PDict [("success", PBool true);
                ("document_type", PStr document_type);
                ("pages_processed", PInt (Z.of_nat (length image_paths)));
                ("text_output_path", PStr (path_str json));
                ("table_output_path",
                 match tables with [] => PNone | _ => PStr (path_str xlsx) end);
                ("screenshot_folder", PStr (path_str screenshot_folder));
                ("results", PList (flat_map (page_results E) (enumerate image_paths)))]),
     match tables with
     | [] => w1
     | _ => snd (format_table_output E tables xlsx w1)
     end).
Proof.
  intros Hfold. cbv zeta. unfold process_pages, bind at 1.
  rewrite page_loop_closed
    by (intros [k img] Hin; apply Hfold; unfold enumerate in Hin;
        now apply in_combine_r in Hin).
  rewrite !flat_map_enumerate.
  unfold bind, write_file, text_data, with_file, ret.
  cbn [results table_data text_headers text_content app files dirs requests].
  destruct (flat_map (page_tables E) (enumerate image_paths)) as [|t ts]; [reflexivity|].
  match goal with
  | |- context [format_table_output E ?td ?p ?w0] =>
      destruct (format_table_output_returns E td p w0) as [r [w2 ->]]
  end.
  reflexivity.
Qed.

(** The file of the text artifact after a run of [process_pages]. *)
Lemma text_artifact_file (document_type doc_name : string)
    (screenshot_folder : Path) (image_paths : list Path) (w : World) :
  (forall img, In img image_paths ->
     foldable (payload (answer E img "text_extraction")) = true) ->
  read_file (path_str (with_suffix (joinpath (OUTPUT_FOLDER E) doc_name) ".json"))
    (files (snd (process_pages E document_type doc_name screenshot_folder image_paths w)))
  = Some (Json (PDict [("headers", PList (flat_map (page_headers E) image_paths));
                       ("content", PList (flat_map (page_content E) image_paths))])).
Proof.
  intros Hfold. rewrite (process_pages_closed _ _ _ _ _ Hfold). cbn [snd].
  destruct (flat_map (page_tables E) (enumerate image_paths)) as [|t ts].
  - unfold with_file. cbn [files]. apply read_file_last.
  - match goal with
    | |- context [format_table_output E ?td ?p ?w0] =>
        destruct (format_table_output_files E td p w0) as [extra [-> Hextra]]
    end.
    rewrite read_file_other.
    + unfold with_file. cbn [files]. apply read_file_last.
    + intros q c Hin. rewrite (Hextra q c Hin). apply json_xlsx_differ.
Qed.

(** X5: the text artifact of a multi-page document is the concatenation,
    in page order, of what each page contributes: the headers of page 1,
    then those of page 2, and so on, and likewise the content; a page
    whose text extraction failed contributes nothing. *)
Theorem text_artifact_in_page_order (document_type doc_name : string)
    (screenshot_folder : Path) (image_paths : list Path) (w : World) :
  (forall img, In img image_paths ->
     foldable (payload (answer E img "text_extraction")) = true) ->
  read_file (path_str (with_suffix (joinpath (OUTPUT_FOLDER E) doc_name) ".json"))
    (files (snd (process_pages E document_type doc_name screenshot_folder image_paths w)))
  = Some (Json (PDict [("headers", PList (flat_map (page_headers E) image_paths));
                       ("content", PList (flat_map (page_content E) image_paths))]))
  /\ forall img, succeeded (answer E img "text_extraction") = false ->
       page_headers E img = [] /\ page_content E img = [].
Proof.
  intros Hfold. split; [now apply text_artifact_file|].
  intros img Hfail. unfold page_headers, page_content. now rewrite Hfail.
Qed.

(** X6: the result names a workbook exactly when some page had a table
    detected and extracted, and it names it whatever became of the
    writing: the result of [format_table_output] is not looked at.  The
    file of that name then holds what the writer saved when the loop over
    the tables ended, by its end or by an exception: the sheets written
    until then, or no readable workbook when there was none or the save
    failed.  Without tables the path is left as it was. *)
Theorem table_path_reported (document_type doc_name : string)
    (screenshot_folder : Path) (image_paths : list Path) (w : World) :
  (forall img, In img image_paths ->
     foldable (payload (answer E img "text_extraction")) = true) ->
  let tables := flat_map (page_tables E) (enumerate image_paths) in
  let xlsx := with_suffix (joinpath (OUTPUT_FOLDER E) doc_name) ".xlsx" in
  exists r w',
    process_pages E document_type doc_name screenshot_folder image_paths w
    = (Ok (PDict r), w')
    /\ lookup "success" r = Some (PBool true)
    /\ (lookup "table_output_path" r = Some PNone <-> tables = [])
    /\ (tables = [] ->
        read_file (path_str xlsx) (files w') = read_file (path_str xlsx) (files w))
    /\ (tables <> [] ->
        lookup "table_output_path" r = Some (PStr (path_str xlsx))
        /\ read_file (path_str xlsx) (files w')
           = Some (saved E (snd (table_loop E tables)))).
Proof.
  intros Hfold tables xlsx. rewrite (process_pages_closed _ _ _ _ _ Hfold).
  fold tables xlsx.
  assert (Hjson : forall fs c1 c2,
            read_file (path_str xlsx)
              ((fs ++ [(path_str (with_suffix (joinpath (OUTPUT_FOLDER E) doc_name) ".json"), c1)])
                 ++ [(path_str (with_suffix (joinpath (OUTPUT_FOLDER E) doc_name) ".json"), c2)])
            = read_file (path_str xlsx) fs).
  { intros fs c1 c2. rewrite <- app_assoc. apply read_file_other.
    intros q c [[= <- _]|[[= <- _]|[]]]; intros H; symmetry in H;
      now apply json_xlsx_differ in H. }
  destruct tables as [|t ts] eqn:Ht.
  - do 2 eexists. split; [reflexivity|]. cbn [lookup String.eqb Ascii.eqb Bool.eqb].
    split; [reflexivity|]. split; [split; reflexivity|]. split.
    + intros _. unfold with_file. cbn [files]. apply Hjson.
    + intros H. now destruct H.
  - rewrite format_table_output_run.
    do 2 eexists. split; [reflexivity|].
    cbn [lookup String.eqb Ascii.eqb Bool.eqb snd].
    split; [reflexivity|]. split; [split; discriminate|]. split; [discriminate|].
    intros _. split; [reflexivity|].
    unfold with_file. cbn [files]. apply read_file_last.
Qed.

End Artifacts.

(** ** File names: case folding *)

Section FileNames.

Local Open Scope nat_scope.

Lemma length_lower (s : string) : String.length (lower s) = String.length s.
Proof. induction s as [|c s IH]; cbn; congruence. Qed.

Lemma lower_substring (s : string) :
  forall n m, lower (String.substring n m s) = String.substring n m (lower s).
Proof.
  induction s as [|c s IH]; intros [|n] [|m]; cbn; try reflexivity.
  - now rewrite IH.
  - apply IH.
  - apply IH.
Qed.

End FileNames.

(** ** The upload guard and the entry point *)

Section UploadGuard.

Local Open Scope nat_scope.

Lemma str_in_rindex (c : ascii) (s : string) :
  str_in (String c "") s = match rindex (String c "") s with Some _ => true | None => false end.
Proof.
  destruct (rindex (String c "") s) as [j|] eqn:Hj.
  - apply str_in_char. exists j. now apply rindex_char_some.
  - destruct (str_in (String c "") s) eqn:Hin; [|reflexivity].
    apply str_in_char in Hin. destruct Hin as [k Hk].
    now apply rindex_char_none with (k := k) in Hj.
Qed.

Lemma rindex_lt (c : ascii) (s : string) (j : nat) :
  rindex (String c "") s = Some j -> j < String.length s.
Proof.
  intros H. apply rindex_char_some in H. destruct H as [H _].
  now apply get_some_lt in H.
Qed.

Lemma substring_nil (n m : nat) : String.substring n m "" = "".
Proof. now destruct n, m. Qed.

Lemma substring_zero (s : string) (n : nat) : String.substring n 0 s = "".
Proof.
  revert n. induction s as [|c s IH]; intros [|n]; cbn; try reflexivity. apply IH.
Qed.

Lemma substring_substring (s : string) :
  forall a n b m, a + n <= m ->
    String.substring a n (String.substring b m s) = String.substring (a + b) n s.
Proof.
  induction s as [|c s IH]; intros a n b m Hle.
  - now rewrite !substring_nil.
  - destruct b as [|b].
    + rewrite Nat.add_0_r. revert a n Hle. revert s IH c.
      induction m as [|m IHm]; intros s IH c a n Hle.
      * assert (a = 0) by lia. assert (n = 0) by lia. subst. reflexivity.
      * destruct a as [|a]; destruct n as [|n]; cbn; try reflexivity.
        -- f_equal. specialize (IH 0 n 0 m). rewrite Nat.add_0_r in IH.
           cbn in IH. apply IH. lia.
        -- specialize (IH a 0 0 m). rewrite Nat.add_0_r in IH. apply IH. lia.
        -- specialize (IH a (S n) 0 m). rewrite Nat.add_0_r in IH. apply IH. lia.
    + replace (a + S b) with (S (a + b)) by lia.
      destruct m as [|m].
      * assert (a = 0) by lia. assert (n = 0) by lia. subst. cbn.
        now rewrite !substring_zero.
      * cbn [String.substring]. apply IH. exact Hle.
Qed.

Lemma length_substring (s : string) :
  forall n m, n + m <= String.length s -> String.length (String.substring n m s) = m.
Proof.
  induction s as [|c s IH]; intros [|n] [|m] H; cbn in *; try reflexivity; try lia.
  - f_equal. apply (IH 0 m). lia.
  - apply (IH n 0). lia.
  - apply (IH n (S m)). lia.
Qed.

(** The text after the last dot, as server.py and app.py cut it. *)
Lemma rsplit_extension (filename : string) (j : nat) :
  rindex "." filename = Some j ->
  item (rsplit1 filename ".") 1
  = Ok (String.substring (j + 1) (String.length filename - (j + 1)) filename).
Proof.
  intros Hj. pose proof (rindex_lt _ _ _ Hj) as Hlt.
  unfold rsplit1, rfind. rewrite Hj.
  destruct (Z.ltb_spec (Z.of_nat j) 0) as [?|_]; [lia|].
  cbn [item nth_error]. f_equal. unfold slice, clip, len.
  destruct (Z.ltb_spec (Z.of_nat j + 1) 0) as [?|_]; [lia|].
  destruct (Z.ltb_spec (Z.of_nat (String.length filename)) 0) as [?|_]; [lia|].
  rewrite !Z.min_l by lia. f_equal; lia.
Qed.

(** The extension the entry point reads, for a name whose last dot is
    neither its first nor its last character. *)
Lemma get_file_type_inner_dot (dir filename : string) (j : nat) :
  rindex "." filename = Some j ->
  0 < j -> j + 1 < String.length filename ->
  get_file_type (mkPath dir filename)
  = lower (String.substring (j + 1) (String.length filename - (j + 1)) filename).
Proof.
  intros Hj Hpos Hlast.
  unfold get_file_type, suffix, rfind, len. cbn [name]. rewrite Hj.
  destruct (Z.ltb_spec 0 (Z.of_nat j)) as [_|?]; [|lia].
  destruct (Z.ltb_spec (Z.of_nat j) (Z.of_nat (String.length filename) - 1)) as [_|?]; [|lia].
  cbn [andb].
  assert (Hsuffix : slice filename (Z.of_nat j) (Z.of_nat (String.length filename))
                    = String.substring j (String.length filename - j) filename).
  { unfold slice, clip, len.
    destruct (Z.ltb_spec (Z.of_nat j) 0) as [?|_]; [lia|].
    destruct (Z.ltb_spec (Z.of_nat (String.length filename)) 0) as [?|_]; [lia|].
    rewrite !Z.min_l by lia. f_equal; lia. }
  rewrite Hsuffix.
  assert (Hlen : String.length (lower (String.substring j (String.length filename - j) filename))
                 = String.length filename - j).
  { rewrite length_lower. apply length_substring. lia. }
  unfold slice, clip, len. rewrite Hlen.
  destruct (Z.ltb_spec 1 0) as [?|_]; [lia|].
  destruct (Z.ltb_spec (Z.of_nat (String.length filename - j)) 0) as [?|_]; [lia|].
  rewrite !Z.min_l by lia.
  rewrite <- lower_substring.
  replace (Z.to_nat 1) with 1 by lia.
  replace (Z.to_nat (Z.of_nat (String.length filename - j) - 1))
    with (String.length filename - (j + 1)) by lia.
  rewrite substring_substring by lia.
  now replace (1 + j) with (j + 1) by lia.
Qed.

(** X2: the upload guard of server.py, the check of app.py and the entry
    point read the same extension off a file name (the final component
    of the path, as the upload stores it under [secure_filename]), unless
    its last dot is its first character: for every other name,
    [allowed_file] returns
    (without an exception) whether the extension [get_file_type] reads is
    one of the allowed ones, and [is_allowed_file] returns the same. *)
Theorem upload_guard_agrees (dir filename : string) :
  rfind filename "." <> 0%Z ->
  allowed_file filename
  = Ok (existsb (String.eqb (get_file_type (mkPath dir filename))) ALLOWED_EXTENSIONS)
  /\ is_allowed_file filename = allowed_file filename.
Proof.
  intros Hdot. split.
  - unfold allowed_file. rewrite str_in_rindex.
    unfold rfind in Hdot.
    destruct (rindex "." filename) as [j|] eqn:Hj.
    + rewrite (rsplit_extension _ _ Hj). cbn [and_then].
      pose proof (rindex_lt _ _ _ Hj) as Hlt.
      assert (0 < j) by lia.
      destruct (Nat.eq_dec (j + 1) (String.length filename)) as [Hend|Hin].
      * replace (String.length filename - (j + 1)) with 0 by lia.
        rewrite substring_zero.
        unfold get_file_type, suffix, rfind, len. cbn [name]. rewrite Hj.
        destruct (Z.ltb_spec (Z.of_nat j) (Z.of_nat (String.length filename) - 1))
          as [?|_]; [lia|].
        now rewrite andb_false_r.
      * now rewrite (get_file_type_inner_dot dir _ _ Hj) by lia.
    + unfold get_file_type, suffix, rfind. cbn [name]. now rewrite Hj.
  - unfold is_allowed_file, get_file_extension, allowed_file.
    destruct (str_in "." filename); [|reflexivity].
    now destruct (item (rsplit1 filename ".") 1).
Qed.

(** X3: a name whose only dot is its first character, such as [.pdf],
    passes the upload guard when the rest is an allowed extension, and is
    turned down by the entry point, which reads no extension off it: the
    result is the unsupported-type failure and the world is untouched. *)
Theorem dot_name_passes_guard_only (E : Env) (dir filename : string) (w : World) :
  rfind filename "." = 0%Z ->
  existsb (String.eqb (lower (slice filename 1 (len filename)))) ALLOWED_EXTENSIONS = true ->
  allowed_file filename = Ok true
  /\ process_document E (mkPath dir filename) w = (Ok (unsupported ""), w).
Proof.
  intros Hdot Hext. unfold rfind in Hdot.
  destruct (rindex "." filename) as [j|] eqn:Hj; [|lia].
  assert (j = 0) by lia. subst j. split.
  - unfold allowed_file. rewrite str_in_rindex, Hj, (rsplit_extension _ _ Hj).
    cbn [and_then]. rewrite <- Hext. do 3 f_equal.
    pose proof (rindex_lt _ _ _ Hj) as Hlt.
    unfold slice, clip, len.
    destruct (Z.ltb_spec 1 0) as [?|_]; [lia|].
    destruct (Z.ltb_spec (Z.of_nat (String.length filename)) 0) as [?|_]; [lia|].
    rewrite !Z.min_l by lia. f_equal. f_equal; lia.
  - assert (Hty : get_file_type (mkPath dir filename) = "").
    { unfold get_file_type, suffix, rfind. cbn [name]. now rewrite Hj. }
    unfold process_document. now rewrite Hty.
Qed.

End UploadGuard.

Lemma upload_guard_agrees_witness :
  rfind "report.PDF" "." <> 0
  /\ allowed_file "report.PDF"
     = Ok (existsb (String.eqb (get_file_type (mkPath "/srv/ocr/data/uploads" "report.PDF")))
                   ALLOWED_EXTENSIONS)
  /\ is_allowed_file "report.PDF" = allowed_file "report.PDF".
Proof.
  assert (H : rfind "report.PDF" "." <> 0) by (vm_compute; discriminate).
  split; [exact H|].
  exact (upload_guard_agrees "/srv/ocr/data/uploads" "report.PDF" H).
Defined.

Lemma dot_name_passes_guard_only_witness :
  rfind ".pdf" "." = 0
  /\ allowed_file ".pdf" = Ok true
  /\ process_document Demo.env (mkPath "/srv/ocr/data/uploads" ".pdf") Demo.fresh
     = (Ok (unsupported ""), Demo.fresh).
Proof.
  split; [reflexivity|].
  exact (dot_name_passes_guard_only Demo.env "/srv/ocr/data/uploads" ".pdf" Demo.fresh
           eq_refl eq_refl).
Defined.

(** ** The shape of every returned result *)

Section ResultShape.

Variable E : Env.

Lemma process_pages_returned (document_type doc_name : string) (screenshot_folder : Path)
    (image_paths : list Path) (w w' : World) (r : pyval) :
  process_pages E document_type doc_name screenshot_folder image_paths w = (Ok r, w') ->
  exists d v,
    r = PDict d
    /\ lookup "success" d = Some (PBool true)
    /\ lookup "error" d = None
    /\ lookup "text_output_path" d
       = Some (PStr (path_str (with_suffix (joinpath (OUTPUT_FOLDER E) doc_name) ".json")))
    /\ read_file (path_str (with_suffix (joinpath (OUTPUT_FOLDER E) doc_name) ".json"))
         (files w')
       = Some (Json v).
Proof.
  unfold process_pages, bind at 1.
  destruct (for_each (enumerate image_paths) (process_page E) _ w) as [[acc|e] w1];
    [|discriminate].
  unfold bind, write_file, ret. cbn [files dirs requests].
  destruct (table_data acc) as [|t ts].
  - intros [= <- <-]. do 2 eexists. split; [reflexivity|].
    cbn [lookup String.eqb Ascii.eqb Bool.eqb files]. repeat split.
    apply read_file_last.
  - match goal with
    | |- context [format_table_output E ?td ?p ?w0] =>
        destruct (format_table_output_files E td p w0) as [extra [Hfiles Hextra]];
        destruct (format_table_output_returns E td p w0) as [r0 [w2 Hr]]
    end.
    rewrite Hr in *. cbn [snd files] in Hfiles.
    intros [= <- <-]. do 2 eexists. split; [reflexivity|].
    cbn [lookup String.eqb Ascii.eqb Bool.eqb]. repeat split.
    rewrite Hfiles, read_file_other; [apply read_file_last|].
    intros q c Hin. rewrite (Hextra q c Hin). apply json_xlsx_differ.
Qed.

Lemma _process_image_returned (file_path : Path) (w w' : World) (r : pyval) :
  _process_image E file_path w = (Ok r, w') ->
  exists d v,
    r = PDict d
    /\ lookup "success" d = Some (PBool true)
    /\ lookup "error" d = None
    /\ lookup "text_output_path" d
       = Some (PStr (path_str (joinpath (OUTPUT_FOLDER E) (stem file_path ++ ".json"))))
    /\ read_file (path_str (joinpath (OUTPUT_FOLDER E) (stem file_path ++ ".json")))
         (files w')
       = Some (Json v).
Proof.
  unfold _process_image, analyze_document_type, extract_text.
  unfold bind at 1. rewrite process_image_run.
  unfold bind at 1. rewrite process_image_run.
  unfold bind at 1, lift at 1. rewrite table_mentioned_answer.
  unfold bind at 1.
  pose proof (image_table_step_returns E file_path
                (asked (preprocess_image E file_path) "text_extraction"
                   (asked (preprocess_image E file_path) "document_analysis" w)))
    as Hstep.
  cbv zeta in Hstep. destruct Hstep as [r0 [w1 [-> _]]].
  unfold bind, write_file, lift, ret.
  destruct (subscript (answer E (preprocess_image E file_path) "text_extraction") "data")
    as [data|e]; [|discriminate].
  destruct (get_method (answer E (preprocess_image E file_path) "document_analysis")
              "data" (PDict [])) as [analysis_data|e]; [|discriminate].
  intros [= <- <-]. do 2 eexists. split; [reflexivity|].
  cbn [lookup String.eqb Ascii.eqb Bool.eqb files]. repeat split.
  apply read_file_last.
Qed.

(** X4: whatever [process_document] returns is a dict with a Boolean
    [success].  A failure carries an [error] text and no output path, and
    was decided before any request to the model; a success carries no
    [error], and the text path it names is a JSON file that has been
    written. *)
Theorem returned_result_shape (file_path : Path) (w w' : World) (r : pyval) :
  process_document E file_path w = (Ok r, w') ->
  exists d,
    r = PDict d
    /\ ((lookup "success" d = Some (PBool false)
         /\ (exists msg, lookup "error" d = Some (PStr msg))
         /\ lookup "text_output_path" d = None
         /\ lookup "table_output_path" d = None
         /\ requests w' = requests w)
        \/ (lookup "success" d = Some (PBool true)
            /\ lookup "error" d = None
            /\ exists path v,
                 lookup "text_output_path" d = Some (PStr path)
                 /\ read_file path (files w') = Some (Json v))).
Proof.
  assert (Hfail : forall d0 w0,
            (Ok r, w') = (Ok (PDict [("success", PBool false); ("error", PStr d0)]), w0) ->
            requests w0 = requests w ->
            exists d, r = PDict d
              /\ ((lookup "success" d = Some (PBool false)
                   /\ (exists msg, lookup "error" d = Some (PStr msg))
                   /\ lookup "text_output_path" d = None
                   /\ lookup "table_output_path" d = None
                   /\ requests w' = requests w)
                  \/ (lookup "success" d = Some (PBool true)
                      /\ lookup "error" d = None
                      /\ exists path v,
                           lookup "text_output_path" d = Some (PStr path)
                           /\ read_file path (files w') = Some (Json v)))).
  { intros d0 w0 [= -> ->] Hreq. eexists. split; [reflexivity|]. left.
    cbn [lookup String.eqb Ascii.eqb Bool.eqb]. repeat split; eauto. }
  assert (Hok : forall d v path,
            r = PDict d -> lookup "success" d = Some (PBool true) ->
            lookup "error" d = None ->
            lookup "text_output_path" d = Some (PStr path) ->
            read_file path (files w') = Some (Json v) ->
            exists d, r = PDict d
              /\ ((lookup "success" d = Some (PBool false)
                   /\ (exists msg, lookup "error" d = Some (PStr msg))
                   /\ lookup "text_output_path" d = None
                   /\ lookup "table_output_path" d = None
                   /\ requests w' = requests w)
                  \/ (lookup "success" d = Some (PBool true)
                      /\ lookup "error" d = None
                      /\ exists path v,
                           lookup "text_output_path" d = Some (PStr path)
                           /\ read_file path (files w') = Some (Json v)))).
  { intros d v path -> Hs He Hp Hf. eexists. split; [reflexivity|]. right. eauto 6. }
  unfold process_document.
  destruct (negb (existsb (String.eqb (get_file_type file_path)) ALLOWED_EXTENSIONS)).
  { unfold ret, unsupported. intros H. symmetry in H. now apply Hfail in H. }
  destruct (String.eqb (get_file_type file_path) "pdf").
  { rewrite _process_pdf_run.
    match goal with
    | |- context [pdf_to_images E ?p ?f ?w0] =>
        pose proof (pdf_to_images_keeps_requests E p f w0) as Hq;
        destruct (pdf_to_images E p f w0) as [[[|img rest]|e] w1]
    end; cbn [snd mkdir requests] in Hq.
    - intros H. symmetry in H. now apply Hfail in H.
    - intros H. apply process_pages_returned in H.
      destruct H as [d [v [Hr [Hs [He [Hp Hf]]]]]]. eapply Hok; eauto.
    - discriminate. }
  destruct (existsb (String.eqb (get_file_type file_path)) ["jpg"; "jpeg"; "png"; "tiff"]).
  { intros H. apply _process_image_returned in H.
    destruct H as [d [v [Hr [Hs [He [Hp Hf]]]]]]. eapply Hok; eauto. }
  destruct (String.eqb (get_file_type file_path) "docx").
  { rewrite _process_docx_run.
    match goal with
    | |- context [docx_to_images E ?p ?f ?w0] =>
        pose proof (docx_to_images_keeps_requests E p f w0) as Hq;
        destruct (docx_to_images E p f w0) as [[[|img rest]|e] w1]
    end; cbn [snd mkdir requests] in Hq.
    - intros H. symmetry in H. now apply Hfail in H.
    - intros H. apply process_pages_returned in H.
      destruct H as [d [v [Hr [Hs [He [Hp Hf]]]]]]. eapply Hok; eauto.
    - discriminate. }
  unfold ret, unsupported. intros H. symmetry in H. now apply Hfail in H.
Qed.

End ResultShape.

(** ** Exceptions that leave the entry point *)

Section Escapes.

Variable E : Env.

Lemma not_foldable_raises (d : dict) (acc : Acc) :
  foldable (PDict d) = false -> exists e, aggregate_text d acc = Raise e.
Proof.
  unfold foldable, iterable, aggregate_text, has_key, getitem, and_then.
  destruct (lookup "headers" d) as [h|].
  - destruct (iterate h) as [items|e]; [|eauto].
    destruct (lookup "content" d) as [c|]; [|discriminate].
    destruct (iterate c) as [items'|e]; [discriminate|eauto].
  - destruct (lookup "content" d) as [c|]; [|discriminate].
    destruct (iterate c) as [items'|e]; [discriminate|eauto].
Qed.

Lemma page_not_foldable_raises (i : nat) (img : Path) (acc : Acc) (w : World) :
  succeeded (answer E img "text_extraction") = true ->
  foldable (payload (answer E img "text_extraction")) = false ->
  exists e w', process_page E (i, img) acc w = (Raise e, w').
Proof.
  intros Hs Hf. rewrite process_page_run. rewrite Hs.
  destruct (payload (answer E img "text_extraction")) as [ |b|z|lit|s|l|d];
    try discriminate.
  match goal with
  | |- context [aggregate_text d ?a] => destruct (not_foldable_raises d a Hf) as [e ->]
  end.
  eauto.
Qed.

Lemma page_loop_raises (pages : list (nat * Path)) (page : nat * Path) :
  In page pages ->
  succeeded (answer E (snd page) "text_extraction") = true ->
  foldable (payload (answer E (snd page) "text_extraction")) = false ->
  forall acc w, exists e w', for_each pages (process_page E) acc w = (Raise e, w').
Proof.
  intros Hin Hs Hf. induction pages as [|[i img] pages IH]; [contradiction|].
  intros acc w. cbn [for_each]. unfold bind.
  destruct (process_page E (i, img) acc w) as [[acc'|e] w'] eqn:Hstep; [|eauto].
  destruct Hin as [<-|Hin]; [|now apply IH].
  destruct (page_not_foldable_raises i img acc w Hs Hf) as [e [w'' Hr]].
  congruence.
Qed.

(** X8: a page whose text extraction succeeded with a dict payload whose
    [headers] or [content] cannot be iterated over (a number, [null], a
    Boolean) makes the page loop raise: [process_document] returns no
    result for the PDF, the exception leaves it. *)
Theorem pdf_payload_not_iterable_escapes (file_path : Path) (image_paths : list Path)
    (img : Path) (w w1 : World) :
  get_file_type file_path = "pdf" ->
  pdf_to_images E file_path (joinpath (SCREENSHOT_FOLDER E) (stem file_path))
    (snd (mkdir (path_str (joinpath (SCREENSHOT_FOLDER E) (stem file_path))) w))
  = (Ok image_paths, w1) ->
  In img image_paths ->
  succeeded (answer E img "text_extraction") = true ->
  foldable (payload (answer E img "text_extraction")) = false ->
  exists e w', process_document E file_path w = (Raise e, w').
Proof.
  intros Hext Hraster Hin Hs Hf.
  rewrite (process_document_pdf E _ Hext), _process_pdf_run, Hraster.
  destruct image_paths as [|first rest]; [contradiction|].
  unfold process_pages, bind at 1.
  assert (Hpage : exists k, In (k, img) (enumerate (first :: rest))).
  { unfold enumerate. generalize 0%nat. revert Hin. generalize (first :: rest).
    induction l as [|x l IH]; intros Hin k; [contradiction|].
    destruct Hin as [->|Hin].
    - exists k. now left.
    - destruct (IH Hin (S k)) as [k' Hk']. exists k'. now right. }
  destruct Hpage as [k Hk].
  destruct (page_loop_raises _ (k, img) Hk Hs Hf (mkAcc [] [] [] []) w1) as [e [w' ->]].
  eauto.
Qed.

(** X9: on an image whose text extraction failed, [process_document]
    raises [KeyError('data')] after it has opened the output file: the
    file is left on disk, empty. *)
Theorem image_failure_leaves_empty_file (file_path : Path) (w : World) :
  In (get_file_type file_path) ["jpg"; "jpeg"; "png"; "tiff"] ->
  succeeded (answer E (preprocess_image E file_path) "text_extraction") = false ->
  fst (process_document E file_path w) = Raise (KeyError "data")
  /\ read_file (path_str (joinpath (OUTPUT_FOLDER E) (stem file_path ++ ".json")))
       (files (snd (process_document E file_path w)))
     = Some Empty.
Proof.
  intros Hext Hfail.
  assert (Hrun : exists w2,
            process_document E file_path w = (Raise (KeyError "data"), w2)
            /\ read_file (path_str (joinpath (OUTPUT_FOLDER E) (stem file_path ++ ".json")))
                 (files w2)
               = Some Empty).
  { rewrite (process_document_image E _ Hext).
    unfold _process_image, analyze_document_type, extract_text.
    unfold bind at 1. rewrite process_image_run.
    unfold bind at 1. rewrite process_image_run.
    unfold bind at 1, lift at 1. rewrite table_mentioned_answer.
    unfold bind at 1.
    pose proof (image_table_step_returns E file_path
                  (asked (preprocess_image E file_path) "text_extraction"
                     (asked (preprocess_image E file_path) "document_analysis" w)))
      as Hstep.
    cbv zeta in Hstep. destruct Hstep as [r [w' [-> _]]].
    unfold bind, write_file, lift.
    destruct (answer_shape E (preprocess_image E file_path) "text_extraction")
      as [[msg Ha]|[p [raw Ha]]]; rewrite Ha in *; [|discriminate].
    eexists. split; [reflexivity|]. cbn [files]. apply read_file_last. }
  destruct Hrun as [w2 [-> Hfile]]. now split.
Qed.

End Escapes.

(** ** The result of the single-image path *)

Section ImageResult.

Variable E : Env.

Lemma image_table_step_value (file_path : Path) (w : World) :
  let img := preprocess_image E file_path in
  let xlsx := joinpath (OUTPUT_FOLDER E) (stem file_path ++ ".xlsx") in
  let step :=
    (if detected E img then
       table_result <- extract_table E img ;;
       ok <- lift (subscript table_result "success") ;;
       if truthy ok then
         data <- lift (subscript table_result "data") ;;
         format_table_output E [PDict [("page", PInt 1); ("data", data)]] xlsx ;;;
         ret (Some xlsx)
       else ret None
     else ret None) in
  exists w',
    step w = (Ok (if detected E img && succeeded (answer E img "table_extraction")
                  then Some xlsx else None), w')
    /\ requests w'
       = (requests w
          ++ (if detected E img then [(path_str img, "table_extraction")] else []))%list
    /\ forall p, p <> path_str xlsx -> read_file p (files w') = read_file p (files w).
Proof.
  cbv zeta. destruct (detected E (preprocess_image E file_path)); cbn [andb];
    [|unfold ret; eexists; split; [reflexivity|split; [now rewrite app_nil_r|reflexivity]]].
  unfold extract_table, bind, lift. rewrite process_image_run.
  destruct (subscript_success E (preprocess_image E file_path) "table_extraction")
    as [b [-> Hb]].
  rewrite Hb. cbn [truthy].
  destruct b; [|unfold ret; eexists; split; [reflexivity|split; reflexivity]].
  rewrite (subscript_data E _ _ Hb).
  match goal with
  | |- context [format_table_output E ?td ?p ?w0] =>
      pose proof (format_table_output_keeps_requests E td p w0) as Hq;
      destruct (format_table_output_files E td p w0) as [extra [Hfiles Hextra]];
      destruct (format_table_output_returns E td p w0) as [r [w1 Hr]]
  end.
  rewrite Hr in *. cbn [snd] in Hq, Hfiles. unfold ret. eexists.
  split; [reflexivity|]. split; [exact Hq|].
  intros p Hp. rewrite Hfiles. apply read_file_other.
  intros q c Hin. rewrite (Hextra q c Hin). congruence.
Qed.

(** X10: on an image whose text extraction succeeded, [process_document]
    returns a success whatever became of the two other calls: [analysis]
    is the payload of the classification, or [{}] when the classification
    failed; [table_output_path] names the workbook exactly when a table
    was detected and extracted; the JSON file holds the payload of the
    model as it came; and the requests are those of one page. *)
Theorem image_result (file_path : Path) (w : World) :
  In (get_file_type file_path) ["jpg"; "jpeg"; "png"; "tiff"] ->
  succeeded (answer E (preprocess_image E file_path) "text_extraction") = true ->
  let img := preprocess_image E file_path in
  let json := joinpath (OUTPUT_FOLDER E) (stem file_path ++ ".json") in
  let xlsx := joinpath (OUTPUT_FOLDER E) (stem file_path ++ ".xlsx") in
  exists w',
    process_document E file_path w
    = (Ok (PDict [("success", PBool true);
                  ("document_type", PStr "image");
                  ("text_output_path", PStr (path_str json));
                  ("table_output_path",
                   if detected E img && succeeded (answer E img "table_extraction")
                   then PStr (path_str xlsx) else PNone);
                  ("analysis",
                   if succeeded (answer E img "document_analysis")
                   then payload (answer E img "document_analysis") else PDict [])]),
       w')
    /\ read_file (path_str json) (files w')
       = Some (Json (payload (answer E img "text_extraction")))
    /\ requests w' = (requests w ++ page_requests E img)%list.
Proof.
  intros Hext Hok img json xlsx. rewrite (process_document_image E _ Hext).
  unfold _process_image, analyze_document_type, extract_text.
  unfold bind at 1. rewrite process_image_run.
  unfold bind at 1. rewrite process_image_run.
  unfold bind at 1, lift at 1. rewrite table_mentioned_answer.
  unfold bind at 1.
  pose proof (image_table_step_value file_path
                (asked (preprocess_image E file_path) "text_extraction"
                   (asked (preprocess_image E file_path) "document_analysis" w)))
    as Hstep.
  cbv zeta in Hstep. destruct Hstep as [w1 [-> [Hreq _]]].
  unfold bind, write_file, lift, ret.
  rewrite (subscript_data E _ _ Hok).
  fold img json xlsx.
  assert (Hanalysis :
    get_method (answer E img "document_analysis") "data" (PDict [])
    = Ok (if succeeded (answer E img "document_analysis")
          then payload (answer E img "document_analysis") else PDict [])).
  { destruct (answer_shape E img "document_analysis") as [[msg ->]|[p [raw ->]]];
      reflexivity. }
  rewrite Hanalysis. eexists. split.
  - do 3 f_equal. do 3 f_equal. f_equal.
    now destruct (detected E img && succeeded (answer E img "table_extraction")).
  - cbn [files requests]. split; [apply read_file_last|].
    rewrite Hreq. unfold asked, page_requests. cbn [requests].
    now rewrite <- !app_assoc.
Qed.

End ImageResult.

(** ** The files of the rasterizer *)

Section RasterFiles.

Variable E : Env.

Lemma save_loop_saved (output_folder : Path) (pages : list (nat * Image)) :
  (forall page, In page pages ->
     image_save E (snd page) (page_path output_folder (fst page)) = Ok tt) ->
  forall (paths : list Path) (w : World),
    for_each pages (save_page E output_folder) paths w
    = (Ok (paths ++ map (fun page => page_path output_folder (fst page)) pages)%list,
       mkWorld (files w ++ page_files output_folder pages)%list (dirs w) (requests w)).
Proof.
  induction pages as [|page pages IH]; intros Hsave paths w.
  - cbn. rewrite !app_nil_r. now destruct w.
  - cbn [for_each map]. unfold bind.
    rewrite save_page_run by (apply Hsave; now left).
    rewrite IH by (intros page' Hin; apply Hsave; now right).
    unfold page_files. cbn [files dirs requests map]. now rewrite <- !app_assoc.
Qed.

(** X12: when pdf2image converts the PDF and every page is saved,
    [pdf_to_images] returns one path per page, in page order, named
    [page_001.png], [page_002.png], ... in the output folder, and each of
    these files holds its page. *)
Theorem pdf_to_images_pages (pdf_path output_folder : Path) (images : list Image) (w : World) :
  convert_from_path E pdf_path = Ok images ->
  (forall page, In page (enumerate images) ->
     image_save E (snd page) (page_path output_folder (fst page)) = Ok tt) ->
  pdf_to_images E pdf_path output_folder w
  = (Ok (map (page_path output_folder) (seq 0 (length images))),
     mkWorld (files w ++ page_files output_folder (enumerate images))%list
             (dirs w ++ [path_str output_folder])%list (requests w)).
Proof.
  intros Hconv Hsave. unfold pdf_to_images, bind, mkdir, try_except, lift.
  rewrite Hconv, (save_loop_saved output_folder _ Hsave).
  cbn [app files dirs requests]. do 2 f_equal.
  now rewrite <- (map_map fst (page_path output_folder)), map_fst_enumerate.
Qed.

(** X13: when a page cannot be saved, [pdf_to_images] returns the empty
    list, and the pages saved before it stay on disk. *)
Theorem pdf_to_images_leaves_saved_pages (pdf_path output_folder : Path)
    (images : list Image) (saved rest : list (nat * Image)) (page : nat * Image)
    (e : exn) (w : World) :
  convert_from_path E pdf_path = Ok images ->
  enumerate images = (saved ++ page :: rest)%list ->
  (forall page', In page' saved ->
     image_save E (snd page') (page_path output_folder (fst page')) = Ok tt) ->
  image_save E (snd page) (page_path output_folder (fst page)) = Raise e ->
  pdf_to_images E pdf_path output_folder w
  = (Ok [],
     mkWorld (files w ++ page_files output_folder saved)%list
             (dirs w ++ [path_str output_folder])%list (requests w)).
Proof.
  intros Hconv Hsplit Hsaved Hbad.
  unfold pdf_to_images, bind, mkdir, try_except, lift. rewrite Hconv, Hsplit.
  assert (Hloop : forall pages paths w0,
            (forall page', In page' pages ->
               image_save E (snd page') (page_path output_folder (fst page')) = Ok tt) ->
            for_each (pages ++ page :: rest) (save_page E output_folder) paths w0
            = (Raise e,
               mkWorld (files w0 ++ page_files output_folder pages)%list (dirs w0) (requests w0))).
  { induction pages as [|p0 pages IH]; intros paths w0 Hok.
    - cbn [app for_each]. unfold bind at 1, save_page, bind, lift.
      fold (page_path output_folder (fst page)). rewrite Hbad.
      cbn. rewrite app_nil_r. now destruct w0.
    - cbn [app for_each]. unfold bind at 1.
      rewrite save_page_run by (apply Hok; now left).
      rewrite IH by (intros page' Hin; apply Hok; now right).
      unfold page_files. cbn [files dirs requests map]. now rewrite <- !app_assoc. }
  now rewrite Hloop.
Qed.

End RasterFiles.

(** ** The gateway: prompts and braces *)

Section Prompts.

Variable E : Env.

(** X15: a prompt type that is none of the three known ones gets the
    text-extraction prompt, hence the answer of a text extraction. *)
Theorem unknown_prompt_is_text_extraction (image_path : Path) (prompt_type : string) :
  prompt_type <> "text_extraction" ->
  prompt_type <> "table_extraction" ->
  prompt_type <> "document_analysis" ->
  prompt_for prompt_type = prompt_for "text_extraction"
  /\ answer E image_path prompt_type = answer E image_path "text_extraction".
Proof.
  intros H1 H2 H3.
  assert (Hprompt : prompt_for prompt_type = prompt_for "text_extraction").
  { unfold prompt_for, PROMPTS. cbn [prompts_get].
    destruct (String.eqb_spec prompt_type "text_extraction"); [contradiction|].
    destruct (String.eqb_spec prompt_type "table_extraction"); [contradiction|].
    destruct (String.eqb_spec prompt_type "document_analysis"); [contradiction|].
    reflexivity. }
  split; [exact Hprompt|].
  unfold answer. rewrite !process_image_closed. now rewrite Hprompt.
Qed.

(** X16: when every closing brace of the raw text stands before its
    first opening brace, the decoder is given the empty string; a decoder
    that rejects it with [JSONDecodeError], as [json.loads] does, leaves
    the payload [{"text": raw}]. *)
Theorem braces_in_reverse_order (image_path : Path) (prompt_type : string)
    (response : option string) (i j : nat) (msg : string) :
  backend E (path_str image_path) (prompt_for prompt_type) = Generated response ->
  first_at "{" (text_of response) i ->
  last_at "}" (text_of response) j ->
  (j < i)%nat ->
  json_loads E "" = Raise (JSONDecodeError msg) ->
  answer E image_path prompt_type
  = PDict [("success", PBool true);
           ("data", PDict [("text", PStr (text_of response))]);
           ("raw_response", PStr (text_of response))].
Proof.
  intros Hb [Hi Hfirst] [Hj Hlast] Hlt Hempty.
  unfold answer. rewrite process_image_closed. cbn [fst]. rewrite Hb. cbv zeta.
  unfold success_response. set (raw := text_of response) in *.
  assert (Hopen : str_in "{" raw = true) by (apply str_in_char; now exists i).
  assert (Hclose : str_in "}" raw = true) by (apply str_in_char; now exists j).
  rewrite Hopen, Hclose. cbn [andb].
  unfold find, rfind. unfold str_in in Hopen.
  destruct (String.index 0 "{" raw) as [i'|] eqn:Hi'; [|discriminate].
  rewrite str_in_rindex in Hclose.
  destruct (rindex "}" raw) as [j'|] eqn:Hj'; [|discriminate].
  destruct (index_char_some _ _ _ Hi') as [Hgi' Hmin].
  destruct (rindex_char_some _ _ _ Hj') as [Hgj' Hmax].
  assert (Heqi : i' = i).
  { destruct (Nat.lt_trichotomy i' i) as [H|[H|H]]; [|exact H|].
    - now apply Hfirst in H.
    - now apply Hmin in H. }
  assert (Heqj : j' = j).
  { destruct (Nat.lt_trichotomy j' j) as [H|[H|H]]; [|exact H|].
    - now apply Hmax in H.
    - now apply Hlast in H. }
  subst i' j'.
  rewrite slice_between by (eapply get_some_lt; eassumption).
  replace (j + 1 - i)%nat with 0%nat by lia.
  rewrite substring_zero, Hempty. reflexivity.
Qed.

End Prompts.

(** ** The normalising writer *)

Section Normaliser.

(** X17: [format_text_output] writes the normal form of its input, and
    the normal form of a normal form is itself: formatting a formatted
    document again writes the same document. *)
Theorem format_text_output_idempotent (text_data : pyval) (output_path : Path) (w : World) :
  format_text_output text_data output_path w
  = (Ok (Some output_path),
     with_file output_path (Json (normal_text text_data)) (with_dir (parent output_path) w))
  /\ normal_text (normal_text text_data) = normal_text text_data.
Proof.
  split.
  - unfold format_text_output, try_except, bind, mkdir, lift, write_file, ret, normal_text.
    destruct text_data as [ |b|z|lit|s|l|d]; try reflexivity.
    unfold has_key, getitem, and_then, get.
    destruct (lookup "headers" d) as [h|];
      (destruct (lookup "content" d) as [c|]; [|destruct (lookup "text" d) as [t|]]);
      reflexivity.
  - unfold normal_text.
    destruct text_data as [ |b|z|lit|s|l|d]; try reflexivity.
Qed.

End Normaliser.

(** ** Headers given as one string *)

Section StringHeaders.

Variable E : Env.

Lemma length_chars (s : string) : length (chars s) = String.length s.
Proof. induction s as [|c s IH]; cbn; congruence. Qed.

(** X18: when the model gives [headers] as one string instead of a list,
    [extend] takes it apart: the running headers grow by one item per
    character of the string. *)
Theorem string_headers_are_split (i : nat) (img : Path) (acc : Acc) (w : World)
    (d : dict) (s : string) :
  succeeded (answer E img "text_extraction") = true ->
  payload (answer E img "text_extraction") = PDict d ->
  lookup "headers" d = Some (PStr s) ->
  foldable (PDict d) = true ->
  exists acc',
    fst (process_page E (i, img) acc w) = Ok acc'
    /\ text_headers acc' = (text_headers acc ++ chars s)%list
    /\ length (text_headers acc') = (length (text_headers acc) + String.length s)%nat.
Proof.
  intros Hs Hp Hh Hf. rewrite page_step_text by now rewrite Hp.
  eexists. split; [reflexivity|]. cbn [text_headers].
  assert (Hpage : page_headers E img = chars s).
  { unfold page_headers. now rewrite Hs, Hp, Hh. }
  rewrite Hpage. split; [reflexivity|].
  now rewrite length_app, length_chars.
Qed.

End StringHeaders.

(** ** Converting the text artifact to a workbook *)

Section ConvertArtifact.

Local Open Scope nat_scope.

Lemma rindex_append_dot (s t : string) :
  rindex "." t = None ->
  rindex "." (s ++ String "." t) = Some (String.length s).
Proof.
  intros Ht. induction s as [|c s IH].
  - cbn [append rindex String.length]. rewrite Ht. now rewrite prefix_char.
  - cbn [append rindex String.length]. now rewrite IH.
Qed.

Lemma length_append (a b : string) :
  String.length (a ++ b) = String.length a + String.length b.
Proof. induction a as [|c a IH]; cbn; congruence. Qed.

Lemma substring_all (s : string) : String.substring 0 (String.length s) s = s.
Proof. induction s as [|c s IH]; cbn; congruence. Qed.

Lemma substring_append_left (a b : string) :
  String.substring 0 (String.length a) (a ++ b) = a.
Proof.
  induction a as [|c a IH]; cbn.
  - now rewrite substring_zero.
  - now rewrite IH.
Qed.

Lemma substring_append_right (a b : string) :
  String.substring (String.length a) (String.length b) (a ++ b) = b.
Proof.
  induction a as [|c a IH]; cbn; [apply substring_all|exact IH].
Qed.

(** The name [s.ext], for a non-empty [s] and an extension without a
    dot, has the stem [s]. *)
Lemma stem_append_ext (dir s t : string) :
  s <> "" -> t <> "" -> rindex "." t = None ->
  stem (mkPath dir (s ++ String "." t)) = s.
Proof.
  intros Hs Ht Hdot.
  assert (0 < String.length s) by (destruct s; [contradiction|cbn; lia]).
  assert (0 < String.length t) by (destruct t; [contradiction|cbn; lia]).
  assert (Hlen : String.length (s ++ String "." t) = String.length s + S (String.length t))
    by (now rewrite length_append).
  unfold stem, suffix, rfind, len. cbn [name].
  rewrite (rindex_append_dot s t Hdot), Hlen.
  destruct (Z.ltb_spec 0 (Z.of_nat (String.length s))) as [_|?]; [|lia].
  destruct (Z.ltb_spec (Z.of_nat (String.length s))
              (Z.of_nat (String.length s + S (String.length t)) - 1)) as [_|?]; [|lia].
  cbn [andb].
  assert (Hsuffix : slice (s ++ String "." t) (Z.of_nat (String.length s))
                      (Z.of_nat (String.length s + S (String.length t)))
                    = String "." t).
  { unfold slice, clip, len. rewrite Hlen.
    destruct (Z.ltb_spec (Z.of_nat (String.length s)) 0) as [?|_]; [lia|].
    destruct (Z.ltb_spec (Z.of_nat (String.length s + S (String.length t))) 0)
      as [?|_]; [lia|].
    rewrite !Z.min_l by lia.
    replace (Z.to_nat (Z.of_nat (String.length s))) with (String.length s) by lia.
    replace (Z.to_nat (Z.of_nat (String.length s + S (String.length t))
                       - Z.of_nat (String.length s)))
      with (String.length (String "." t)) by (cbn; lia).
    apply substring_append_right. }
  rewrite Hsuffix. unfold slice, clip, len. rewrite Hlen.
  destruct (Z.ltb_spec 0 0) as [?|_]; [lia|].
  cbn [String.length].
  destruct (Z.ltb_spec (Z.of_nat (String.length s + S (String.length t))
                        - Z.of_nat (S (String.length t))) 0) as [?|_]; [lia|].
  rewrite !Z.min_l by lia.
  replace (Z.to_nat 0) with 0 by lia.
  replace (Z.to_nat (Z.of_nat (String.length s + S (String.length t))
                     - Z.of_nat (S (String.length t)) - 0))
    with (String.length s) by lia.
  apply substring_append_left.
Qed.

Lemma stem_not_empty (p : Path) : name p <> "" -> stem p <> "".
Proof.
  intros Hname Hstem.
  assert (Hn : 0 < String.length (name p)) by (destruct (name p); [contradiction|cbn; lia]).
  assert (Hlen : String.length (stem p) = 0) by now rewrite Hstem.
  revert Hlen. unfold stem, suffix, rfind, len.
  destruct (rindex "." (name p)) as [j|] eqn:Hj.
  - pose proof (rindex_lt _ _ _ Hj) as Hlt.
    destruct (Z.ltb_spec 0 (Z.of_nat j)) as [Hpos|Hzero]; cbn [andb].
    + destruct (Z.ltb_spec (Z.of_nat j) (Z.of_nat (String.length (name p)) - 1))
        as [Hin|Hend].
      * assert (Hs : String.length (slice (name p) (Z.of_nat j)
                                      (Z.of_nat (String.length (name p))))
                     = String.length (name p) - j).
        { unfold slice, clip, len.
          destruct (Z.ltb_spec (Z.of_nat j) 0) as [?|_]; [lia|].
          destruct (Z.ltb_spec (Z.of_nat (String.length (name p))) 0) as [?|_]; [lia|].
          rewrite !Z.min_l by lia. rewrite length_substring; lia. }
        rewrite Hs. unfold slice, clip, len.
        destruct (Z.ltb_spec 0 0) as [?|_]; [lia|].
        destruct (Z.ltb_spec (Z.of_nat (String.length (name p))
                              - Z.of_nat (String.length (name p) - j)) 0) as [?|_]; [lia|].
        rewrite !Z.min_l by lia. rewrite length_substring; lia.
      * cbn [String.length]. unfold slice, clip, len.
        destruct (Z.ltb_spec 0 0) as [?|_]; [lia|].
        destruct (Z.ltb_spec (Z.of_nat (String.length (name p)) - Z.of_nat 0) 0)
          as [?|_]; [lia|].
        rewrite !Z.min_l by lia. rewrite length_substring; lia.
    + cbn [String.length]. unfold slice, clip, len.
      destruct (Z.ltb_spec 0 0) as [?|_]; [lia|].
      destruct (Z.ltb_spec (Z.of_nat (String.length (name p)) - Z.of_nat 0) 0)
        as [?|_]; [lia|].
      rewrite !Z.min_l by lia. rewrite length_substring; lia.
  - cbn [andb Z.ltb Z.compare String.length]. unfold slice, clip, len.
    destruct (Z.ltb_spec 0 0) as [?|_]; [lia|].
    destruct (Z.ltb_spec (Z.of_nat (String.length (name p)) - Z.of_nat 0) 0)
      as [?|_]; [lia|].
    rewrite !Z.min_l by lia. rewrite length_substring; lia.
Qed.

(** The workbook beside a JSON output has the path of the workbook of
    the tables. *)
Lemma json_to_xlsx (base : Path) :
  name base <> "" ->
  with_suffix (with_suffix base ".json") ".xlsx" = with_suffix base ".xlsx".
Proof.
  intros Hname. unfold with_suffix at 1 3. cbn [parent]. f_equal.
  unfold with_suffix. f_equal.
  apply (stem_append_ext (parent base) (stem base) "json").
  - now apply stem_not_empty.
  - discriminate.
  - reflexivity.
Qed.

End ConvertArtifact.

Section ConvertWorkbook.

Variable E : Env.
Variable O : Office.

(** X19: converting the text artifact of a multi-page document with the
    default output path writes the two sheets [Headers] and [Content] of
    the aggregated lists, and writes them to the path of the workbook of
    the tables of the same document: whatever workbook the run had
    written there is replaced. *)
Theorem convert_replaces_table_workbook (document_type doc_name : string)
    (screenshot_folder : Path) (image_paths : list Path) (w : World)
    (headers_df content_df : DataFrame) :
  doc_name <> "" ->
  (forall img, In img image_paths ->
     foldable (payload (answer E img "text_extraction")) = true) ->
  let w1 := snd (process_pages E document_type doc_name screenshot_folder image_paths w) in
  let json := with_suffix (joinpath (OUTPUT_FOLDER E) doc_name) ".json" in
  let xlsx := with_suffix (joinpath (OUTPUT_FOLDER E) doc_name) ".xlsx" in
  pd_DataFrame E (PDict [("Headers", PList (flat_map (page_headers E) image_paths))])
  = Ok headers_df ->
  pd_DataFrame E (PDict [("Content", PList (flat_map (page_content E) image_paths))])
  = Ok content_df ->
  to_excel E "Headers" headers_df = Ok tt ->
  to_excel E "Content" content_df = Ok tt ->
  save E [("Headers", headers_df); ("Content", content_df)] = Ok tt ->
  convert_json_to_excel E O json None w1
  = (Ok (Some xlsx),
     with_file xlsx
       (Workbook [("Headers", headers_df); ("Content", content_df)])
       (with_file xlsx Empty w1))
  /\ read_file (path_str xlsx) (files (snd (convert_json_to_excel E O json None w1)))
     = Some (Workbook [("Headers", headers_df); ("Content", content_df)]).
Proof.
  intros Hname Hfold w1 json xlsx Hh Hc Hth Htc Hsave.
  assert (Hrun : convert_json_to_excel E O json None w1
                 = (Ok (Some xlsx),
                    with_file xlsx
                      (Workbook [("Headers", headers_df); ("Content", content_df)])
                      (with_file xlsx Empty w1))).
  { unfold convert_json_to_excel, try_except, bind at 1, json_load.
    unfold json, w1. rewrite (text_artifact_file E _ _ _ _ _ Hfold).
    rewrite json_to_xlsx by exact Hname.
    cbn [has_key lookup String.eqb Ascii.eqb Bool.eqb andb].
    unfold bind at 1, lift at 1. cbn [getitem lookup String.eqb Ascii.eqb Bool.eqb].
    unfold bind at 1, lift at 1. rewrite Hh.
    unfold bind at 1, lift at 1. cbn [getitem lookup String.eqb Ascii.eqb Bool.eqb].
    unfold bind at 1, lift at 1. rewrite Hc.
    unfold bind at 1. rewrite ExcelWriter_run.
    unfold df_to_excel, bind. rewrite Hth, Htc.
    cbn [fst snd put_sheet String.eqb Ascii.eqb Bool.eqb].
    unfold saved, close_error. now rewrite Hsave. }
  split; [exact Hrun|]. rewrite Hrun. unfold with_file. cbn [snd files].
  apply read_file_last.
Qed.

End ConvertWorkbook.

(** ** Output names *)

Section OutputNames.

Variable E : Env.

Local Open Scope nat_scope.

Lemma substring_after_dot (s t : string) :
  String.substring (String.length s + 1) (String.length t) (s ++ String "." t) = t.
Proof.
  induction s as [|c s IH]; cbn.
  - apply substring_all.
  - exact IH.
Qed.

Lemma not_empty_length (s : string) : s <> "" -> 0 < String.length s.
Proof. destruct s; [contradiction|cbn; lia]. Qed.

(** The extension of the name [s.ext]. *)
Lemma get_file_type_append_ext (dir s t : string) :
  s <> "" -> t <> "" -> rindex "." t = None ->
  get_file_type (mkPath dir (s ++ String "." t)) = lower t.
Proof.
  intros Hs Ht Hdot.
  pose proof (not_empty_length s Hs). pose proof (not_empty_length t Ht).
  assert (Hlen : String.length (s ++ String "." t) = String.length s + S (String.length t))
    by (now rewrite length_append).
  rewrite (get_file_type_inner_dot dir _ (String.length s))
    by (try apply rindex_append_dot; try assumption; lia).
  rewrite Hlen.
  replace (String.length s + S (String.length t) - (String.length s + 1))
    with (String.length t) by lia.
  now rewrite substring_after_dot.
Qed.

(** X20: the outputs of a PDF are named after its stem with its last
    dotted part dropped: [s.t.pdf] is rasterized into the folder [s.t],
    but its text artifact is [s.json] and its workbook [s.xlsx], for
    every [t]; so [s.2023.pdf] and [s.2024.pdf] write the same output
    files. *)
Theorem dotted_pdf_names_share_outputs (dir s t : string) (image_paths : list Path)
    (w w1 : World) :
  s <> "" -> t <> "" -> rindex "." t = None ->
  let file_path := mkPath dir ((s ++ String "." t) ++ ".pdf") in
  pdf_to_images E file_path (joinpath (SCREENSHOT_FOLDER E) (stem file_path))
    (snd (mkdir (path_str (joinpath (SCREENSHOT_FOLDER E) (stem file_path))) w))
  = (Ok image_paths, w1) ->
  image_paths <> [] ->
  (forall img, In img image_paths ->
     foldable (payload (answer E img "text_extraction")) = true) ->
  exists r w',
    process_document E file_path w = (Ok (PDict r), w')
    /\ lookup "screenshot_folder" r
       = Some (PStr (path_str (joinpath (SCREENSHOT_FOLDER E) (s ++ String "." t))))
    /\ lookup "text_output_path" r
       = Some (PStr (path_str (joinpath (OUTPUT_FOLDER E) (s ++ ".json"))))
    /\ (lookup "table_output_path" r = Some PNone
        \/ lookup "table_output_path" r
           = Some (PStr (path_str (joinpath (OUTPUT_FOLDER E) (s ++ ".xlsx"))))).
Proof.
  intros Hs Ht Hdot file_path Hraster Hne Hfold.
  assert (Hst : s ++ String "." t <> "") by (destruct s; [contradiction|discriminate]).
  assert (Hext : get_file_type file_path = "pdf")
    by (apply (get_file_type_append_ext dir (s ++ String "." t) "pdf");
        [exact Hst|discriminate|reflexivity]).
  assert (Hstem : stem file_path = s ++ String "." t)
    by (apply (stem_append_ext dir (s ++ String "." t) "pdf");
        [exact Hst|discriminate|reflexivity]).
  assert (Hbase : stem (joinpath (OUTPUT_FOLDER E) (s ++ String "." t)) = s)
    by (now apply stem_append_ext).
  rewrite (process_document_pdf E _ Hext), _process_pdf_run, Hraster.
  destruct image_paths as [|img rest]; [contradiction|].
  rewrite (process_pages_closed E _ _ _ _ _ Hfold). rewrite Hstem.
  do 2 eexists. split; [reflexivity|].
  cbn [lookup String.eqb Ascii.eqb Bool.eqb].
  unfold with_suffix. rewrite Hbase. cbn [parent].
  split; [reflexivity|]. split; [reflexivity|].
  destruct (flat_map (page_tables E) (enumerate (img :: rest))); [now left|now right].
Qed.

End OutputNames.

(** ** Runs of the two concrete environments for the further properties *)

Lemma format_table_output_keeps_sheets_witness :
  collect (sheet_of_table Demo.env)
    [(0%nat, table_entry 1 (payload (answer Demo.env (Demo.report_page 2) "table_extraction")))]
  = Ok [("Page 2", mkFrame [PStr "item"; PStr "qty"] [[PStr "pen"; PInt 2]])]
  /\ frame_of_table Demo.env (1%nat, table_entry 2 (PDict [("rows", PInt 5)]))
     = Raise (Failure "DataFrame constructor not properly called!")
  /\ format_table_output Demo.env
       [table_entry 1 (payload (answer Demo.env (Demo.report_page 2) "table_extraction"));
        table_entry 2 (PDict [("rows", PInt 5)])]
       (joinpath (OUTPUT_FOLDER Demo.env) "report.xlsx") Demo.fresh
     = (Ok None,
        with_file (joinpath (OUTPUT_FOLDER Demo.env) "report.xlsx")
          (Workbook [("Page 2", mkFrame [PStr "item"; PStr "qty"] [[PStr "pen"; PInt 2]])])
          (with_file (joinpath (OUTPUT_FOLDER Demo.env) "report.xlsx") Empty
             (with_dir (parent (joinpath (OUTPUT_FOLDER Demo.env) "report.xlsx"))
                Demo.fresh))).
Proof.
  assert (Hdone :
    collect (sheet_of_table Demo.env)
      [(0%nat,
        table_entry 1 (payload (answer Demo.env (Demo.report_page 2) "table_extraction")))]
    = Ok [("Page 2", mkFrame [PStr "item"; PStr "qty"] [[PStr "pen"; PInt 2]])])
    by (vm_compute; reflexivity).
  assert (Hbad : frame_of_table Demo.env (1%nat, table_entry 2 (PDict [("rows", PInt 5)]))
                 = Raise (Failure "DataFrame constructor not properly called!"))
    by (vm_compute; reflexivity).
  split; [exact Hdone|]. split; [exact Hbad|].
  refine (proj1 (proj2 (format_table_output_keeps_sheets Demo.env
                          [table_entry 1 (payload (answer Demo.env (Demo.report_page 2)
                                                     "table_extraction"));
                           table_entry 2 (PDict [("rows", PInt 5)])]
                          (joinpath (OUTPUT_FOLDER Demo.env) "report.xlsx") Demo.fresh
                          _ _ Hdone _ _ _))
            (1%nat, table_entry 2 (PDict [("rows", PInt 5)])) [] _ eq_refl Hbad).
  - discriminate.
  - constructor; [intros []|constructor].
  - reflexivity.
Defined.

Lemma report_pages_foldable :
  forall img, In img [Demo.report_page 1; Demo.report_page 2] ->
    foldable (payload (answer Demo.env img "text_extraction")) = true.
Proof. intros img [<-|[<-|[]]]; vm_compute; reflexivity. Qed.

Lemma text_artifact_in_page_order_witness :
  (forall img, In img [Demo.report_page 1; Demo.report_page 2] ->
     foldable (payload (answer Demo.env img "text_extraction")) = true)
  /\ read_file (path_str (with_suffix (joinpath (OUTPUT_FOLDER Demo.env) "report") ".json"))
       (files (snd (process_pages Demo.env "pdf" "report"
                      (joinpath (SCREENSHOT_FOLDER Demo.env) "report")
                      [Demo.report_page 1; Demo.report_page 2] Demo.fresh)))
     = Some (Json (PDict
          [("headers", PList (flat_map (page_headers Demo.env)
                                [Demo.report_page 1; Demo.report_page 2]));
           ("content", PList (flat_map (page_content Demo.env)
                                [Demo.report_page 1; Demo.report_page 2]))]))
  /\ flat_map (page_headers Demo.env) [Demo.report_page 1; Demo.report_page 2]
     = [PStr "Invoice"]
  /\ flat_map (page_content Demo.env) [Demo.report_page 1; Demo.report_page 2]
     = [PStr "Total due: 5"].
Proof.
  split; [exact report_pages_foldable|]. split.
  - exact (proj1 (text_artifact_in_page_order Demo.env "pdf" "report"
                    (joinpath (SCREENSHOT_FOLDER Demo.env) "report")
                    [Demo.report_page 1; Demo.report_page 2] Demo.fresh
                    report_pages_foldable)).
  - split; vm_compute; reflexivity.
Defined.

Lemma ledger_page_foldable :
  forall img, In img [Ledger.ledger_page] ->
    foldable (payload (answer Ledger.env img "text_extraction")) = true.
Proof. intros img [<-|[]]; vm_compute; reflexivity. Qed.

Lemma table_path_reported_witness :
  (forall img, In img [Ledger.ledger_page] ->
     foldable (payload (answer Ledger.env img "text_extraction")) = true)
  /\ table_loop Ledger.env (flat_map (page_tables Ledger.env) (enumerate [Ledger.ledger_page]))
     = (Raise (TypeError "object of type 'int' has no len()"),
        [("Page 1", mkFrame [PInt 0; PInt 1] [[PInt 1; PInt 2]; [PInt 3; PInt 4]])])
  /\ exists r w',
       process_pages Ledger.env "pdf" "ledger"
         (joinpath (SCREENSHOT_FOLDER Ledger.env) "ledger") [Ledger.ledger_page] Demo.fresh
       = (Ok (PDict r), w')
       /\ lookup "success" r = Some (PBool true)
       /\ (lookup "table_output_path" r = Some PNone
           <-> flat_map (page_tables Ledger.env) (enumerate [Ledger.ledger_page]) = [])
       /\ (flat_map (page_tables Ledger.env) (enumerate [Ledger.ledger_page]) = [] ->
           read_file (path_str (with_suffix (joinpath (OUTPUT_FOLDER Ledger.env) "ledger")
                                            ".xlsx")) (files w')
           = read_file (path_str (with_suffix (joinpath (OUTPUT_FOLDER Ledger.env) "ledger")
                                              ".xlsx")) (files Demo.fresh))
       /\ (flat_map (page_tables Ledger.env) (enumerate [Ledger.ledger_page]) <> [] ->
           lookup "table_output_path" r
           = Some (PStr (path_str (with_suffix (joinpath (OUTPUT_FOLDER Ledger.env) "ledger")
                                               ".xlsx")))
           /\ read_file (path_str (with_suffix (joinpath (OUTPUT_FOLDER Ledger.env) "ledger")
                                               ".xlsx")) (files w')
              = Some (saved Ledger.env
                        (snd (table_loop Ledger.env
                                (flat_map (page_tables Ledger.env)
                                   (enumerate [Ledger.ledger_page])))))).
Proof.
  split; [exact ledger_page_foldable|]. split; [vm_compute; reflexivity|].
  exact (table_path_reported Ledger.env "pdf" "ledger"
           (joinpath (SCREENSHOT_FOLDER Ledger.env) "ledger") [Ledger.ledger_page]
           Demo.fresh ledger_page_foldable).
Defined.

Lemma returned_result_shape_witness :
  exists r w',
    process_document Demo.env Demo.corrupt_pdf Demo.fresh = (Ok r, w')
    /\ exists d,
         r = PDict d
         /\ ((lookup "success" d = Some (PBool false)
              /\ (exists msg, lookup "error" d = Some (PStr msg))
              /\ lookup "text_output_path" d = None
              /\ lookup "table_output_path" d = None
              /\ requests w' = requests Demo.fresh)
             \/ (lookup "success" d = Some (PBool true)
                 /\ lookup "error" d = None
                 /\ exists path v,
                      lookup "text_output_path" d = Some (PStr path)
                      /\ read_file path (files w') = Some (Json v))).
Proof.
  do 2 eexists. split; [vm_compute; reflexivity|].
  apply (returned_result_shape Demo.env Demo.corrupt_pdf Demo.fresh).
  vm_compute. reflexivity.
Defined.

Lemma pdf_payload_not_iterable_escapes_witness :
  get_file_type Ledger.null_pdf = "pdf"
  /\ In Ledger.null_page [Ledger.null_page]
  /\ succeeded (answer Ledger.env Ledger.null_page "text_extraction") = true
  /\ payload (answer Ledger.env Ledger.null_page "text_extraction")
     = PDict [("headers", PNone)]
  /\ foldable (payload (answer Ledger.env Ledger.null_page "text_extraction")) = false
  /\ exists e w', process_document Ledger.env Ledger.null_pdf Demo.fresh = (Raise e, w').
Proof.
  split; [reflexivity|]. split; [now left|]. split; [vm_compute; reflexivity|].
  split; [vm_compute; reflexivity|]. split; [vm_compute; reflexivity|].
  refine (pdf_payload_not_iterable_escapes Ledger.env Ledger.null_pdf [Ledger.null_page]
            Ledger.null_page Demo.fresh _ eq_refl _ (or_introl eq_refl) _ _);
    vm_compute; reflexivity.
Defined.

Lemma image_failure_leaves_empty_file_witness :
  In (get_file_type Demo.scan_png) ["jpg"; "jpeg"; "png"; "tiff"]
  /\ succeeded (answer Demo.env (preprocess_image Demo.env Demo.scan_png) "text_extraction")
     = false
  /\ fst (process_document Demo.env Demo.scan_png Demo.fresh) = Raise (KeyError "data")
  /\ read_file (path_str (joinpath (OUTPUT_FOLDER Demo.env) (stem Demo.scan_png ++ ".json")))
       (files (snd (process_document Demo.env Demo.scan_png Demo.fresh)))
     = Some Empty.
Proof.
  assert (Hext : In (get_file_type Demo.scan_png) ["jpg"; "jpeg"; "png"; "tiff"])
    by (right; right; left; reflexivity).
  assert (Hfail : succeeded (answer Demo.env (preprocess_image Demo.env Demo.scan_png)
                               "text_extraction") = false)
    by (vm_compute; reflexivity).
  split; [exact Hext|]. split; [exact Hfail|].
  exact (image_failure_leaves_empty_file Demo.env Demo.scan_png Demo.fresh Hext Hfail).
Defined.

Lemma image_result_witness :
  In (get_file_type Demo.chart_png) ["jpg"; "jpeg"; "png"; "tiff"]
  /\ succeeded (answer Demo.env (preprocess_image Demo.env Demo.chart_png) "text_extraction")
     = true
  /\ exists w',
       process_document Demo.env Demo.chart_png Demo.fresh
       = (Ok (PDict
            [("success", PBool true);
             ("document_type", PStr "image");
             ("text_output_path",
              PStr (path_str (joinpath (OUTPUT_FOLDER Demo.env)
                                (stem Demo.chart_png ++ ".json"))));
             ("table_output_path",
              if detected Demo.env (preprocess_image Demo.env Demo.chart_png)
                 && succeeded (answer Demo.env (preprocess_image Demo.env Demo.chart_png)
                                 "table_extraction")
              then PStr (path_str (joinpath (OUTPUT_FOLDER Demo.env)
                                     (stem Demo.chart_png ++ ".xlsx")))
              else PNone);
             ("analysis",
              if succeeded (answer Demo.env (preprocess_image Demo.env Demo.chart_png)
                              "document_analysis")
              then payload (answer Demo.env (preprocess_image Demo.env Demo.chart_png)
                              "document_analysis")
              else PDict [])]),
          w')
       /\ read_file (path_str (joinpath (OUTPUT_FOLDER Demo.env)
                                 (stem Demo.chart_png ++ ".json"))) (files w')
          = Some (Json (payload (answer Demo.env (preprocess_image Demo.env Demo.chart_png)
                                   "text_extraction")))
       /\ requests w'
          = (requests Demo.fresh
             ++ page_requests Demo.env (preprocess_image Demo.env Demo.chart_png))%list.
Proof.
  assert (Hext : In (get_file_type Demo.chart_png) ["jpg"; "jpeg"; "png"; "tiff"])
    by (right; right; left; reflexivity).
  assert (Hok : succeeded (answer Demo.env (preprocess_image Demo.env Demo.chart_png)
                             "text_extraction") = true)
    by (vm_compute; reflexivity).
  split; [exact Hext|]. split; [exact Hok|].
  exact (image_result Demo.env Demo.chart_png Demo.fresh Hext Hok).
Defined.

Lemma pdf_to_images_pages_witness :
  convert_from_path Demo.env Demo.report_pdf = Ok [mkImage 2480 3508; mkImage 2480 3508]
  /\ pdf_to_images Demo.env Demo.report_pdf (joinpath Demo.screenshots "report") Demo.fresh
     = (Ok [Demo.report_page 1; Demo.report_page 2],
        mkWorld [(path_str (Demo.report_page 1), Png (mkImage 2480 3508));
                 (path_str (Demo.report_page 2), Png (mkImage 2480 3508))]
                [path_str (joinpath Demo.screenshots "report")] []).
Proof.
  split; [reflexivity|].
  exact (pdf_to_images_pages Demo.env Demo.report_pdf (joinpath Demo.screenshots "report")
           [mkImage 2480 3508; mkImage 2480 3508] Demo.fresh eq_refl
           (fun page _ => eq_refl)).
Defined.

Lemma pdf_to_images_leaves_saved_pages_witness :
  convert_from_path Ledger.full_disk Demo.report_pdf
  = Ok [mkImage 2480 3508; mkImage 2480 3508]
  /\ image_save Ledger.full_disk (mkImage 2480 3508) (Demo.report_page 2)
     = Raise (Failure "No space left on device")
  /\ pdf_to_images Ledger.full_disk Demo.report_pdf (joinpath Demo.screenshots "report")
       Demo.fresh
     = (Ok [],
        mkWorld [(path_str (Demo.report_page 1), Png (mkImage 2480 3508))]
                [path_str (joinpath Demo.screenshots "report")] []).
Proof.
  split; [reflexivity|]. split; [reflexivity|].
  refine (pdf_to_images_leaves_saved_pages Ledger.full_disk Demo.report_pdf
            (joinpath Demo.screenshots "report")
            [mkImage 2480 3508; mkImage 2480 3508]
            [(0%nat, mkImage 2480 3508)] [] (1%nat, mkImage 2480 3508)
            (Failure "No space left on device") Demo.fresh eq_refl eq_refl _ eq_refl).
  intros page [<-|[]]. reflexivity.
Defined.

Lemma docx_to_images_pages_witness :
  (forall img path, image_save Demo.env img path = Ok tt)
  /\ docx_Document Demo.env Demo.memo_docx = Ok (repeat "Lorem ipsum." 12)
  /\ fst (docx_to_images Demo.env Demo.memo_docx (joinpath Demo.screenshots "memo") Demo.fresh)
     = Ok (map (page_path (joinpath Demo.screenshots "memo"))
               (seq 0 ((length (repeat "Lorem ipsum." 12) + 9) / 10))).
Proof.
  split; [reflexivity|]. split; [reflexivity|].
  exact (docx_to_images_pages Demo.env Demo.memo_docx (joinpath Demo.screenshots "memo")
           (repeat "Lorem ipsum." 12) Demo.fresh (fun _ _ => eq_refl) eq_refl).
Defined.

Lemma unknown_prompt_is_text_extraction_witness :
  prompt_for "summary" = prompt_for "text_extraction"
  /\ answer Demo.env (Demo.report_page 2) "summary"
     = answer Demo.env (Demo.report_page 2) "text_extraction".
Proof.
  apply (unknown_prompt_is_text_extraction Demo.env (Demo.report_page 2) "summary");
    discriminate.
Defined.

Lemma braces_in_reverse_order_witness :
  backend Ledger.env (path_str (Demo.temp_of Ledger.braces_png))
    (prompt_for "text_extraction")
  = Generated (Some "closing } before opening {")
  /\ json_loads Ledger.env "" = Raise (JSONDecodeError "Expecting value")
  /\ answer Ledger.env (Demo.temp_of Ledger.braces_png) "text_extraction"
     = PDict [("success", PBool true);
              ("data", PDict [("text", PStr "closing } before opening {")]);
              ("raw_response", PStr "closing } before opening {")].
Proof.
  split; [reflexivity|]. split; [reflexivity|].
  refine (braces_in_reverse_order Ledger.env (Demo.temp_of Ledger.braces_png)
            "text_extraction" (Some "closing } before opening {") 25 8
            "Expecting value" eq_refl _ _ _ eq_refl).
  - split; [reflexivity|].
    intros k Hk.
    do 25 (destruct k as [|k]; [discriminate|]). lia.
  - split; [reflexivity|].
    intros k Hk.
    do 9 (destruct k as [|k]; [lia|]).
    do 17 (destruct k as [|k]; [discriminate|]). now destruct k.
  - lia.
Defined.

Lemma string_headers_are_split_witness :
  succeeded (answer Ledger.env Ledger.ledger_page "text_extraction") = true
  /\ payload (answer Ledger.env Ledger.ledger_page "text_extraction")
     = PDict [("headers", PStr "Ledger"); ("content", PList [PStr "Opening balance"])]
  /\ exists acc',
       fst (process_page Ledger.env (0%nat, Ledger.ledger_page) (mkAcc [] [] [] []) Demo.fresh)
       = Ok acc'
       /\ text_headers acc' = ([] ++ chars "Ledger")%list
       /\ length (text_headers acc') = (length (@nil pyval) + String.length "Ledger")%nat.
Proof.
  assert (Hs : succeeded (answer Ledger.env Ledger.ledger_page "text_extraction") = true)
    by (vm_compute; reflexivity).
  assert (Hp : payload (answer Ledger.env Ledger.ledger_page "text_extraction")
               = PDict [("headers", PStr "Ledger");
                        ("content", PList [PStr "Opening balance"])])
    by (vm_compute; reflexivity).
  split; [exact Hs|]. split; [exact Hp|].
  exact (string_headers_are_split Ledger.env 0%nat Ledger.ledger_page (mkAcc [] [] [] [])
           Demo.fresh _ "Ledger" Hs Hp eq_refl eq_refl).
Defined.

Lemma report_pages_foldable_ledger :
  forall img, In img [Demo.report_page 1; Demo.report_page 2] ->
    foldable (payload (answer Ledger.env img "text_extraction")) = true.
Proof. intros img [<-|[<-|[]]]; vm_compute; reflexivity. Qed.

Lemma convert_replaces_table_workbook_witness :
  read_file "/srv/ocr/data/outputs/report.xlsx"
    (files (snd (process_pages Ledger.env "pdf" "report"
                   (joinpath (SCREENSHOT_FOLDER Ledger.env) "report")
                   [Demo.report_page 1; Demo.report_page 2] Demo.fresh)))
  = Some (Workbook [("Page 2", mkFrame [PStr "item"; PStr "qty"] [[PStr "pen"; PInt 2]])])
  /\ read_file "/srv/ocr/data/outputs/report.xlsx"
       (files (snd (convert_json_to_excel Ledger.env Ledger.office
                      (with_suffix (joinpath (OUTPUT_FOLDER Ledger.env) "report") ".json")
                      None
                      (snd (process_pages Ledger.env "pdf" "report"
                              (joinpath (SCREENSHOT_FOLDER Ledger.env) "report")
                              [Demo.report_page 1; Demo.report_page 2] Demo.fresh)))))
     = Some (Workbook [("Headers", mkFrame [PStr "Headers"] [[PStr "Invoice"]]);
                       ("Content", mkFrame [PStr "Content"] [[PStr "Total due: 5"]])]).
Proof.
  split; [vm_compute; reflexivity|].
  refine (proj2 (convert_replaces_table_workbook Ledger.env Ledger.office "pdf" "report"
                   (joinpath (SCREENSHOT_FOLDER Ledger.env) "report")
                   [Demo.report_page 1; Demo.report_page 2] Demo.fresh
                   (mkFrame [PStr "Headers"] [[PStr "Invoice"]])
                   (mkFrame [PStr "Content"] [[PStr "Total due: 5"]])
                   _ report_pages_foldable_ledger _ _ eq_refl eq_refl eq_refl)).
  - discriminate.
  - vm_compute. reflexivity.
  - vm_compute. reflexivity.
Defined.

Lemma dotted_page_foldable :
  forall img, In img [Ledger.dotted_page] ->
    foldable (payload (answer Ledger.env img "text_extraction")) = true.
Proof. intros img [<-|[]]; vm_compute; reflexivity. Qed.

Lemma dotted_pdf_names_share_outputs_witness :
  exists r w',
    process_document Ledger.env (mkPath (path_str Demo.uploads) (("ledger" ++ ".2024") ++ ".pdf"))
      Demo.fresh
    = (Ok (PDict r), w')
    /\ lookup "screenshot_folder" r
       = Some (PStr (path_str (joinpath (SCREENSHOT_FOLDER Ledger.env) ("ledger" ++ ".2024"))))
    /\ lookup "text_output_path" r
       = Some (PStr (path_str (joinpath (OUTPUT_FOLDER Ledger.env) ("ledger" ++ ".json"))))
    /\ (lookup "table_output_path" r = Some PNone
        \/ lookup "table_output_path" r
           = Some (PStr (path_str (joinpath (OUTPUT_FOLDER Ledger.env) ("ledger" ++ ".xlsx"))))).
Proof.
  refine (dotted_pdf_names_share_outputs Ledger.env (path_str Demo.uploads) "ledger" "2024"
            [Ledger.dotted_page] Demo.fresh _ _ _ _ _ _ dotted_page_foldable).
  - discriminate.
  - discriminate.
  - reflexivity.
  - vm_compute. reflexivity.
  - discriminate.
Defined.
